(** * OSM mesh builders: attribute resolution, elevation sampling,
      local projection, footprint extrusion policy and road strips

    Shallow embedding of [scripts/osm/build_buildings.py] and
    [scripts/osm/build_roads.py], of the response parser and the retry
    loop of [scripts/osm/fetch_osm.py], and of the file names, the
    pagination and the downloads of [scripts/terrain/fetch_usgs_dem.py].

    Conventions of the embedding.
    - The geometry (sampling, projection, road strips) is embedded twice.
      Over the real numbers [R] the Python [float] operations are the
      exact ones: these definitions carry the properties of the formulas,
      and every statement about them is a statement in exact real
      arithmetic.  Where numpy produces NaN from [0/0] this model says so
      explicitly ([VNaN], [DirNaN]).  In the modules [B64] and [Binary64]
      the same functions compute on IEEE 754 binary64 numbers, rounding
      included: these definitions evaluate the code bit for bit at
      concrete inputs and carry what holds of the rounded results.
    - The values produced by the tag resolvers keep Python's distinction
      between [int] and [float] ([pynum]); finite floats are exact
      rationals, infinities and NaN are separate constructors.
    - An uncaught Python exception is the outcome [Raised]; a returned
      [None] is [Returned None].
    - Tag sets are finite maps from strings to strings.
    - What belongs to a library is a parameter: the shapely and trimesh
      calls, the mesh constructor [trimesh.Trimesh], the cosine of the C
      library.
    - The network is a parameter: the reply to a request is a function of
      the attempt number, or of the offset asked for; seconds slept and
      requests sent are counted in the result. *)

From Stdlib Require Import ZArith QArith Qround Reals Lra Lia List String Ascii Bool.
From Stdlib Require Import SpecFloat.
From stdpp Require Import base option gmap strings.

Set Default Proof Using "Type".

(* ===================================================================== *)
(** ** Python built-ins used by the scripts *)
(* ===================================================================== *)

Module Py.

(** A Python [float]: finite (exact rational here), signed infinity, NaN. *)
Inductive pyfloat : Type :=
  | FFin (q : Q)
  | FInf (neg : bool)
  | FNaN.

(** A Python number as the resolvers return it: [int] or [float]. *)
Inductive pynum : Type :=
  | PyInt (z : Z)
  | PyFloat (f : pyfloat).

(** [a * b] on floats, with the IEEE special cases. *)
Definition float_mul (a b : pyfloat) : pyfloat :=
  match a, b with
  | FNaN, _ | _, FNaN => FNaN
  | FFin x, FFin y => FFin (x * y)
  | FInf s, FInf t => FInf (xorb s t)
  | FInf s, FFin y | FFin y, FInf s =>
      match (y ?= 0)%Q with
      | Eq => FNaN
      | Gt => FInf s
      | Lt => FInf (negb s)
      end
  end.

(** [x > 0] as Python evaluates it. *)
Definition float_pos (f : pyfloat) : bool :=
  match f with
  | FFin q => (0 <? Qnum q)%Z
  | FInf neg => negb neg
  | FNaN => false
  end.

Definition num_pos (x : pynum) : bool :=
  match x with
  | PyInt z => (0 <? z)%Z
  | PyFloat f => float_pos f
  end.

(** [x == q] for a finite rational [q], as Python compares an [int] or a
    [float] with a number. *)
Definition num_is (x : pynum) (q : Q) : Prop :=
  match x with
  | PyInt z => (inject_Z z == q)%Q
  | PyFloat (FFin q') => (q' == q)%Q
  | PyFloat _ => False
  end.

(** *** Strings *)

(** [str.replace] of a one-character pattern [c] by the empty string. *)
Fixpoint remove_char (c : ascii) (s : string) : string :=
  match s with
  | EmptyString => EmptyString
  | String a s' =>
      if Ascii.eqb a c then remove_char c s' else String a (remove_char c s')
  end.

(** Whitespace of [str.strip()] and of the numeric constructors (ASCII). *)
Definition is_space (c : ascii) : bool :=
  let n := nat_of_ascii c in
  ((9 <=? n) && (n <=? 13)) || ((28 <=? n) && (n <=? 32)).

Fixpoint lstrip (s : string) : string :=
  match s with
  | String a s' => if is_space a then lstrip s' else s
  | EmptyString => EmptyString
  end.

Fixpoint rstrip (s : string) : string :=
  match s with
  | EmptyString => EmptyString
  | String a s' =>
      match rstrip s' with
      | EmptyString => if is_space a then EmptyString else String a EmptyString
      | r => String a r
      end
  end.

Definition strip (s : string) : string := rstrip (lstrip s).

Definition lower_char (c : ascii) : ascii :=
  let n := nat_of_ascii c in
  if (65 <=? n) && (n <=? 90) then ascii_of_nat (n + 32) else c.

Fixpoint lower (s : string) : string :=
  match s with
  | EmptyString => EmptyString
  | String a s' => String (lower_char a) (lower s')
  end.

(** *** Decimal literals *)

Definition digit_of (c : ascii) : option Z :=
  let n := nat_of_ascii c in
  if (48 <=? n) && (n <=? 57) then Some (Z.of_nat n - 48)%Z else None.

(** The tail of a [digitpart]: digits, each optionally preceded by one
    underscore.  Returns the accumulated value, the number of digits read
    and the unread rest. *)
Fixpoint digits_tail (s : string) (acc : Z) (cnt : nat) : Z * nat * string :=
  match s with
  | EmptyString => (acc, cnt, s)
  | String c s' =>
      match digit_of c with
      | Some d => digits_tail s' (10 * acc + d)%Z (S cnt)
      | None =>
          if Ascii.eqb c "_" then
            match s' with
            | String c2 s'' =>
                match digit_of c2 with
                | Some d => digits_tail s'' (10 * acc + d)%Z (S cnt)
                | None => (acc, cnt, s)
                end
            | EmptyString => (acc, cnt, s)
            end
          else (acc, cnt, s)
      end
  end.

(** [digitpart ::= digit (["_"] digit)*], continuing the accumulator. *)
Definition digitpart (acc : Z) (s : string) : option (Z * nat * string) :=
  match s with
  | String c s' =>
      match digit_of c with
      | Some d => Some (digits_tail s' (10 * acc + d)%Z 1%nat)
      | None => None
      end
  | EmptyString => None
  end.

Definition sign (s : string) : bool * string :=
  match s with
  | String c s' =>
      if Ascii.eqb c "-" then (true, s')
      else if Ascii.eqb c "+" then (false, s')
      else (false, s)
  | EmptyString => (false, s)
  end.

(** [m * 10^e] as a rational in lowest terms. *)
Definition pow10 (m e : Z) : Q :=
  Qred (if (0 <=? e)%Z then inject_Z (m * 10 ^ e)
        else Qmake m (Z.to_pos (10 ^ (- e)))).

(** The optional exponent and the end of the literal; [m] is the mantissa
    read so far and [k] the number of fraction digits in it. *)
Definition exponent (m : Z) (k : nat) (s : string) : option Q :=
  match s with
  | EmptyString => Some (pow10 m (- Z.of_nat k))
  | String c s' =>
      if Ascii.eqb (lower_char c) "e" then
        let '(eneg, s'') := sign s' in
        match digitpart 0 s'' with
        | Some (e, _, EmptyString) =>
            Some (pow10 m ((if eneg then - e else e) - Z.of_nat k))
        | _ => None
        end
      else None
  end.

(** [floatnumber]: [digitpart ["." [digitpart]] [exponent]] or
    ["." digitpart [exponent]]. *)
Definition floatnumber (s : string) : option Q :=
  match digitpart 0 s with
  | Some (i, _, rest) =>
      match rest with
      | String c rest' =>
          if Ascii.eqb c "." then
            match digitpart i rest' with
            | Some (m, k, rest'') => exponent m k rest''
            | None => exponent i 0 rest'
            end
          else exponent i 0 rest
      | EmptyString => exponent i 0 rest
      end
  | None =>
      match s with
      | String c rest' =>
          if Ascii.eqb c "." then
            match digitpart 0 rest' with
            | Some (m, k, rest'') => exponent m k rest''
            | None => None
            end
          else None
      | EmptyString => None
      end
  end.

(** [float(s)] on a string: [None] is [ValueError].  ASCII syntax:
    surrounding whitespace, an optional sign, then [inf], [infinity] or
    [nan] in any case, or a decimal literal. *)
Definition float (s : string) : option pyfloat :=
  let '(neg, body) := sign (strip s) in
  let l := lower body in
  if (String.eqb l "inf" || String.eqb l "infinity")%bool then Some (FInf neg)
  else if String.eqb l "nan" then Some FNaN
  else
    match floatnumber body with
    | Some q => Some (FFin (if neg then Qred (- q) else q))
    | None => None
    end.

(** [int(s)] on a string, base ten: [None] is [ValueError]. *)
Definition int (s : string) : option Z :=
  let '(neg, body) := sign (strip s) in
  match digitpart 0 body with
  | Some (v, _, EmptyString) => Some (if neg then (- v)%Z else v)
  | _ => None
  end.

End Py.

(** The outcome of a call that may raise. *)
Inductive outcome (A : Type) : Type :=
  | Returned (a : A)
  | Raised.
Arguments Returned {A} a.
Arguments Raised {A}.

Definition obind {A B : Type} (x : outcome A) (k : A -> outcome B) : outcome B :=
  match x with
  | Returned a => k a
  | Raised => Raised
  end.

Notation "'do' x <- e ; k" := (obind e (fun x => k))
  (at level 10, x name, e at level 100, k at level 200).

(** Both scripts define [METERS_TO_FEET = 3.28084]: a real in geometry,
    a rational where a resolver multiplies a parsed float with it. *)
Definition METERS_TO_FEET : R := 328084 / 100000.
Definition METERS_TO_FEET_Q : Q := 328084 # 100000.
Definition EARTH_RADIUS : R := 6378137.

(** [math.radians] *)
Definition radians (x : R) : R := (x * (PI / 180))%R.

(** [int(x)] on a float: truncation toward zero. *)
Definition trunc (x : R) : Z :=
  if Rlt_dec x 0 then (- Int_part (- x))%Z else Int_part x.

(** A node of a feature: the dictionary with keys [lat] and [lon]. *)
Record Node : Type := { lat : R; lon : R }.

(* ===================================================================== *)
(** ** HeightmapSampler (the same class in both scripts) *)
(* ===================================================================== *)

(** The sampler in exact real arithmetic; [Binary64.Heightmap] is the same
    class with every operation rounded. *)
Module Heightmap.
Local Open Scope R_scope.

(** The attributes [__init__] sets when both files exist; [samples] is the
    row-major content of the binary file. *)
Record Grid : Type := {
  origin_lat : R;
  origin_lon : R;
  pixel_size : R;
  width : Z;
  height : Z;
  samples : list R
}.

(** The state of a sampler: [self.grid is None], or a grid. *)
Definition HeightmapSampler : Type := option Grid.

(** What [reshape((height, width))] has checked when [__init__] returns
    with a grid. *)
Definition grid_loaded (g : Grid) : Prop :=
  (0 <= width g)%Z /\ (0 <= height g)%Z /\
  length (samples g) = Z.to_nat (height g * width g).

(** [self.grid[r, c]] for non-negative indices; out of range raises
    [IndexError]. *)
Definition grid_at (g : Grid) (r c : Z) : outcome R :=
  if ((0 <=? r) && (r <? height g) && (0 <=? c) && (c <? width g))%Z then
    match nth_error (samples g) (Z.to_nat (r * width g + c)) with
    | Some v => Returned v
    | None => Raised
    end
  else Raised.

(** The fractional column and row of a point; the division raises
    [ZeroDivisionError] when [pixel_size] is zero. *)
Definition grid_position (g : Grid) (lat lon : R) : outcome (R * R) :=
  if Req_dec_T (pixel_size g) 0 then Raised
  else Returned ((lon - origin_lon g) / pixel_size g,
                 (origin_lat g - lat) / pixel_size g).

Definition out_of_bounds (g : Grid) (col row : R) : bool :=
  (if Rlt_dec col 0 then true else false)
  || (if Rge_dec col (IZR (width g - 1)) then true else false)
  || (if Rlt_dec row 0 then true else false)
  || (if Rge_dec row (IZR (height g - 1)) then true else false).

Definition sample (s : HeightmapSampler) (lat lon : R) : outcome (option R) :=
  match s with
  | None => Returned None
  | Some g =>
      do pos <- grid_position g lat lon;
      let '(col, row) := pos in
      if out_of_bounds g col row then Returned None
      else
        let c0 := trunc col in
        let c1 := (trunc col + 1)%Z in
        let r0 := trunc row in
        let r1 := (trunc row + 1)%Z in
        let dc := col - IZR c0 in
        let dr := row - IZR r0 in
        do v00 <- grid_at g r0 c0;
        do v01 <- grid_at g r0 c1;
        do v10 <- grid_at g r1 c0;
        do v11 <- grid_at g r1 c1;
        let v0 := v00 * (1 - dc) + v01 * dc in
        let v1 := v10 * (1 - dc) + v11 * dc in
        let elevation_meters := v0 * (1 - dr) + v1 * dr in
        Returned (Some (elevation_meters * METERS_TO_FEET))
  end.

End Heightmap.

(* ===================================================================== *)
(** ** Attribute resolvers *)
(* ===================================================================== *)

(** The clean-up both resolvers apply to an explicit dimension tag:
    every [m] and every apostrophe is removed, then the ends are
    stripped of whitespace. *)
Definition clean_dimension (h : string) : string :=
  Py.strip (Py.remove_char "'" (Py.remove_char "m" h)).

Module Buildings.


Definition DEFAULT_HEIGHTS : gmap string Z :=
  list_to_map
    [ ("house", 25); ("residential", 30); ("apartments", 45);
      ("commercial", 35); ("retail", 20); ("industrial", 40);
      ("warehouse", 30); ("garage", 12); ("shed", 10); ("barn", 35);
      ("church", 50); ("school", 35); ("hospital", 60); ("yes", 25) ]%Z.

Definition DEFAULT_HEIGHT : Z := 25.

Section Resolver.
(** The built-ins [float] and [int] on strings; [None] is the
    [ValueError] the resolver catches. *)
Variable py_float : string -> option Py.pyfloat.
Variable py_int : string -> option Z.

(** [DEFAULT_HEIGHTS.get(tags.get("building", "yes"), DEFAULT_HEIGHT)] *)
Definition height_by_type (tags : gmap string string) : Py.pynum :=
  let building_type := default "yes" (tags !! "building") in
  Py.PyInt (default DEFAULT_HEIGHT (DEFAULT_HEIGHTS !! building_type)).

Definition height_by_levels (tags : gmap string string) : Py.pynum :=
  match tags !! "building:levels" with
  | Some l =>
      match py_int l with
      | Some levels => Py.PyInt (levels * 10)
      | None => height_by_type tags
      end
  | None => height_by_type tags
  end.

Definition get_building_height (tags : gmap string string) : Py.pynum :=
  match tags !! "height" with
  | Some h =>
      match py_float (clean_dimension h) with
      | Some f => Py.PyFloat (Py.float_mul f (Py.FFin METERS_TO_FEET_Q))
      | None => height_by_levels tags
      end
  | None => height_by_levels tags
  end.
End Resolver.

(** *** Projection and footprint extrusion *)

Section Geometry.
Local Open Scope R_scope.

(** The projection in exact real arithmetic; [Binary64.Buildings] has it
    with every operation rounded. *)
Definition latlon_to_local (lat lon origin_lat origin_lon : R) : R * R :=
  let lat_rad := radians lat in
  let origin_lat_rad := radians origin_lat in
  let meters_per_deg_lat := (PI / 180) * EARTH_RADIUS in
  let meters_per_deg_lon := (PI / 180) * EARTH_RADIUS * cos origin_lat_rad in
  let dx_meters := (lon - origin_lon) * meters_per_deg_lon in
  let dz_meters := (lat - origin_lat) * meters_per_deg_lat in
  (dx_meters * METERS_TO_FEET, dz_meters * METERS_TO_FEET).
End Geometry.

(** The geometry [make_valid] can return, by [geom_type]. *)
#[local] Unset Elimination Schemes.
Inductive geometry (polygon : Type) : Type :=
  | GeomPolygon (p : polygon)
  | GeometryCollection (geoms : list (geometry polygon))
  | GeomOther.
#[local] Set Elimination Schemes.
Arguments GeomPolygon {polygon} p.
Arguments GeometryCollection {polygon} geoms.
Arguments GeomOther {polygon}.

Section Footprint.
Local Open Scope R_scope.

(** shapely and trimesh, at their boundary.  [None] is a raised
    exception, which [polygon_to_mesh] turns into [None]. *)
Variable polygon : Type.
Variable trimesh : Type.
Variable ShapelyPolygon : list (R * R) -> option polygon.
Variable is_valid : polygon -> bool.
Variable make_valid : polygon -> option (geometry polygon).
Variable area : polygon -> R.
Variable extrude_polygon : polygon -> R -> option trimesh.
Variable rotate_z_to_y : trimesh -> trimesh.
Variable apply_translation : R * R * R -> trimesh -> trimesh.

(** [[g for g in polygon.geoms if g.geom_type == 'Polygon']] *)
Fixpoint polygons_of (geoms : list (geometry polygon)) : list polygon :=
  match geoms with
  | [] => []
  | GeomPolygon p :: geoms' => p :: polygons_of geoms'
  | _ :: geoms' => polygons_of geoms'
  end.

(** [max(polygons, key=lambda p: p.area)]: the first of largest area. *)
Fixpoint max_by_area (best : polygon) (ps : list polygon) : polygon :=
  match ps with
  | [] => best
  | p :: ps' =>
      if Rlt_dec (area best) (area p) then max_by_area p ps'
      else max_by_area best ps'
  end.

(** The repair policy for an invalid polygon. *)
Definition repair (p : polygon) : option polygon :=
  if is_valid p then Some p
  else
    match make_valid p with
    | None => None
    | Some (GeometryCollection geoms) =>
        match polygons_of geoms with
        | [] => None
        | q :: qs => Some (max_by_area q qs)
        end
    | Some (GeomPolygon q) => Some q
    | Some GeomOther => None
    end.

(** The polygon that reaches the area test: projected, and repaired if
    needed. *)
Definition footprint_polygon (nodes : list Node) (origin_lat origin_lon : R)
  : option polygon :=
  let points_2d :=
    map (fun node => latlon_to_local (lat node) (lon node) origin_lat origin_lon)
        nodes in
  match ShapelyPolygon points_2d with
  | None => None
  | Some p => repair p
  end.

Definition polygon_to_mesh (nodes : list Node) (height base_elevation : R)
    (origin_lat origin_lon : R) : option trimesh :=
  if (length nodes <? 3)%nat then None
  else
    match footprint_polygon nodes origin_lat origin_lon with
    | None => None
    | Some p =>
        if Rlt_dec (area p) 10 then None
        else
          match extrude_polygon p height with
          | None => None
          | Some mesh =>
              Some (apply_translation (0, base_elevation, 0) (rotate_z_to_y mesh))
          end
    end.
End Footprint.

End Buildings.

Module Roads.


Definition ROAD_WIDTHS : gmap string Z :=
  list_to_map
    [ ("motorway", 48); ("motorway_link", 24); ("trunk", 40);
      ("trunk_link", 20); ("primary", 36); ("primary_link", 18);
      ("secondary", 30); ("secondary_link", 15); ("tertiary", 24);
      ("tertiary_link", 12);
      ("residential", 20); ("unclassified", 18); ("service", 12);
      ("living_street", 16);
      ("pedestrian", 10); ("footway", 6); ("path", 4); ("cycleway", 8);
      ("bridleway", 8); ("steps", 6); ("track", 10);
      ("road", 20) ]%Z.

Definition DEFAULT_ROAD_WIDTH : Z := 16.

Section Resolver.
Variable py_float : string -> option Py.pyfloat.
Variable py_int : string -> option Z.

(** [ROAD_WIDTHS.get(tags.get("highway", "road"), DEFAULT_ROAD_WIDTH)] *)
Definition width_by_type (tags : gmap string string) : Py.pynum :=
  let highway_type := default "road" (tags !! "highway") in
  Py.PyInt (default DEFAULT_ROAD_WIDTH (ROAD_WIDTHS !! highway_type)).

Definition width_by_lanes (tags : gmap string string) : Py.pynum :=
  match tags !! "lanes" with
  | Some l =>
      match py_int l with
      | Some lanes => Py.PyInt (lanes * 10)
      | None => width_by_type tags
      end
  | None => width_by_type tags
  end.

Definition get_road_width (tags : gmap string string) : Py.pynum :=
  match tags !! "width" with
  | Some w =>
      match py_float (clean_dimension w) with
      | Some f => Py.PyFloat (Py.float_mul f (Py.FFin METERS_TO_FEET_Q))
      | None => width_by_lanes tags
      end
  | None => width_by_lanes tags
  end.
End Resolver.

(** *** Projection and road strips *)

(** The strip builder in exact real arithmetic; [Binary64.Roads] has it
    with every operation rounded. *)
Section Geometry.
Local Open Scope R_scope.

Definition ROAD_SURFACE_OFFSET : R := 1 / 10.

Definition latlon_to_local (lat lon origin_lat origin_lon : R) : R * R :=
  let origin_lat_rad := radians origin_lat in
  let meters_per_deg_lat := (PI / 180) * EARTH_RADIUS in
  let meters_per_deg_lon := (PI / 180) * EARTH_RADIUS * cos origin_lat_rad in
  let dx_meters := (lon - origin_lon) * meters_per_deg_lon in
  let dz_meters := (lat - origin_lat) * meters_per_deg_lat in
  (dx_meters * METERS_TO_FEET, dz_meters * METERS_TO_FEET).

(** A row [[x, y, z]] of a numpy array. *)
Record vec3 : Type := Vec3 { vx : R; vy : R; vz : R }.

Definition vadd (a b : vec3) : vec3 :=
  Vec3 (vx a + vx b) (vy a + vy b) (vz a + vz b).
Definition vsub (a b : vec3) : vec3 :=
  Vec3 (vx a - vx b) (vy a - vy b) (vz a - vz b).
Definition vscale (a : vec3) (k : R) : vec3 :=
  Vec3 (vx a * k) (vy a * k) (vz a * k).
Definition vdiv (a : vec3) (k : R) : vec3 :=
  Vec3 (vx a / k) (vy a / k) (vz a / k).
(** [np.linalg.norm] *)
Definition norm (a : vec3) : R :=
  sqrt (vx a * vx a + vy a * vy a + vz a * vz a).

Definition vzero : vec3 := Vec3 0 0 0.

(** A direction vector: numbers, or NaN in x and z after a division of
    the zero vector by its zero norm. *)
Inductive direction : Type :=
  | Dir (d : vec3)
  | DirNaN.

(** [v / np.linalg.norm(v)]: numpy gives NaN for [0 / 0]. *)
Definition normalized (v : vec3) : direction :=
  if Req_dec_T (norm v) 0 then DirNaN else Dir (vdiv v (norm v)).

(** A vertex of the strip: a point, or [(nan, y, nan)]. *)
Inductive vertex : Type :=
  | V (p : vec3)
  | VNaN (y : R).

(** The [vertices] and [faces] arrays of a strip. *)
Record Mesh : Type := {
  vertices : list vertex;
  faces : list (nat * nat * nat)
}.

(** The body of the first loop for one node. *)
Definition node_point (heightmap : option Heightmap.HeightmapSampler)
    (default_elevation origin_lat origin_lon : R) (node : Node) : outcome vec3 :=
  let '(x, z) := latlon_to_local (lat node) (lon node) origin_lat origin_lon in
  do y <- match heightmap with
          | Some hm =>
              do sampled <- Heightmap.sample hm (lat node) (lon node);
              Returned (match sampled with
                        | Some s => s
                        | None => default_elevation
                        end)
          | None => Returned default_elevation
          end;
  Returned (Vec3 x (y + ROAD_SURFACE_OFFSET) z).

Fixpoint road_points (heightmap : option Heightmap.HeightmapSampler)
    (default_elevation origin_lat origin_lon : R) (nodes : list Node)
  : outcome (list vec3) :=
  match nodes with
  | [] => Returned []
  | node :: nodes' =>
      do p <- node_point heightmap default_elevation origin_lat origin_lon node;
      do ps <- road_points heightmap default_elevation origin_lat origin_lon nodes';
      Returned (p :: ps)
  end.

(** [direction] at index [i], after [direction[1] = 0]. *)
Definition direction_at (points_3d : list vec3) (i : nat) : direction :=
  let p := nth i points_3d vzero in
  let direction :=
    if (i =? 0)%nat then Dir (vsub (nth (i + 1) points_3d vzero) p)
    else if (i =? length points_3d - 1)%nat then
      Dir (vsub p (nth (i - 1) points_3d vzero))
    else
      let dir_in := vsub p (nth (i - 1) points_3d vzero) in
      let dir_out := vsub (nth (i + 1) points_3d vzero) p in
      match normalized dir_in, normalized dir_out with
      | Dir a, Dir b => Dir (vadd a b)
      | _, _ => DirNaN
      end in
  match direction with
  | Dir d => Dir (Vec3 (vx d) 0 (vz d))
  | DirNaN => DirNaN
  end.

(** The left and right vertex the second loop appends at index [i]. *)
Definition strip_pair (points_3d : list vec3) (half_width : R) (i : nat)
  : vertex * vertex :=
  let p := nth i points_3d vzero in
  match direction_at points_3d i with
  | DirNaN => (VNaN (vy p), VNaN (vy p))
  | Dir direction =>
      let length := norm direction in
      let perp :=
        if Rlt_dec length (1 / 1000) then Vec3 1 0 0
        else
          let direction := vdiv direction length in
          Vec3 (- vz direction) 0 (vx direction) in
      (V (vadd p (vscale perp half_width)), V (vsub p (vscale perp half_width)))
  end.

(** The second loop: a left and a right vertex per point, in order. *)
Definition strip_vertices (points_3d : list vec3) (half_width : R) : list vertex :=
flat_map (fun i => let '(left_v, right_v) := strip_pair points_3d half_width i in
                   [left_v; right_v])
         (seq 0 (length points_3d)).

(** The third loop: two triangles per segment, for [n] points. *)
Definition strip_faces (n : nat) : list (nat * nat * nat) :=
flat_map (fun i => let idx := (i * 2)%nat in
                   [(idx, idx + 2, idx + 1); (idx + 1, idx + 2, idx + 3)]%nat)
         (seq 0 (n - 1)).

(** [trimesh.Trimesh(vertices=vertices, faces=faces)] belongs to the
    library, and by default it processes the arrays it is given: the mesh
    type and the constructor are parameters. *)
Definition road_to_mesh {trimesh : Type} (Trimesh : Mesh -> trimesh)
    (nodes : list Node) (width : R)
    (heightmap : option Heightmap.HeightmapSampler)
    (default_elevation origin_lat origin_lon : R) : outcome (option trimesh) :=
if (length nodes <? 2)%nat then Returned None
else
  do points_3d <- road_points heightmap default_elevation origin_lat origin_lon nodes;
  if (length points_3d <? 2)%nat then Returned None
  else
    let half_width := width / 2 in
    let vertices := strip_vertices points_3d half_width in
    let faces := strip_faces (length points_3d) in
    if (length faces =? 0)%nat then Returned None
    else Returned (Some (Trimesh {| vertices := vertices; faces := faces |})).

(** The [vertices] and [faces] arrays [road_to_mesh] has built when it
    calls the constructor: its result for a constructor that keeps what it
    is given. *)
Definition road_strip (nodes : list Node) (width : R)
    (heightmap : option Heightmap.HeightmapSampler)
    (default_elevation origin_lat origin_lon : R) : outcome (option Mesh) :=
road_to_mesh (fun arrays => arrays) nodes width heightmap
  default_elevation origin_lat origin_lon.
End Geometry.

End Roads.

(* ===================================================================== *)
(** ** Binary64 arithmetic *)
(* ===================================================================== *)

(** Python's [float] and numpy's [float64] are IEEE 754 binary64 numbers;
    the operations are those of the standard library's specification of
    floating-point arithmetic, at precision 53, rounding to nearest even. *)
Module B64.

Definition prec : Z := 53.
Definition emax : Z := 1024.

Definition float : Type := spec_float.

(** The float nearest to [m * 2^e]. *)
Definition make (m e : Z) : float := binary_normalize prec emax m e false.

(** [float(z)] for an integer. *)
Definition of_Z (z : Z) : float := make z 0.

Definition add : float -> float -> float := SFadd prec emax.
Definition sub : float -> float -> float := SFsub prec emax.
Definition mul : float -> float -> float := SFmul prec emax.
(** Division as IEEE 754 and numpy have it: a zero divisor gives an
    infinity or NaN. *)
Definition div : float -> float -> float := SFdiv prec emax.
Definition sqrt : float -> float := SFsqrt prec emax.
Definition opp : float -> float := SFopp.

(** A decimal literal [n / d] of the source, for integers [n] and [d]
    below [2^53]: the float nearest to the quotient. *)
Definition literal (n d : Z) : float := div (of_Z n) (of_Z d).

Definition is_zero (x : float) : bool :=
  match x with
  | S754_zero _ => true
  | _ => false
  end.

(** Neither an infinity nor NaN. *)
Definition is_finite (x : float) : bool :=
  match x with
  | S754_zero _ | S754_finite _ _ _ => true
  | _ => false
  end.

(** [x < y], [x == y]: false when either side is NaN. *)
Definition ltb : float -> float -> bool := SFltb.
Definition eqb : float -> float -> bool := SFeqb.

(** Python's [x / y] on floats: a zero divisor raises
    [ZeroDivisionError]. *)
Definition pydiv (x y : float) : outcome float :=
  if is_zero y then Raised else Returned (div x y).

(** The comparison of a float with an [int], which Python makes on the
    exact values; [None] for NaN. *)
Definition compare_Z (x : float) (z : Z) : option comparison :=
  match x with
  | S754_nan => None
  | S754_infinity s => Some (if s then Lt else Gt)
  | S754_zero _ => Some (0 ?= z)%Z
  | S754_finite s m e =>
      let n := cond_Zopp s (Zpos m) in
      Some (match e with
            | Zneg p => (n ?= z * 2 ^ Zpos p)%Z
            | _ => (n * 2 ^ e ?= z)%Z
            end)
  end.

(** [x < z] and [x >= z] for an [int] [z]. *)
Definition ltb_Z (x : float) (z : Z) : bool :=
  match compare_Z x z with
  | Some Lt => true
  | _ => false
  end.
Definition geb_Z (x : float) (z : Z) : bool :=
  match compare_Z x z with
  | Some (Gt | Eq) => true
  | _ => false
  end.

(** [int(x)]: truncation toward zero; NaN raises [ValueError], an
    infinity [OverflowError]. *)
Definition int (x : float) : outcome Z :=
  match x with
  | S754_zero _ => Returned 0%Z
  | S754_finite s m e =>
      Returned (cond_Zopp s (match e with
                             | Zneg p => Z.shiftr (Zpos m) (Zpos p)
                             | _ => Z.shiftl (Zpos m) e
                             end))
  | _ => Raised
  end.

(** The exact value of a float that is neither an infinity nor NaN. *)
Definition to_Q (x : float) : Q :=
  match x with
  | S754_finite s m e =>
      match e with
      | Zneg p => cond_Zopp s (Zpos m) # 2 ^ p
      | _ => inject_Z (cond_Zopp s (Zpos m) * 2 ^ e)
      end
  | _ => 0
  end.

(** [math.pi], [0x1.921fb54442d18p+1]. *)
Definition pi : float := make 7074237752028440 (-51).

(** [math.radians]: the product with the constant [pi / 180]. *)
Definition radians (x : float) : float := mul x (div pi (of_Z 180)).

End B64.

(* ===================================================================== *)
(** ** The geometry in binary64 *)
(* ===================================================================== *)

Module Binary64.

(** [METERS_TO_FEET = 3.28084] and [EARTH_RADIUS = 6378137.0]. *)
Definition METERS_TO_FEET : B64.float := B64.literal 328084 100000.
Definition EARTH_RADIUS : B64.float := B64.of_Z 6378137.

(** [math.cos]: an infinite argument raises [ValueError], NaN gives NaN;
    on the other arguments the value is the C library's, a parameter. *)
Definition math_cos (cos : B64.float -> B64.float) (x : B64.float)
  : outcome B64.float :=
  match x with
  | S754_infinity _ => Raised
  | S754_nan => Returned S754_nan
  | _ => Returned (cos x)
  end.

Record Node : Type := { lat : B64.float; lon : B64.float }.

Module Heightmap.

(** The samples are the [float32] numbers of the binary file, each of
    them a binary64 number; numpy widens a sample to binary64 when it
    meets a Python [float] in a product (the promotion rule of numpy
    before version 2). *)
Record Grid : Type := {
  origin_lat : B64.float;
  origin_lon : B64.float;
  pixel_size : B64.float;
  width : Z;
  height : Z;
  samples : list B64.float
}.

Definition HeightmapSampler : Type := option Grid.

Definition grid_at (g : Grid) (r c : Z) : outcome B64.float :=
  if ((0 <=? r) && (r <? height g) && (0 <=? c) && (c <? width g))%Z then
    match nth_error (samples g) (Z.to_nat (r * width g + c)) with
    | Some v => Returned v
    | None => Raised
    end
  else Raised.

Definition sample (s : HeightmapSampler) (lat lon : B64.float)
  : outcome (option B64.float) :=
  match s with
  | None => Returned None
  | Some g =>
      do col <- B64.pydiv (B64.sub lon (origin_lon g)) (pixel_size g);
      do row <- B64.pydiv (B64.sub (origin_lat g) lat) (pixel_size g);
      if B64.ltb_Z col 0 || B64.geb_Z col (width g - 1)
         || B64.ltb_Z row 0 || B64.geb_Z row (height g - 1)
      then Returned None
      else
        do c0 <- B64.int col;
        let c1 := (c0 + 1)%Z in
        do r0 <- B64.int row;
        let r1 := (r0 + 1)%Z in
        let dc := B64.sub col (B64.of_Z c0) in
        let dr := B64.sub row (B64.of_Z r0) in
        do v00 <- grid_at g r0 c0;
        do v01 <- grid_at g r0 c1;
        do v10 <- grid_at g r1 c0;
        do v11 <- grid_at g r1 c1;
        let v0 := B64.add (B64.mul v00 (B64.sub (B64.of_Z 1) dc)) (B64.mul v01 dc) in
        let v1 := B64.add (B64.mul v10 (B64.sub (B64.of_Z 1) dc)) (B64.mul v11 dc) in
        let elevation_meters :=
          B64.add (B64.mul v0 (B64.sub (B64.of_Z 1) dr)) (B64.mul v1 dr) in
        Returned (Some (B64.mul elevation_meters METERS_TO_FEET))
  end.

End Heightmap.

Module Buildings.
Section Geometry.
Variable cos : B64.float -> B64.float.

Definition latlon_to_local (lat lon origin_lat origin_lon : B64.float)
  : outcome (B64.float * B64.float) :=
  let lat_rad := B64.radians lat in
  let origin_lat_rad := B64.radians origin_lat in
  let meters_per_deg_lat :=
    B64.mul (B64.div B64.pi (B64.of_Z 180)) EARTH_RADIUS in
  do c <- math_cos cos origin_lat_rad;
  let meters_per_deg_lon :=
    B64.mul (B64.mul (B64.div B64.pi (B64.of_Z 180)) EARTH_RADIUS) c in
  let dx_meters := B64.mul (B64.sub lon origin_lon) meters_per_deg_lon in
  let dz_meters := B64.mul (B64.sub lat origin_lat) meters_per_deg_lat in
  Returned (B64.mul dx_meters METERS_TO_FEET, B64.mul dz_meters METERS_TO_FEET).
End Geometry.
End Buildings.

Module Roads.
Section Geometry.
Variable cos : B64.float -> B64.float.

Definition ROAD_SURFACE_OFFSET : B64.float := B64.literal 1 10.

Definition latlon_to_local (lat lon origin_lat origin_lon : B64.float)
  : outcome (B64.float * B64.float) :=
  let origin_lat_rad := B64.radians origin_lat in
  let meters_per_deg_lat :=
    B64.mul (B64.div B64.pi (B64.of_Z 180)) EARTH_RADIUS in
  do c <- math_cos cos origin_lat_rad;
  let meters_per_deg_lon :=
    B64.mul (B64.mul (B64.div B64.pi (B64.of_Z 180)) EARTH_RADIUS) c in
  let dx_meters := B64.mul (B64.sub lon origin_lon) meters_per_deg_lon in
  let dz_meters := B64.mul (B64.sub lat origin_lat) meters_per_deg_lat in
  Returned (B64.mul dx_meters METERS_TO_FEET, B64.mul dz_meters METERS_TO_FEET).

(** A row [[x, y, z]] of a [float64] array; the operations are numpy's,
    element by element. *)
Record vec3 : Type := Vec3 { vx : B64.float; vy : B64.float; vz : B64.float }.

Definition vadd (a b : vec3) : vec3 :=
  Vec3 (B64.add (vx a) (vx b)) (B64.add (vy a) (vy b)) (B64.add (vz a) (vz b)).
Definition vsub (a b : vec3) : vec3 :=
  Vec3 (B64.sub (vx a) (vx b)) (B64.sub (vy a) (vy b)) (B64.sub (vz a) (vz b)).
Definition vscale (a : vec3) (k : B64.float) : vec3 :=
  Vec3 (B64.mul (vx a) k) (B64.mul (vy a) k) (B64.mul (vz a) k).
Definition vdiv (a : vec3) (k : B64.float) : vec3 :=
  Vec3 (B64.div (vx a) k) (B64.div (vy a) k) (B64.div (vz a) k).

(** [np.linalg.norm]: the square root of the dot product of the row with
    itself; the three products are taken as rounded one by one and added
    from left to right. *)
Definition norm (a : vec3) : B64.float :=
  B64.sqrt (B64.add (B64.add (B64.mul (vx a) (vx a)) (B64.mul (vy a) (vy a)))
                    (B64.mul (vz a) (vz a))).

Definition vzero : vec3 := Vec3 (B64.of_Z 0) (B64.of_Z 0) (B64.of_Z 0).

(** The [vertices] and [faces] arrays. *)
Record Mesh : Type := {
  vertices : list vec3;
  faces : list (nat * nat * nat)
}.

Definition node_point (heightmap : option Heightmap.HeightmapSampler)
    (default_elevation origin_lat origin_lon : B64.float) (node : Node)
  : outcome vec3 :=
  do xz <- latlon_to_local (lat node) (lon node) origin_lat origin_lon;
  let '(x, z) := xz in
  do y <- match heightmap with
          | Some hm =>
              do sampled <- Heightmap.sample hm (lat node) (lon node);
              Returned (match sampled with
                        | Some s => s
                        | None => default_elevation
                        end)
          | None => Returned default_elevation
          end;
  Returned (Vec3 x (B64.add y ROAD_SURFACE_OFFSET) z).

Fixpoint road_points (heightmap : option Heightmap.HeightmapSampler)
    (default_elevation origin_lat origin_lon : B64.float) (nodes : list Node)
  : outcome (list vec3) :=
  match nodes with
  | [] => Returned []
  | node :: nodes' =>
      do p <- node_point heightmap default_elevation origin_lat origin_lon node;
      do ps <- road_points heightmap default_elevation origin_lat origin_lon nodes';
      Returned (p :: ps)
  end.

(** [direction] at index [i], after [direction[1] = 0]. *)
Definition direction_at (points_3d : list vec3) (i : nat) : vec3 :=
  let p := nth i points_3d vzero in
  let direction :=
    if (i =? 0)%nat then vsub (nth (i + 1) points_3d vzero) p
    else if (i =? length points_3d - 1)%nat then
      vsub p (nth (i - 1) points_3d vzero)
    else
      let dir_in := vsub p (nth (i - 1) points_3d vzero) in
      let dir_out := vsub (nth (i + 1) points_3d vzero) p in
      vadd (vdiv dir_in (norm dir_in)) (vdiv dir_out (norm dir_out)) in
  Vec3 (vx direction) (B64.of_Z 0) (vz direction).

(** The left and right vertex the second loop appends at index [i]. *)
Definition strip_pair (points_3d : list vec3) (half_width : B64.float) (i : nat)
  : vec3 * vec3 :=
  let p := nth i points_3d vzero in
  let direction := direction_at points_3d i in
  let length := norm direction in
  let perp :=
    if B64.ltb length (B64.literal 1 1000) then
      Vec3 (B64.of_Z 1) (B64.of_Z 0) (B64.of_Z 0)
    else
      let direction := vdiv direction length in
      Vec3 (B64.opp (vz direction)) (B64.of_Z 0) (vx direction) in
  (vadd p (vscale perp half_width), vsub p (vscale perp half_width)).

Definition strip_vertices (points_3d : list vec3) (half_width : B64.float)
  : list vec3 :=
flat_map (fun i => let '(left_v, right_v) := strip_pair points_3d half_width i in
                   [left_v; right_v])
         (seq 0 (length points_3d)).

Definition strip_faces (n : nat) : list (nat * nat * nat) :=
flat_map (fun i => let idx := (i * 2)%nat in
                   [(idx, idx + 2, idx + 1); (idx + 1, idx + 2, idx + 3)]%nat)
         (seq 0 (n - 1)).

(** [trimesh.Trimesh(vertices=vertices, faces=faces)] belongs to the
    library: the mesh type and the constructor are parameters. *)
Definition road_to_mesh {trimesh : Type} (Trimesh : Mesh -> trimesh)
    (nodes : list Node) (width : B64.float)
    (heightmap : option Heightmap.HeightmapSampler)
    (default_elevation origin_lat origin_lon : B64.float)
  : outcome (option trimesh) :=
if (length nodes <? 2)%nat then Returned None
else
  do points_3d <- road_points heightmap default_elevation origin_lat origin_lon nodes;
  if (length points_3d <? 2)%nat then Returned None
  else
    let half_width := B64.div width (B64.of_Z 2) in
    let vertices := strip_vertices points_3d half_width in
    let faces := strip_faces (length points_3d) in
    if (length faces =? 0)%nat then Returned None
    else Returned (Some (Trimesh {| vertices := vertices; faces := faces |})).
End Geometry.
End Roads.

End Binary64.


(* ===================================================================== *)
(** ** fetch_osm.py *)
(* ===================================================================== *)

Module Osm.

Definition MAX_RETRIES : nat := 3.
(** seconds *)
Definition RETRY_DELAY : nat := 5.

(** *** fetch_overpass *)

(** What one [requests.post] attempt, with [raise_for_status] and
    [resp.json()], comes to: the decoded body, a
    [requests.exceptions.RequestException], or any other exception. *)
Inductive reply (A E : Type) : Type :=
  | Json (a : A)
  | RequestException (e : E)
  | OtherException (e : E).
Arguments Json {A E} a.
Arguments RequestException {A E} e.
Arguments OtherException {A E} e.

(** How [fetch_overpass] ends: with the body, with the empty dictionary
    after the loop, or with an exception. *)
Inductive fetched (A E : Type) : Type :=
  | Body (a : A)
  | EmptyDict
  | Raise (e : E).
Arguments Body {A E} a.
Arguments EmptyDict {A E}.
Arguments Raise {A E} e.

(** The end of a run, the number of requests sent and the seconds slept. *)
Record run (A E : Type) : Type := {
  ended : fetched A E;
  requests : nat;
  slept : nat
}.
Arguments ended {A E} r.
Arguments requests {A E} r.
Arguments slept {A E} r.

(** The loop [for attempt in range(MAX_RETRIES)] from [attempt] on, with
    [remaining] iterations left; [post n] is the reply to the request of
    attempt [n]. *)
Fixpoint fetch_attempts {A E : Type} (post : nat -> reply A E)
    (attempt remaining slept : nat) : run A E :=
  match remaining with
  | O => {| ended := EmptyDict; requests := attempt; slept := slept |}
  | S remaining' =>
      match post attempt with
      | Json a => {| ended := Body a; requests := S attempt; slept := slept |}
      | RequestException e =>
          if (attempt <? MAX_RETRIES - 1)%nat then
            fetch_attempts post (S attempt) remaining' (slept + RETRY_DELAY)
          else {| ended := Raise e; requests := S attempt; slept := slept |}
      | OtherException e =>
          {| ended := Raise e; requests := S attempt; slept := slept |}
      end
  end.

Definition fetch_overpass {A E : Type} (post : nat -> reply A E) : run A E :=
  fetch_attempts post 0 MAX_RETRIES 0.

(** *** parse_elements *)

(** A Python dictionary with integer keys: insertion-ordered, an
    assignment to a present key keeps its position. *)
Fixpoint dict_set {V : Type} (d : list (Z * V)) (k : Z) (v : V) : list (Z * V) :=
  match d with
  | [] => [(k, v)]
  | (k', v') :: d' =>
      if (k' =? k)%Z then (k, v) :: d' else (k', v') :: dict_set d' k v
  end.

Fixpoint dict_get {V : Type} (d : list (Z * V)) (k : Z) : option V :=
  match d with
  | [] => None
  | (k', v') :: d' => if (k' =? k)%Z then Some v' else dict_get d' k
  end.

Section Parse.
(** A member of a relation; [parse_elements] copies members unread. *)
Variable member : Type.

(** An element of an Overpass response, by its [type]; [None] is an
    optional key that is missing. *)
Inductive element : Type :=
  | ElNode (id : Z) (lat lon : R) (tags : option (gmap string string))
  | ElWay (id : Z) (tags : option (gmap string string)) (nodes : option (list Z))
  | ElRelation (id : Z) (tags : option (gmap string string))
               (members : option (list member))
  | ElOther.

Record node_entry : Type := {
  n_id : Z; n_lat : R; n_lon : R; n_tags : gmap string string
}.

Record way_entry : Type := {
  w_id : Z; w_tags : gmap string string; w_nodes : list Node
}.

Record relation_entry : Type := {
  r_id : Z; r_tags : gmap string string; r_members : list member
}.

Record parsed : Type := {
  nodes : list node_entry;
  ways : list way_entry;
  relations : list relation_entry;
  buildings : list way_entry;
  roads : list way_entry;
  landuse : list way_entry;
  natural : list way_entry;
  water : list way_entry;
  amenities : list (node_entry + way_entry)
}.

(** First pass: collect all nodes. *)
Definition collect_nodes (elements : list element) : list (Z * node_entry) :=
  fold_left
    (fun nodes el =>
       match el with
       | ElNode id lat lon tags =>
           dict_set nodes id
             {| n_id := id; n_lat := lat; n_lon := lon; n_tags := default ∅ tags |}
       | _ => nodes
       end)
    elements [].

(** The inner loop of the second pass: the references found in [nodes]. *)
Fixpoint way_nodes (nodes : list (Z * node_entry)) (refs : list Z) : list Node :=
  match refs with
  | [] => []
  | node_id :: refs' =>
      match dict_get nodes node_id with
      | Some n => {| lat := n_lat n; lon := n_lon n |} :: way_nodes nodes refs'
      | None => way_nodes nodes refs'
      end
  end.

(** Second pass: collect ways and relations. *)
Definition collect_ways (nodes : list (Z * node_entry)) (elements : list element)
  : list way_entry * list relation_entry :=
  fold_left
    (fun acc el =>
       let '(ways, relations) := acc in
       match el with
       | ElWay id tags refs =>
           (ways ++ [ {| w_id := id; w_tags := default ∅ tags;
                         w_nodes := way_nodes nodes (default [] refs) |} ],
            relations)
       | ElRelation id tags members =>
           (ways,
            relations ++ [ {| r_id := id; r_tags := default ∅ tags;
                              r_members := default [] members |} ])
       | _ => acc
       end)
    elements ([], []).

(** [key in tags] *)
Definition has_key (key : string) (tags : gmap string string) : bool :=
  bool_decide (is_Some (tags !! key)).

(** [data] is the list under the key [elements], [None] when the key is
    missing. *)
Definition parse_elements (data : option (list element)) : parsed :=
  let elements := default [] data in
  let nodes := collect_nodes elements in
  let '(ways, relations) := collect_ways nodes elements in
  {| nodes := map snd nodes;
     ways := ways;
     relations := relations;
     buildings := filter (fun w => has_key "building" (w_tags w) = true) ways;
     roads := filter (fun w => has_key "highway" (w_tags w) = true) ways;
     landuse := filter (fun w => has_key "landuse" (w_tags w) = true) ways;
     natural := filter (fun w => has_key "natural" (w_tags w) = true) ways;
     water := filter (fun w => (has_key "water" (w_tags w)
                                || has_key "waterway" (w_tags w)) = true) ways;
     amenities :=
       map inl (filter (fun n => has_key "amenity" (n_tags n) = true) (map snd nodes))
       ++ map inr (filter (fun w => has_key "amenity" (w_tags w) = true) ways) |}.
End Parse.

Arguments ElNode {member} id lat lon tags.
Arguments ElWay {member} id tags nodes.
Arguments ElRelation {member} id tags members.
Arguments ElOther {member}.

End Osm.

(** *** Vocabulary for [parse_elements] *)

Section OsmVocabulary.
Variable member : Type.

(** The entry of the last node element with the identifier [id]. *)
Fixpoint last_node (elements : list (Osm.element member)) (id : Z)
  : option Osm.node_entry :=
  match elements with
  | [] => None
  | el :: elements' =>
      match last_node elements' id with
      | Some n => Some n
      | None =>
          match el with
          | Osm.ElNode id' lat lon tags =>
              if (id' =? id)%Z then
                Some {| Osm.n_id := id'; Osm.n_lat := lat; Osm.n_lon := lon;
                        Osm.n_tags := default ∅ tags |}
              else None
          | _ => None
          end
      end
  end.

(** The references that name a node element, as coordinates, in order. *)
Definition resolved (elements : list (Osm.element member)) (refs : list Z)
  : list Node :=
  omap (fun id => (fun n => {| lat := Osm.n_lat n; lon := Osm.n_lon n |})
                    <$> last_node elements id) refs.

(** One entry per way element, in order. *)
Definition ways_of (elements : list (Osm.element member)) : list Osm.way_entry :=
  omap (fun el =>
          match el with
          | Osm.ElWay id tags refs =>
              Some {| Osm.w_id := id; Osm.w_tags := default ∅ tags;
                      Osm.w_nodes := resolved elements (default [] refs) |}
          | _ => None
          end) elements.
End OsmVocabulary.

(* ===================================================================== *)
(** ** fetch_usgs_dem.py *)
(* ===================================================================== *)

Module Usgs.

(** *** sanitize_filename *)

Section Sanitize.
(** [c.isalnum()] for a character [c]. *)
Variable isalnum : ascii -> bool.

(** The character the generator expression yields for [c]. *)
Definition cleaned_char (c : ascii) : ascii :=
  if isalnum c || Ascii.eqb c "-" || Ascii.eqb c "_" then c else "_"%char.

Fixpoint cleaned (name : string) : string :=
  match name with
  | EmptyString => EmptyString
  | String c name' => String (cleaned_char c) (cleaned name')
  end.

(** [s.lstrip(x)] and [s.rstrip(x)] for a one-character set. *)
Fixpoint lstrip_char (x : ascii) (s : string) : string :=
  match s with
  | String a s' => if Ascii.eqb a x then lstrip_char x s' else s
  | EmptyString => EmptyString
  end.

Fixpoint rstrip_char (x : ascii) (s : string) : string :=
  match s with
  | EmptyString => EmptyString
  | String a s' =>
      match rstrip_char x s' with
      | EmptyString => if Ascii.eqb a x then EmptyString else String a EmptyString
      | r => String a r
      end
  end.

Definition sanitize_filename (name : string) : string :=
  rstrip_char "_" (lstrip_char "_" (cleaned name)).
End Sanitize.

(** *** fetch_items *)

Section FetchItems.
Variable item : Type.
(** The reply to the request with a given [offset]: the list under the
    key [items] (empty when the key is missing), or an exception. *)
Variable get : nat -> outcome (list item).
Variable max_items : Z.

(** The [while True] loop; [None] when [fuel] iterations do not end it. *)
Fixpoint fetch_items_loop (fuel : nat) (items : list item) (offset : nat)
  : option (outcome (list item)) :=
  match fuel with
  | O => None
  | S fuel' =>
      match get offset with
      | Raised => Some Raised
      | Returned batch =>
          match batch with
          | [] => Some (Returned items)
          | _ :: _ =>
              let items := items ++ batch in
              let offset := (offset + length batch)%nat in
              if (Z.of_nat (length batch) <? max_items)%Z then Some (Returned items)
              else fetch_items_loop fuel' items offset
          end
      end
  end.

Definition fetch_items (fuel : nat) : option (outcome (list item)) :=
  fetch_items_loop fuel [] 0.
End FetchItems.

(** *** download_file *)

(** What one download attempt comes to: the file written in full; one of
    the caught exceptions; any other exception.  [partial] tells whether
    the destination file had been created when the exception came. *)
Inductive attempt_result : Type :=
  | Complete
  | NetworkError (partial : bool)
  | OtherError (partial : bool).

Inductive download_end : Type :=
  | Finished
  | RuntimeError
  | Propagated.

(** How the call ends, whether the destination exists afterwards, the
    seconds waited and the number of requests sent. *)
Record download : Type := {
  d_end : download_end;
  d_exists : bool;
  d_waited : nat;
  d_requests : nat
}.

(** The loop [for attempt in range(max_retries)] from [attempt] on. *)
Fixpoint download_attempts (get : nat -> attempt_result) (max_retries : Z)
    (attempt remaining waited : nat) : download :=
  match remaining with
  | O => {| d_end := Finished; d_exists := false;
            d_waited := waited; d_requests := attempt |}
  | S remaining' =>
      match get attempt with
      | Complete => {| d_end := Finished; d_exists := true;
                       d_waited := waited; d_requests := S attempt |}
      | NetworkError partial =>
          (* the partial file, if any, is removed *)
          if (Z.of_nat attempt <? max_retries - 1)%Z then
            download_attempts get max_retries (S attempt) remaining'
                              (waited + (attempt + 1) * 10)
          else {| d_end := RuntimeError; d_exists := false;
                  d_waited := waited; d_requests := S attempt |}
      | OtherError partial =>
          {| d_end := Propagated; d_exists := partial;
             d_waited := waited; d_requests := S attempt |}
      end
  end.

Definition download_file (dest_exists : bool) (get : nat -> attempt_result)
    (max_retries : Z) : download :=
  if dest_exists then
    {| d_end := Finished; d_exists := true; d_waited := 0; d_requests := 0 |}
  else download_attempts get max_retries 0 (Z.to_nat max_retries) 0.

End Usgs.

(** [str.isalnum] on an ASCII character. *)
Definition isalnum_ascii (c : ascii) : bool :=
  let n := nat_of_ascii c in
  ((48 <=? n) && (n <=? 57)) || ((65 <=? n) && (n <=? 90))
  || ((97 <=? n) && (n <=? 122)).

(** Every character of [s] satisfies [p]. *)
Fixpoint all_chars (p : ascii -> bool) (s : string) : bool :=
  match s with
  | EmptyString => true
  | String c s' => p c && all_chars p s'
  end.

(** The last character of [s], if any. *)
Fixpoint last_char (s : string) : option ascii :=
  match s with
  | EmptyString => None
  | String c EmptyString => Some c
  | String _ s' => last_char s'
  end.

Definition first_char (s : string) : option ascii :=
  match s with
  | EmptyString => None
  | String c _ => Some c
  end.

(** The characters [sanitize_filename] lets through. *)
Definition allowed_char (isalnum : ascii -> bool) (c : ascii) : bool :=
  isalnum c || Ascii.eqb c "-" || Ascii.eqb c "_".

(** The characters that leave no trace at the ends of a name: the
    underscore and whatever is replaced by one. *)
Definition dropped_char (isalnum : ascii -> bool) (c : ascii) : bool :=
  Ascii.eqb c "_" || negb (isalnum c || Ascii.eqb c "-").

(** *** The download loop of [main] in fetch_usgs_dem.py *)

Module UsgsMain.

(** [s.endswith(suffix)] *)
Fixpoint endswith (s suffix : string) : bool :=
  String.eqb s suffix
  || match s with
     | String _ s' => endswith s' suffix
     | EmptyString => false
     end.

(** An item of the product list, with the keys the loop reads. *)
Record item : Type := {
  downloadURL : option string;
  title : option string
}.

(** An entry of [downloads]. *)
Record entry : Type := {
  e_title : string;
  e_url : string;
  e_path : string
}.

(** The file names present in the output directory, the list
    [downloads], and for every call of [download_file] the file name and
    the number of requests it sent. *)
Record state : Type := {
  files : gset string;
  downloads : list entry;
  calls : list (string * nat)
}.

Section Main.
Variable isalnum : ascii -> bool.
(** What the attempt with a given number on a URL comes to. *)
Variable get : string -> nat -> Usgs.attempt_result.

(** The body of [for item in items]; any exception out of
    [download_file] ends [main]. *)
Definition step (st : state) (it : item) : outcome state :=
  let title := default "usgs_dem" (title it) in
  match downloadURL it with
  | None => Returned st
  | Some url =>
      if String.eqb url EmptyString
         || negb (endswith (Py.lower url) ".tif" || endswith (Py.lower url) ".tiff")
      then Returned st
      else
        let filename := (Usgs.sanitize_filename isalnum title ++ ".tif")%string in
        let d := Usgs.download_file (bool_decide (filename ∈ files st)) (get url) 3 in
        match Usgs.d_end d with
        | Usgs.Finished =>
            Returned
              {| files := if Usgs.d_exists d then {[filename]} ∪ files st
                          else files st;
                 downloads := downloads st
                              ++ [ {| e_title := title; e_url := url;
                                      e_path := filename |} ];
                 calls := calls st ++ [(filename, Usgs.d_requests d)] |}
        | _ => Raised
        end
  end.

Fixpoint process (st : state) (items : list item) : outcome state :=
  match items with
  | [] => Returned st
  | it :: items' => do st' <- step st it; process st' items'
  end.
End Main.
End UsgsMain.

(* ===================================================================== *)
(** ** The batch loops of the two builders *)
(* ===================================================================== *)

(** A feature read from [roads.json] or [buildings.json]; [None] is a
    missing key, which [.get] replaces by the empty list or dictionary. *)
Record feature : Type := {
  f_nodes : option (list Node);
  f_tags : option (gmap string string)
}.

Module RoadsMain.
Section Batch.
Variable py_float : string -> option Py.pyfloat.
Variable py_int : string -> option Z.
(** The resolved width as the real number the strip builder computes
    with. *)
Variable real_of : Py.pynum -> R.
(** The mesh type and the constructor of the trimesh library. *)
Variable trimesh : Type.
Variable Trimesh : Roads.Mesh -> trimesh.
Variable heightmap : option Heightmap.HeightmapSampler.
Variables default_elevation origin_lat origin_lon : R.

(** [meshes], [skipped] and [type_counts] of [main]. *)
Record tally : Type := {
  meshes : list trimesh;
  skipped : nat;
  type_counts : gmap string nat
}.

(** The body of [for road in roads]. *)
Definition step (t : tally) (road : feature) : outcome tally :=
  let nodes := default [] (f_nodes road) in
  let tags := default ∅ (f_tags road) in
  if (length nodes <? 2)%nat then
    Returned {| meshes := meshes t; skipped := skipped t + 1;
                type_counts := type_counts t |}
  else
    let highway_type := default "road" (tags !! "highway") in
    let type_counts :=
      <[highway_type := (default 0 (type_counts t !! highway_type) + 1)%nat]>
        (type_counts t) in
    let width := Roads.get_road_width py_float py_int tags in
    do mesh <- Roads.road_to_mesh Trimesh nodes (real_of width) heightmap
                 default_elevation origin_lat origin_lon;
    match mesh with
    | Some m => Returned {| meshes := meshes t ++ [m]; skipped := skipped t;
                            type_counts := type_counts |}
    | None => Returned {| meshes := meshes t; skipped := skipped t + 1;
                          type_counts := type_counts |}
    end.

Fixpoint process (t : tally) (roads : list feature) : outcome tally :=
  match roads with
  | [] => Returned t
  | road :: roads' => do t' <- step t road; process t' roads'
  end.

Definition process_roads (roads : list feature) : outcome tally :=
  process {| meshes := []; skipped := 0; type_counts := ∅ |} roads.
End Batch.
Arguments meshes {trimesh} t.
Arguments skipped {trimesh} t.
Arguments type_counts {trimesh} t.
Arguments Build_tally {trimesh} meshes skipped type_counts.
End RoadsMain.

Module BuildingsMain.
Section Batch.
Variable py_float : string -> option Py.pyfloat.
Variable py_int : string -> option Z.
(** The resolved height as the real number handed to the extrusion. *)
Variable real_of : Py.pynum -> R.
Variable polygon : Type.
Variable trimesh : Type.
Variable ShapelyPolygon : list (R * R) -> option polygon.
Variable is_valid : polygon -> bool.
Variable make_valid : polygon -> option (Buildings.geometry polygon).
Variable area : polygon -> R.
Variable extrude_polygon : polygon -> R -> option trimesh.
Variable rotate_z_to_y : trimesh -> trimesh.
Variable apply_translation : R * R * R -> trimesh -> trimesh.
(** [None]: no [--heightmap] argument. *)
Variable heightmap : option Heightmap.HeightmapSampler.
Variables default_elevation origin_lat origin_lon : R.

Record tally : Type := {
  meshes : list trimesh;
  skipped : nat
}.

(** [sum(n[key] for n in nodes) / len(nodes)] *)
Definition mean (xs : list R) : R :=
  (fold_left Rplus xs 0 / INR (length xs))%R.

(** The body of [for building in buildings]. *)
Definition step (t : tally) (building : feature) : outcome tally :=
  let nodes := default [] (f_nodes building) in
  let tags := default ∅ (f_tags building) in
  if (length nodes <? 3)%nat then
    Returned {| meshes := meshes t; skipped := skipped t + 1 |}
  else
    let height := Buildings.get_building_height py_float py_int tags in
    let centroid_lat := mean (map lat nodes) in
    let centroid_lon := mean (map lon nodes) in
    do base_elevation <-
      match heightmap with
      | Some hm =>
          do sampled <- Heightmap.sample hm centroid_lat centroid_lon;
          Returned (match sampled with
                    | Some s => s
                    | None => default_elevation
                    end)
      | None => Returned default_elevation
      end;
    match Buildings.polygon_to_mesh polygon trimesh ShapelyPolygon is_valid
            make_valid area extrude_polygon rotate_z_to_y apply_translation
            nodes (real_of height) base_elevation origin_lat origin_lon with
    | Some m => Returned {| meshes := meshes t ++ [m]; skipped := skipped t |}
    | None => Returned {| meshes := meshes t; skipped := skipped t + 1 |}
    end.

Fixpoint process (t : tally) (buildings : list feature) : outcome tally :=
  match buildings with
  | [] => Returned t
  | building :: buildings' => do t' <- step t building; process t' buildings'
  end.

Definition process_buildings (buildings : list feature) : outcome tally :=
  process {| meshes := []; skipped := 0 |} buildings.
End Batch.
End BuildingsMain.

(** The number of nodes of a feature. *)
Definition node_count (f : feature) : nat := length (default [] (f_nodes f)).

(** The highway type [main] counts a road under. *)
Definition highway_type (f : feature) : string :=
  default "road" (default ∅ (f_tags f) !! "highway").

(** The number of elements of [l] that satisfy [p]. *)
Definition count_if {A : Type} (p : A -> bool) (l : list A) : nat :=
  length (List.filter p l).

(* ===================================================================== *)
(** ** Vocabulary of the statements *)
(* ===================================================================== *)

(** Every value of [key] that [py_float] accepts after the clean-up is a
    float [> 0]. *)
Definition parses_positive (py_float : string -> option Py.pyfloat)
    (tags : gmap string string) (key : string) : Prop :=
  forall v f, tags !! key = Some v -> py_float (clean_dimension v) = Some f ->
              Py.float_pos f = true.

(** Every value of [key] that [py_int] accepts is an integer [> 0]. *)
Definition counts_positive (py_int : string -> option Z)
    (tags : gmap string string) (key : string) : Prop :=
  forall v n, tags !! key = Some v -> py_int v = Some n -> (0 < n)%Z.


(** A three by three grid at the origin with a pixel of one degree. *)
Definition demo_grid : Heightmap.Grid :=
  {| Heightmap.origin_lat := 0; Heightmap.origin_lon := 0;
     Heightmap.pixel_size := 1;
     Heightmap.width := 3; Heightmap.height := 3;
     Heightmap.samples := [10; 20; 30; 40; 50; 60; 70; 80; 90]%R |}.

(** A stand-in for shapely in examples: a polygon is its ring, always
    valid, with the shoelace area; the extruded mesh is the ring and the
    height. *)
Definition cross2 (p q : R * R) : R := (fst p * snd q - fst q * snd p)%R.

Fixpoint shoelace (first : R * R) (ring : list (R * R)) : R :=
  match ring with
  | [] => 0%R
  | p :: rest =>
      match rest with
      | [] => cross2 p first
      | q :: _ => (cross2 p q + shoelace first rest)%R
      end
  end.

Definition ring_area (ring : list (R * R)) : R :=
  match ring with
  | [] => 0%R
  | first :: _ => (Rabs (shoelace first ring) / 2)%R
  end.

Definition demo_polygon_to_mesh (nodes : list Node)
    (height base_elevation origin_lat origin_lon : R)
  : option (list (R * R) * R * R) :=
  Buildings.polygon_to_mesh (list (R * R)) (list (R * R) * R * R)
    Some (fun _ => true) (fun p => Some (Buildings.GeomPolygon p)) ring_area
    (fun p h => Some (p, h, 0%R)) (fun m => m)
    (fun t m => (fst (fst m), snd (fst m), snd (fst t)))
    nodes height base_elevation origin_lat origin_lon.

(** The elevation look-ups of a road cannot raise: there is no sampler,
    or it has no grid, or its grid is loaded with a non-zero pixel size. *)
Definition sampler_ready (heightmap : option Heightmap.HeightmapSampler) : Prop :=
  match heightmap with
  | Some (Some g) => Heightmap.pixel_size g <> 0%R /\ Heightmap.grid_loaded g
  | _ => True
  end.

(** A resolved dimension as the real number the mesh builders receive. *)
Definition num_real (x : Py.pynum) : option R :=
  match x with
  | Py.PyInt z => Some (IZR z)
  | Py.PyFloat (Py.FFin q) => Some (Q2R q)
  | Py.PyFloat _ => None
  end.

(** Two roads at the origin: one whose two nodes coincide, one running
    east for a thousandth of a degree. *)
Definition point_road : list Node :=
  [ {| lat := 0; lon := 0 |}; {| lat := 0; lon := 0 |} ].
Definition east_road : list Node :=
  [ {| lat := 0; lon := 0 |}; {| lat := 0; lon := 1 / 1000 |} ].

(** The reading of a finite resolved number as a real, zero otherwise. *)
Definition finite_real (x : Py.pynum) : R := default 0%R (num_real x).

(** Two roads: one of two nodes, one of a single node. *)
Definition demo_roads : list feature :=
  [ {| f_nodes := Some east_road;
       f_tags := Some {["highway" := "residential"]} |};
    {| f_nodes := Some [ {| lat := 0; lon := 0 |} ]; f_tags := None |} ].

(** A road whose second node is repeated before a third one. *)
Definition stutter_road : list Node :=
  [ {| lat := 0; lon := 0 |}; {| lat := 0; lon := 1 / 1000 |};
    {| lat := 0; lon := 1 / 1000 |}; {| lat := 0; lon := 2 / 1000 |} ].

(** Two buildings: a small triangle and a two-node stub. *)
Definition demo_buildings : list feature :=
  [ {| f_nodes := Some [ {| lat := 0; lon := 0 |};
                         {| lat := 0; lon := 1 / 1000000 |};
                         {| lat := 1 / 1000000; lon := 0 |} ];
       f_tags := Some {["building" := "house"]} |};
    {| f_nodes := Some east_road; f_tags := None |} ].

(** The building loop over the stand-in for shapely and trimesh. *)
Definition demo_process_buildings (buildings : list feature)
  : outcome (BuildingsMain.tally (list (R * R) * R * R)) :=
  BuildingsMain.process_buildings Py.float Py.int finite_real
    (list (R * R)) (list (R * R) * R * R)
    Some (fun _ => true) (fun p => Some (Buildings.GeomPolygon p)) ring_area
    (fun p h => Some (p, h, 0%R)) (fun m => m)
    (fun t m => (fst (fst m), snd (fst m), snd (fst t)))
    None 0 0 0 buildings.

(** A way as [build_roads.py] and [build_buildings.py] read it back from
    the JSON file [fetch_osm.py] wrote. *)
Definition feature_of_way (w : Osm.way_entry) : feature :=
  {| f_nodes := Some (Osm.w_nodes w); f_tags := Some (Osm.w_tags w) |}.

(** The file names for which [download_file] sent at least one request. *)
Definition fetched_names (st : UsgsMain.state) : list string :=
  map fst (List.filter (fun c => 0 <? snd c)%nat (UsgsMain.calls st)).

(** Two product items whose titles differ and sanitize alike. *)
Definition demo_items : list UsgsMain.item :=
  [ {| UsgsMain.downloadURL := Some "https://example.org/one.TIF";
       UsgsMain.title := Some "a/b" |};
    {| UsgsMain.downloadURL := Some "https://example.org/two.tif";
       UsgsMain.title := Some "a b" |} ].

(** The invariant of the download loop, relative to the files [fs0]
    present at the start: the fetched names are pairwise distinct, were
    absent at the start and are present now; nothing was removed; the
    paths of [downloads] are the file names of the calls, all present. *)
Definition usgs_invariant (fs0 : gset string) (st : UsgsMain.state) : Prop :=
  NoDup (fetched_names st) /\
  (forall name, name ∈ fetched_names st -> (name ∉ fs0) /\ name ∈ UsgsMain.files st) /\
  fs0 ⊆ UsgsMain.files st /\
  map UsgsMain.e_path (UsgsMain.downloads st) = map fst (UsgsMain.calls st) /\
  (forall c, c ∈ UsgsMain.calls st -> fst c ∈ UsgsMain.files st).

(** *** Binary64 examples *)

(** The values [math.cos] returns at the three arguments the examples
    use: [cos(0.0) = 1.0], [cos(radians(89.9999999)) = 0x1.dfc0a11a62633p-30]
    and [cos(radians(90.0)) = 0x1.1a62633145c07p-54]. *)
Definition cos_table (x : B64.float) : B64.float :=
  if B64.is_zero x then B64.of_Z 1
  else if B64.eqb x (B64.radians (B64.literal 899999999 10000000)) then
    B64.make 8439894500582963 (-82)
  else if B64.eqb x (B64.radians (B64.of_Z 90)) then
    B64.make 4967757600021511 (-106)
  else S754_nan.


Definition vec3_eqb (a b : Binary64.Roads.vec3) : bool :=
  B64.eqb (Binary64.Roads.vx a) (Binary64.Roads.vx b)
  && B64.eqb (Binary64.Roads.vy a) (Binary64.Roads.vy b)
  && B64.eqb (Binary64.Roads.vz a) (Binary64.Roads.vz b).

(** The rows of [vs] without repetition, in the order of their first
    occurrence. *)
Fixpoint unique_rows (seen vs : list Binary64.Roads.vec3) : list Binary64.Roads.vec3 :=
  match vs with
  | [] => seen
  | v :: vs' =>
      if existsb (vec3_eqb v) seen then unique_rows seen vs'
      else unique_rows (seen ++ [v]) vs'
  end.

Fixpoint row_index (v : Binary64.Roads.vec3) (rows : list Binary64.Roads.vec3) : nat :=
  match rows with
  | [] => 0
  | r :: rows' => if vec3_eqb v r then 0 else S (row_index v rows')
  end.

(** A mesh constructor that merges equal vertices, as the default
    processing of [trimesh.Trimesh] does: the vertices are kept once, in
    the order of their first occurrence, and the faces name them by their
    new index. *)
Definition merge_vertices (m : Binary64.Roads.Mesh) : Binary64.Roads.Mesh :=
  let rows := unique_rows [] (Binary64.Roads.vertices m) in
  let renumber i :=
    row_index (nth i (Binary64.Roads.vertices m) Binary64.Roads.vzero) rows in
  {| Binary64.Roads.vertices := rows;
     Binary64.Roads.faces :=
       map (fun '(a, b, c) => (renumber a, renumber b, renumber c))
           (Binary64.Roads.faces m) |}.

(** The roads of the examples with binary64 coordinates: two nodes at
    the origin; a road running east; one whose second node is repeated;
    a road from the origin to latitude [0.0003], longitude [0.0007]. *)
Definition point_road64 : list Binary64.Node :=
  [ {| Binary64.lat := B64.of_Z 0; Binary64.lon := B64.of_Z 0 |};
    {| Binary64.lat := B64.of_Z 0; Binary64.lon := B64.of_Z 0 |} ].
Definition east_road64 : list Binary64.Node :=
  [ {| Binary64.lat := B64.of_Z 0; Binary64.lon := B64.of_Z 0 |};
    {| Binary64.lat := B64.of_Z 0; Binary64.lon := B64.literal 1 1000 |} ].
Definition stutter_road64 : list Binary64.Node :=
  [ {| Binary64.lat := B64.of_Z 0; Binary64.lon := B64.of_Z 0 |};
    {| Binary64.lat := B64.of_Z 0; Binary64.lon := B64.literal 1 1000 |};
    {| Binary64.lat := B64.of_Z 0; Binary64.lon := B64.literal 1 1000 |};
    {| Binary64.lat := B64.of_Z 0; Binary64.lon := B64.literal 2 1000 |} ].
Definition slanted_road64 : list Binary64.Node :=
  [ {| Binary64.lat := B64.of_Z 0; Binary64.lon := B64.of_Z 0 |};
    {| Binary64.lat := B64.literal 3 10000; Binary64.lon := B64.literal 7 10000 |} ].

(** The square of the distance between two rows, exactly. *)
Definition squared_distance (a b : Binary64.Roads.vec3) : Q :=
  let d (x y : B64.float) := (B64.to_Q x - B64.to_Q y)%Q in
  (d (Binary64.Roads.vx a) (Binary64.Roads.vx b) * d (Binary64.Roads.vx a) (Binary64.Roads.vx b)
   + d (Binary64.Roads.vy a) (Binary64.Roads.vy b) * d (Binary64.Roads.vy a) (Binary64.Roads.vy b)
   + d (Binary64.Roads.vz a) (Binary64.Roads.vz b) * d (Binary64.Roads.vz a) (Binary64.Roads.vz b))%Q.

(* ===================================================================== *)
(** ** The built-ins on sample strings *)
(* ===================================================================== *)

Example float_examples :
  Py.float "12" = Some (Py.FFin 12) /\
  Py.float " -1_0.50e1 " = Some (Py.FFin (-105)) /\
  Py.float ".5" = Some (Py.FFin (1 # 2)) /\
  Py.float "5." = Some (Py.FFin 5) /\
  Py.float "-Infinity" = Some (Py.FInf true) /\
  Py.float "NaN" = Some Py.FNaN /\
  Py.float EmptyString = None /\ Py.float "." = None /\ Py.float "1e" = None /\
  Py.float "1__0" = None /\ Py.float "12 ft" = None /\
  Py.int " +0_12 " = Some 12%Z /\ Py.int "2.5" = None /\ Py.int "-3" = Some (-3)%Z.
Proof. vm_compute. repeat split. Qed.

Example clean_dimension_examples :
  clean_dimension "12m" = "12" /\ clean_dimension " 30' " = "30" /\
  clean_dimension "3.5 m" = "3.5".
Proof. vm_compute. repeat split. Qed.

(* ===================================================================== *)
(** ** Attribute resolvers *)
(* ===================================================================== *)

Lemma float_pos_to_feet (f : Py.pyfloat) :
  Py.float_pos (Py.float_mul f (Py.FFin METERS_TO_FEET_Q)) = Py.float_pos f.
Proof.
  destruct f as [q | neg | ]; simpl; try reflexivity.
  destruct q as [n d]; simpl.
  destruct (Z.ltb_spec 0 n); destruct (Z.ltb_spec 0 (n * 328084)); auto; lia.
Qed.

Lemma DEFAULT_HEIGHTS_positive (k : string) :
  (0 < default Buildings.DEFAULT_HEIGHT (Buildings.DEFAULT_HEIGHTS !! k))%Z.
Proof.
  destruct (Buildings.DEFAULT_HEIGHTS !! k) as [v|] eqn:E; simpl; [|reflexivity].
  apply elem_of_list_to_map_2 in E.
  repeat (apply elem_of_cons in E as [E|E]; [injection E as _ ->; reflexivity|]).
  by apply elem_of_nil in E.
Qed.

Lemma ROAD_WIDTHS_positive (k : string) :
  (0 < default Roads.DEFAULT_ROAD_WIDTH (Roads.ROAD_WIDTHS !! k))%Z.
Proof.
  destruct (Roads.ROAD_WIDTHS !! k) as [v|] eqn:E; simpl; [|reflexivity].
  apply elem_of_list_to_map_2 in E.
  repeat (apply elem_of_cons in E as [E|E]; [injection E as _ ->; reflexivity|]).
  by apply elem_of_nil in E.
Qed.

Section ResolverFacts.
Variable py_float : string -> option Py.pyfloat.
Variable py_int : string -> option Z.
Implicit Types tags : gmap string string.

Lemma height_skip_explicit tags h :
  tags !! "height" = Some h -> py_float (clean_dimension h) = None ->
  Buildings.get_building_height py_float py_int tags
  = Buildings.get_building_height py_float py_int (delete "height" tags).
Proof.
  intros Hh Hp. unfold Buildings.get_building_height.
  rewrite Hh, Hp, lookup_delete_eq.
  unfold Buildings.height_by_levels, Buildings.height_by_type.
  by rewrite !lookup_delete_ne.
Qed.

Lemma height_skip_levels tags l :
  tags !! "building:levels" = Some l -> py_int l = None ->
  Buildings.get_building_height py_float py_int tags
  = Buildings.get_building_height py_float py_int (delete "building:levels" tags).
Proof.
  intros Hl Hp.
  unfold Buildings.get_building_height, Buildings.height_by_levels,
    Buildings.height_by_type.
  rewrite Hl, Hp, lookup_delete_eq. by rewrite !lookup_delete_ne.
Qed.

Lemma width_skip_explicit tags w :
  tags !! "width" = Some w -> py_float (clean_dimension w) = None ->
  Roads.get_road_width py_float py_int tags
  = Roads.get_road_width py_float py_int (delete "width" tags).
Proof.
  intros Hw Hp. unfold Roads.get_road_width.
  rewrite Hw, Hp, lookup_delete_eq.
  unfold Roads.width_by_lanes, Roads.width_by_type.
  by rewrite !lookup_delete_ne.
Qed.

Lemma width_skip_lanes tags l :
  tags !! "lanes" = Some l -> py_int l = None ->
  Roads.get_road_width py_float py_int tags
  = Roads.get_road_width py_float py_int (delete "lanes" tags).
Proof.
  intros Hl Hp.
  unfold Roads.get_road_width, Roads.width_by_lanes, Roads.width_by_type.
  rewrite Hl, Hp, lookup_delete_eq. by rewrite !lookup_delete_ne.
Qed.

Lemma height_positive tags :
  parses_positive py_float tags "height" ->
  counts_positive py_int tags "building:levels" ->
  Py.num_pos (Buildings.get_building_height py_float py_int tags) = true.
Proof.
  intros Hf Hi.
  unfold Buildings.get_building_height, Buildings.height_by_levels,
    Buildings.height_by_type.
  destruct (tags !! "height") as [h|] eqn:Eh.
  - destruct (py_float (clean_dimension h)) as [f|] eqn:Ef.
    + unfold Py.num_pos. rewrite float_pos_to_feet. by eapply Hf.
    + destruct (tags !! "building:levels") as [l|] eqn:El.
      * destruct (py_int l) as [n|] eqn:En; unfold Py.num_pos.
        -- apply Z.ltb_lt. specialize (Hi l n El En). lia.
        -- apply Z.ltb_lt, DEFAULT_HEIGHTS_positive.
      * apply Z.ltb_lt, DEFAULT_HEIGHTS_positive.
  - destruct (tags !! "building:levels") as [l|] eqn:El.
    + destruct (py_int l) as [n|] eqn:En; unfold Py.num_pos.
      * apply Z.ltb_lt. specialize (Hi l n El En). lia.
      * apply Z.ltb_lt, DEFAULT_HEIGHTS_positive.
    + apply Z.ltb_lt, DEFAULT_HEIGHTS_positive.
Qed.

Lemma width_positive tags :
  parses_positive py_float tags "width" ->
  counts_positive py_int tags "lanes" ->
  Py.num_pos (Roads.get_road_width py_float py_int tags) = true.
Proof.
  intros Hf Hi.
  unfold Roads.get_road_width, Roads.width_by_lanes, Roads.width_by_type.
  destruct (tags !! "width") as [h|] eqn:Eh.
  - destruct (py_float (clean_dimension h)) as [f|] eqn:Ef.
    + unfold Py.num_pos. rewrite float_pos_to_feet. by eapply Hf.
    + destruct (tags !! "lanes") as [l|] eqn:El.
      * destruct (py_int l) as [n|] eqn:En; unfold Py.num_pos.
        -- apply Z.ltb_lt. specialize (Hi l n El En). lia.
        -- apply Z.ltb_lt, ROAD_WIDTHS_positive.
      * apply Z.ltb_lt, ROAD_WIDTHS_positive.
  - destruct (tags !! "lanes") as [l|] eqn:El.
    + destruct (py_int l) as [n|] eqn:En; unfold Py.num_pos.
      * apply Z.ltb_lt. specialize (Hi l n El En). lia.
      * apply Z.ltb_lt, ROAD_WIDTHS_positive.
    + apply Z.ltb_lt, ROAD_WIDTHS_positive.
Qed.
End ResolverFacts.

(** C9: the resolvers return the listed values on the listed tag sets:
    height [12m] gives [12 * 3.28084], three levels give 30, a house gives
    25, no tag gives 25; a motorway is 48 wide and two lanes are 20 wide. *)
Theorem resolvers_listed_values :
  Py.num_is (Buildings.get_building_height Py.float Py.int {["height" := "12m"]})
            (12 * METERS_TO_FEET_Q) /\
  Buildings.get_building_height Py.float Py.int {["building:levels" := "3"]}
    = Py.PyInt 30 /\
  Buildings.get_building_height Py.float Py.int {["building" := "house"]}
    = Py.PyInt 25 /\
  Buildings.get_building_height Py.float Py.int ∅ = Py.PyInt 25 /\
  Roads.get_road_width Py.float Py.int {["highway" := "motorway"]} = Py.PyInt 48 /\
  Roads.get_road_width Py.float Py.int {["lanes" := "2"]} = Py.PyInt 20.
Proof. repeat split; vm_compute; reflexivity. Qed.

(** C1 as stated fails: with an explicit height of zero the height is
    [0.0], and with an explicit width of [-5] the width is negative. *)
Lemma resolvers_not_always_positive :
  ~ (forall tags : gmap string string,
       Py.num_pos (Buildings.get_building_height Py.float Py.int tags) = true /\
       Py.num_pos (Roads.get_road_width Py.float Py.int tags) = true).
Proof.
  intros H.
  destruct (H (<["width" := "-5"]> {["height" := "0"]})) as [Hh _].
  vm_compute in Hh. discriminate Hh.
Qed.

(** C1, amended: the resolvers are total; an explicit dimension tag or a
    count tag that does not parse is skipped, the result being that of the
    tag set without it; and the result is [> 0] provided every explicit
    dimension tag that parses gives a float [> 0] and every count tag that
    parses gives an integer [> 0]. *)
Theorem resolvers_fall_through_and_sign
    (py_float : string -> option Py.pyfloat) (py_int : string -> option Z)
    (tags : gmap string string) :
  (forall h, tags !! "height" = Some h -> py_float (clean_dimension h) = None ->
     Buildings.get_building_height py_float py_int tags
     = Buildings.get_building_height py_float py_int (delete "height" tags)) /\
  (forall l, tags !! "building:levels" = Some l -> py_int l = None ->
     Buildings.get_building_height py_float py_int tags
     = Buildings.get_building_height py_float py_int (delete "building:levels" tags)) /\
  (forall w, tags !! "width" = Some w -> py_float (clean_dimension w) = None ->
     Roads.get_road_width py_float py_int tags
     = Roads.get_road_width py_float py_int (delete "width" tags)) /\
  (forall l, tags !! "lanes" = Some l -> py_int l = None ->
     Roads.get_road_width py_float py_int tags
     = Roads.get_road_width py_float py_int (delete "lanes" tags)) /\
  (parses_positive py_float tags "height" ->
   counts_positive py_int tags "building:levels" ->
   Py.num_pos (Buildings.get_building_height py_float py_int tags) = true) /\
  (parses_positive py_float tags "width" ->
   counts_positive py_int tags "lanes" ->
   Py.num_pos (Roads.get_road_width py_float py_int tags) = true).
Proof.
  split; [intros h; apply height_skip_explicit|].
  split; [intros l; apply height_skip_levels|].
  split; [intros w; apply width_skip_explicit|].
  split; [intros l; apply width_skip_lanes|].
  split; [apply height_positive | apply width_positive].
Qed.

Lemma resolvers_fall_through_and_sign_witness :
  Buildings.get_building_height Py.float Py.int
    (<["building:levels" := "2"]> {["height" := "tall"]})
  = Buildings.get_building_height Py.float Py.int {["building:levels" := "2"]} /\
  Py.num_pos (Buildings.get_building_height Py.float Py.int
                (<["building:levels" := "2"]> {["height" := "tall"]})) = true /\
  Py.num_pos (Roads.get_road_width Py.float Py.int {["width" := "3.5 m"]}) = true.
Proof.
  pose proof (resolvers_fall_through_and_sign Py.float Py.int
                (<["building:levels" := "2"]> {["height" := "tall"]}))
    as (Hskip & _ & _ & _ & Hpos & _).
  pose proof (resolvers_fall_through_and_sign Py.float Py.int
                {["width" := "3.5 m"]}) as (_ & _ & _ & _ & _ & Hwid).
  split; [|split].
  - rewrite (Hskip "tall"); [vm_compute; reflexivity
                            | vm_compute; reflexivity | vm_compute; reflexivity].
  - apply Hpos.
    + intros v f Hv Hf. vm_compute in Hv. injection Hv as <-.
      vm_compute in Hf. discriminate Hf.
    + intros v n Hv Hn. vm_compute in Hv. injection Hv as <-.
      vm_compute in Hn. injection Hn as <-. reflexivity.
  - apply Hwid.
    + intros v f Hv Hf. vm_compute in Hv. injection Hv as <-.
      vm_compute in Hf. injection Hf as <-. reflexivity.
    + intros v n Hv Hn. vm_compute in Hv. discriminate Hv.
Defined.

(* ===================================================================== *)
(** ** HeightmapSampler *)
(* ===================================================================== *)

Section SamplerFacts.
Local Open Scope R_scope.
Import Heightmap.

Lemma METERS_TO_FEET_pos : 0 < METERS_TO_FEET.
Proof. unfold METERS_TO_FEET. lra. Qed.

Lemma Int_part_IZR (z : Z) : Int_part (IZR z) = z.
Proof. symmetry. apply Int_part_spec. lra. Qed.

Lemma trunc_IZR (z : Z) : (0 <= z)%Z -> trunc (IZR z) = z.
Proof.
  intros Hz. unfold trunc.
  destruct (Rlt_dec (IZR z) 0) as [Hneg | _].
  - apply IZR_le in Hz. lra.
  - apply Int_part_IZR.
Qed.

Lemma trunc_bounds (x : R) :
  0 <= x -> IZR (trunc x) <= x < IZR (trunc x) + 1.
Proof.
  intros Hx. unfold trunc.
  destruct (Rlt_dec x 0) as [Hneg | _]; [lra|].
  destruct (base_Int_part x). lra.
Qed.

(** Truncation of a position inside [[0, n-1)] is an index with a
    successor below [n]. *)
Lemma trunc_index (x : R) (n : Z) :
  0 <= x -> x < IZR n - 1 -> (0 <= trunc x /\ trunc x + 1 < n)%Z.
Proof.
  intros H0 Hn. destruct (trunc_bounds x H0) as [Hlo Hhi]. split.
  - apply Z.lt_succ_r, lt_IZR. rewrite succ_IZR. lra.
  - apply lt_IZR. rewrite plus_IZR. lra.
Qed.

Lemma out_of_bounds_false (g : Grid) (col row : R) :
  out_of_bounds g col row = false <->
  (0 <= col < IZR (width g) - 1 /\ 0 <= row < IZR (height g) - 1).
Proof.
  unfold out_of_bounds. rewrite !minus_IZR.
  destruct (Rlt_dec col 0), (Rge_dec col (IZR (width g) - 1)),
    (Rlt_dec row 0), (Rge_dec row (IZR (height g) - 1)); simpl;
    split; intros H; try discriminate; try reflexivity; lra.
Qed.

Lemma out_of_bounds_true (g : Grid) (col row : R) :
  (col < 0 \/ IZR (width g) - 1 <= col \/ row < 0 \/ IZR (height g) - 1 <= row) ->
  out_of_bounds g col row = true.
Proof.
  intros H. destruct (out_of_bounds g col row) eqn:E; [reflexivity|].
  apply out_of_bounds_false in E. lra.
Qed.

(** In a loaded grid every index pair inside the shape has a sample. *)
Lemma grid_at_loaded (g : Grid) (r c : Z) :
  grid_loaded g -> (0 <= r < height g)%Z -> (0 <= c < width g)%Z ->
  exists v, grid_at g r c = Returned v.
Proof.
  intros (Hw & Hh & Hlen) Hr Hc. unfold grid_at.
  replace ((0 <=? r) && (r <? height g) && (0 <=? c) && (c <? width g))%Z
    with true by (symmetry; rewrite !andb_true_iff; repeat split; lia).
  destruct (nth_error (samples g) (Z.to_nat (r * width g + c))) as [v|] eqn:E.
  - by exists v.
  - apply nth_error_None in E. rewrite Hlen in E. nia.
Qed.

Lemma sample_inside (g : Grid) (lat lon col row v00 v01 v10 v11 : R) :
  grid_position g lat lon = Returned (col, row) ->
  out_of_bounds g col row = false ->
  grid_at g (trunc row) (trunc col) = Returned v00 ->
  grid_at g (trunc row) (trunc col + 1) = Returned v01 ->
  grid_at g (trunc row + 1) (trunc col) = Returned v10 ->
  grid_at g (trunc row + 1) (trunc col + 1) = Returned v11 ->
  sample (Some g) lat lon =
  Returned (Some (((v00 * (1 - (col - IZR (trunc col))) + v01 * (col - IZR (trunc col)))
                   * (1 - (row - IZR (trunc row)))
                   + (v10 * (1 - (col - IZR (trunc col))) + v11 * (col - IZR (trunc col)))
                     * (row - IZR (trunc row)))
                  * METERS_TO_FEET)).
Proof.
  intros Hpos Hin H00 H01 H10 H11. unfold sample.
  rewrite Hpos. simpl. rewrite Hin, H00. simpl. rewrite H01. simpl.
  rewrite H10. simpl. rewrite H11. reflexivity.
Qed.




(** Inside the bounds of a loaded grid the sampler returns a value. *)
Lemma sample_between_inside (g : Grid) (lat lon col row : R) :
  grid_loaded g ->
  grid_position g lat lon = Returned (col, row) ->
  0 <= col < IZR (width g) - 1 ->
  0 <= row < IZR (height g) - 1 ->
  exists e, sample (Some g) lat lon = Returned (Some e).
Proof.
  intros Hg Hpos Hcol Hrow.
  destruct (trunc_index col (width g)) as [Hc0 Hc1]; [lra | lra |].
  destruct (trunc_index row (height g)) as [Hr0 Hr1]; [lra | lra |].
  destruct (grid_at_loaded g (trunc row) (trunc col) Hg) as [v00 H00]; [lia | lia |].
  destruct (grid_at_loaded g (trunc row) (trunc col + 1) Hg) as [v01 H01]; [lia | lia |].
  destruct (grid_at_loaded g (trunc row + 1) (trunc col) Hg) as [v10 H10]; [lia | lia |].
  destruct (grid_at_loaded g (trunc row + 1) (trunc col + 1) Hg) as [v11 H11];
    [lia | lia |].
  eexists.
  apply (sample_inside g lat lon col row v00 v01 v10 v11); try assumption.
  apply out_of_bounds_false; lra.
Qed.

Lemma sample_outside (g : Grid) (lat lon col row : R) :
  grid_position g lat lon = Returned (col, row) ->
  (col < 0 \/ IZR (width g) - 1 <= col \/ row < 0 \/ IZR (height g) - 1 <= row) ->
  sample (Some g) lat lon = Returned None.
Proof.
  intros Hpos Hout. unfold sample. rewrite Hpos. simpl.
  by rewrite (out_of_bounds_true g col row Hout).
Qed.

Lemma demo_grid_loaded : grid_loaded demo_grid.
Proof. unfold grid_loaded. simpl. repeat split; try lia. Qed.

Lemma demo_grid_position (r c : Z) :
  grid_position demo_grid (- IZR r) (IZR c) = Returned (IZR c, IZR r).
Proof.
  unfold grid_position. simpl.
  destruct (Req_dec_T 1 0) as [H|_]; [lra|].
  do 2 f_equal; field.
Qed.

End SamplerFacts.

(** C8: the sampler returns absent when no grid is loaded, and when the
    computed fractional column is outside [[0, width-1)] or the computed
    fractional row is outside [[0, height-1)]; no value is produced. *)
Theorem sample_absent_outside (lat lon : R) :
  Heightmap.sample None lat lon = Returned None /\
  (forall g col row,
     Heightmap.grid_position g lat lon = Returned (col, row) ->
     (col < 0 \/ IZR (Heightmap.width g) - 1 <= col \/
      row < 0 \/ IZR (Heightmap.height g) - 1 <= row)%R ->
     Heightmap.sample (Some g) lat lon = Returned None).
Proof.
  split; [reflexivity|]. intros g col row. apply sample_outside.
Qed.

Lemma sample_absent_outside_witness :
  Heightmap.sample (Some demo_grid) (- 0) 5 = Returned None.
Proof.
  refine (proj2 (sample_absent_outside (- 0) 5) demo_grid 5%R 0%R _ _).
  - apply (demo_grid_position 0 5).
  - right; left; simpl; lra.
Defined.


(** C3 as stated fails: a node of the last row or column maps to a column
    [width - 1] or a row [height - 1], which the bounds test rejects. *)
Lemma sample_at_last_node_absent :
  ~ (forall (g : Heightmap.Grid) (r c : Z) (lat lon : R),
       Heightmap.grid_loaded g ->
       (0 <= r < Heightmap.height g)%Z -> (0 <= c < Heightmap.width g)%Z ->
       Heightmap.grid_position g lat lon = Returned (IZR c, IZR r) ->
       exists v, Heightmap.grid_at g r c = Returned v /\
                 Heightmap.sample (Some g) lat lon
                 = Returned (Some (v * METERS_TO_FEET)%R)).
Proof.
  intros H.
  destruct (H demo_grid 2%Z 2%Z (- 2)%R 2%R demo_grid_loaded)
    as (v & _ & Hs); [simpl; lia | simpl; lia | apply (demo_grid_position 2 2) |].
  rewrite (sample_outside demo_grid (- 2) 2 2 2) in Hs.
  - discriminate Hs.
  - apply (demo_grid_position 2 2).
  - right; left; simpl; lra.
Qed.

(** C3, amended: for a loaded grid and a node [(r, c)] with
    [0 <= r < height - 1] and [0 <= c < width - 1], sampling at the point
    that maps exactly to row [r] and column [c] returns exactly
    [grid[r][c] * 3.28084]. *)
Theorem sample_at_inner_node (g : Heightmap.Grid) (r c : Z) (lat lon : R) :
  Heightmap.grid_loaded g ->
  (0 <= r < Heightmap.height g - 1)%Z -> (0 <= c < Heightmap.width g - 1)%Z ->
  Heightmap.grid_position g lat lon = Returned (IZR c, IZR r) ->
  exists v, Heightmap.grid_at g r c = Returned v /\
            Heightmap.sample (Some g) lat lon
            = Returned (Some (v * METERS_TO_FEET)%R).
Proof.
  intros Hg Hr Hc Hpos.
  destruct (grid_at_loaded g r c Hg) as [v00 H00]; [lia | lia |].
  destruct (grid_at_loaded g r (c + 1) Hg) as [v01 H01]; [lia | lia |].
  destruct (grid_at_loaded g (r + 1) c Hg) as [v10 H10]; [lia | lia |].
  destruct (grid_at_loaded g (r + 1) (c + 1) Hg) as [v11 H11]; [lia | lia |].
  exists v00. split; [exact H00|].
  assert (Hin : Heightmap.out_of_bounds g (IZR c) (IZR r) = false).
  { apply out_of_bounds_false. rewrite <- !minus_IZR.
    repeat split; try (apply IZR_le; lia); apply IZR_lt; lia. }
  rewrite (sample_inside g lat lon (IZR c) (IZR r) v00 v01 v10 v11 Hpos Hin);
    rewrite ?trunc_IZR by lia; try assumption.
  do 2 f_equal. ring.
Qed.

Lemma sample_at_inner_node_witness :
  exists v, Heightmap.grid_at demo_grid 1 1 = Returned v /\
            Heightmap.sample (Some demo_grid) (- 1) 1
            = Returned (Some (v * METERS_TO_FEET)%R).
Proof.
  apply (sample_at_inner_node demo_grid 1 1 (- 1) 1 demo_grid_loaded).
  - simpl; lia.
  - simpl; lia.
  - apply (demo_grid_position 1 1).
Defined.

(* ===================================================================== *)
(** ** Binary64: what rounding keeps and what it loses *)
(* ===================================================================== *)

Section Binary64Facts.

Lemma B64_sub_diag (x : B64.float) :
  B64.is_finite x = true -> B64.sub x x = S754_zero false.
Proof.
  destruct x as [s | s | | s m e]; try discriminate; intros _.
  - by destruct s.
  - unfold B64.sub, SFsub. rewrite Z.sub_diag. reflexivity.
Qed.

Lemma B64_mul_zero_l (z y : B64.float) :
  B64.is_zero z = true -> B64.is_finite y = true -> B64.is_zero (B64.mul z y) = true.
Proof.
  destruct z; try discriminate. destruct y; try discriminate; reflexivity.
Qed.

Lemma math_cos_finite (cos : B64.float -> B64.float) (x : B64.float) :
  B64.is_finite x = true -> Binary64.math_cos cos x = Returned (cos x).
Proof. destruct x; try discriminate; reflexivity. Qed.

Lemma METERS_TO_FEET_finite : B64.is_finite Binary64.METERS_TO_FEET = true.
Proof. vm_compute. reflexivity. Qed.

Lemma meters_per_deg_lat_finite :
  B64.is_finite (B64.mul (B64.div B64.pi (B64.of_Z 180)) Binary64.EARTH_RADIUS) = true.
Proof. vm_compute. reflexivity. Qed.

(** The literals of the source, as Python reads them. *)
Lemma literal_values :
  Binary64.METERS_TO_FEET = S754_finite false 7387794900731109%positive (-51)%Z /\
  Binary64.Roads.ROAD_SURFACE_OFFSET = S754_finite false 7205759403792794%positive (-56)%Z /\
  B64.pi = S754_finite false 7074237752028440%positive (-51)%Z /\
  B64.div B64.pi (B64.of_Z 180) = S754_finite false 5030569068109113%positive (-58)%Z.
Proof. vm_compute. repeat split. Qed.

(** The strip of a road running east is exact in binary64 as well: the
    vertices of its first point are five feet north and south of it. *)
Example east_strip_binary64 :
  exists arrays,
    Binary64.Roads.road_to_mesh cos_table (fun a => a) east_road64 (B64.of_Z 10) None
      (B64.of_Z 0) (B64.of_Z 0) (B64.of_Z 0) = Returned (Some arrays) /\
    Binary64.Roads.vertices arrays !! 0%nat
    = Some (Binary64.Roads.Vec3 (S754_zero false) (B64.literal 1 10) (B64.of_Z 5)) /\
    Binary64.Roads.vertices arrays !! 1%nat
    = Some (Binary64.Roads.Vec3 (S754_zero false) (B64.literal 1 10) (B64.of_Z (-5))).
Proof. eexists. split; [reflexivity|]. split; vm_compute; reflexivity. Qed.

(** Both copies of a repeated interior node get the vertices
    [(nan, 0.1, nan)]. *)
Example stutter_strip_binary64 :
  exists arrays,
    Binary64.Roads.road_to_mesh cos_table (fun a => a) stutter_road64 (B64.of_Z 10) None
      (B64.of_Z 0) (B64.of_Z 0) (B64.of_Z 0) = Returned (Some arrays) /\
    length (Binary64.Roads.vertices arrays) = 8%nat /\
    forall i, (2 <= i < 6)%nat ->
      Binary64.Roads.vertices arrays !! i
      = Some (Binary64.Roads.Vec3 S754_nan (B64.literal 1 10) S754_nan).
Proof.
  eexists. split; [reflexivity|]. split; [reflexivity|].
  intros i Hi.
  assert (Hcases : i = 2%nat \/ i = 3%nat \/ i = 4%nat \/ i = 5%nat) by lia.
  destruct Hcases as [-> | [-> | [-> | ->]]]; vm_compute; reflexivity.
Qed.

End Binary64Facts.




(* ===================================================================== *)
(** ** Projection *)
(* ===================================================================== *)

Section ProjectionFacts.
Local Open Scope R_scope.

Lemma latlon_to_local_same (lat lon origin_lat origin_lon : R) :
  Roads.latlon_to_local lat lon origin_lat origin_lon
  = Buildings.latlon_to_local lat lon origin_lat origin_lon.
Proof. reflexivity. Qed.

(** In exact arithmetic the longitude scale vanishes at a pole. *)
Lemma cos_radians_pole : cos (radians 90) = 0.
Proof.
  unfold radians. replace (90 * (PI / 180)) with (PI / 2) by field.
  apply cos_PI2.
Qed.

Lemma cos_radians_pos (x : R) : -90 < x < 90 -> 0 < cos (radians x).
Proof.
  intros Hx. pose proof PI_RGT_0 as Hpi. unfold radians.
  apply cos_gt_0; nra.
Qed.

Lemma projection_scale_pos : 0 < PI / 180 * EARTH_RADIUS * METERS_TO_FEET.
Proof.
  pose proof PI_RGT_0. unfold EARTH_RADIUS, METERS_TO_FEET. nra.
Qed.

End ProjectionFacts.

(** The longitude scale [meters_per_deg_lon] of an origin latitude. *)
Lemma projection_underflow_values :
  B64.radians (B64.literal 899999999 10000000)
  = S754_finite false 7074237744168176%positive (-52)%Z /\
  B64.mul (B64.mul (B64.div B64.pi (B64.of_Z 180)) Binary64.EARTH_RADIUS)
          (cos_table (B64.radians (B64.literal 899999999 10000000)))
  = S754_finite false 7168005051832927%positive (-65)%Z.
Proof. vm_compute. split; reflexivity. Qed.

(** At the pole itself the cosine the C library returns is not zero, and
    a point one degree of longitude away projects to
    [(0x1.896ba26b8b6f0p-36, 0.0)], some 2.2e-11 feet east. *)
Example projection_at_pole :
  Binary64.Buildings.latlon_to_local cos_table
    (B64.of_Z 90) (B64.of_Z 1) (B64.of_Z 90) (B64.of_Z 0)
  = Returned (S754_finite false 6921125698778864%positive (-88)%Z, S754_zero false).
Proof. vm_compute. reflexivity. Qed.

(** C4 as stated fails: the projection computes in binary64, and near a
    pole the longitude scale is small enough for the product with a tiny
    longitude difference to underflow.  With the origin at latitude
    [89.9999999] and longitude [0], the point at the same latitude and
    longitude [2^-1074] (5e-324, the smallest positive float) is not the
    origin and projects to [(0.0, 0.0)]. *)
Lemma projection_zero_off_origin :
  B64.eqb (B64.make 1 (-1074)) (B64.of_Z 0) = false /\
  Binary64.Buildings.latlon_to_local cos_table
    (B64.literal 899999999 10000000) (B64.make 1 (-1074))
    (B64.literal 899999999 10000000) (B64.of_Z 0)
  = Returned (S754_zero false, S754_zero false).
Proof. vm_compute. split; reflexivity. Qed.

(** C4, amended.  In binary64 the projection of the origin itself is
    [(0, 0)], for every finite origin whose angle and longitude scale are
    finite, whatever the cosine of the C library returns.  In exact real
    arithmetic, for every origin whose latitude is strictly between -90
    and 90 degrees and every point, the projection is [(0, 0)] if and
    only if the point equals the origin. *)
Theorem projection_zero_iff_origin :
  (forall (cos : B64.float -> B64.float) (lat lon : B64.float),
     B64.is_finite lat = true -> B64.is_finite lon = true ->
     B64.is_finite (B64.radians lat) = true ->
     B64.is_finite
       (B64.mul (B64.mul (B64.div B64.pi (B64.of_Z 180)) Binary64.EARTH_RADIUS)
                (cos (B64.radians lat))) = true ->
     exists x z,
       Binary64.Buildings.latlon_to_local cos lat lon lat lon = Returned (x, z) /\
       B64.is_zero x = true /\ B64.is_zero z = true) /\
  (forall lat lon origin_lat origin_lon : R,
     (-90 < origin_lat < 90)%R ->
     Buildings.latlon_to_local lat lon origin_lat origin_lon = (0, 0)%R
     <-> (lat = origin_lat /\ lon = origin_lon)).
Proof.
  split.
  - intros cos lat lon Hlat Hlon Hrad Hscale.
    unfold Binary64.Buildings.latlon_to_local.
    rewrite (math_cos_finite cos _ Hrad). cbn [obind].
    rewrite (B64_sub_diag lat Hlat), (B64_sub_diag lon Hlon).
    eexists _, _. split; [reflexivity|]. split.
    + apply B64_mul_zero_l; [|exact METERS_TO_FEET_finite].
      apply B64_mul_zero_l; [reflexivity | exact Hscale].
    + apply B64_mul_zero_l; [|exact METERS_TO_FEET_finite].
      apply B64_mul_zero_l; [reflexivity | exact meters_per_deg_lat_finite].
  - intros lat lon origin_lat origin_lon Hlat.
    pose proof (cos_radians_pos origin_lat Hlat) as Hcos.
    pose proof projection_scale_pos as Hk. pose proof PI_RGT_0 as Hpi.
    unfold Buildings.latlon_to_local. split.
    + intros Heq. injection Heq as Hx Hz.
      assert (Hk' : (0 < PI / 180 * EARTH_RADIUS)%R)
        by (unfold EARTH_RADIUS; nra).
      split.
      * apply Rmult_integral in Hz as [Hz | Hz];
          [|unfold METERS_TO_FEET in Hz; lra].
        apply Rmult_integral in Hz as [Hz | Hz]; lra.
      * apply Rmult_integral in Hx as [Hx | Hx];
          [|unfold METERS_TO_FEET in Hx; lra].
        apply Rmult_integral in Hx as [Hx | Hx]; [lra|].
        apply Rmult_integral in Hx as [Hx | Hx]; lra.
    + intros [-> ->]. f_equal; ring.
Qed.

Lemma projection_zero_iff_origin_witness :
  (exists x z,
     Binary64.Buildings.latlon_to_local cos_table
       (B64.literal 899999999 10000000) (B64.literal (-733792285) 10000000)
       (B64.literal 899999999 10000000) (B64.literal (-733792285) 10000000)
     = Returned (x, z) /\
     B64.is_zero x = true /\ B64.is_zero z = true) /\
  Buildings.latlon_to_local (425513326 / 10000000) (- 733792285 / 10000000)
                            (425513326 / 10000000) (- 733792285 / 10000000)
  = (0, 0)%R.
Proof.
  split.
  - apply (proj1 projection_zero_iff_origin cos_table);
      vm_compute; reflexivity.
  - apply (proj2 projection_zero_iff_origin
             (425513326 / 10000000)%R (- 733792285 / 10000000)%R
             (425513326 / 10000000)%R (- 733792285 / 10000000)%R).
    + lra.
    + split; reflexivity.
Defined.

(* ===================================================================== *)
(** ** Footprints *)
(* ===================================================================== *)

(** C7: a footprint whose projected (and, if needed, repaired) polygon has
    an area below 10 square feet is rejected: the builder returns absent. *)
Theorem small_footprint_rejected
    (polygon trimesh : Type)
    (ShapelyPolygon : list (R * R) -> option polygon)
    (is_valid : polygon -> bool)
    (make_valid : polygon -> option (Buildings.geometry polygon))
    (area : polygon -> R)
    (extrude_polygon : polygon -> R -> option trimesh)
    (rotate_z_to_y : trimesh -> trimesh)
    (apply_translation : R * R * R -> trimesh -> trimesh)
    (nodes : list Node) (height base_elevation origin_lat origin_lon : R)
    (p : polygon) :
  Buildings.footprint_polygon polygon ShapelyPolygon is_valid make_valid area
    nodes origin_lat origin_lon = Some p ->
  (area p < 10)%R ->
  Buildings.polygon_to_mesh polygon trimesh ShapelyPolygon is_valid make_valid
    area extrude_polygon rotate_z_to_y apply_translation
    nodes height base_elevation origin_lat origin_lon = None.
Proof.
  intros Hp Harea. unfold Buildings.polygon_to_mesh.
  destruct (length nodes <? 3)%nat; [reflexivity|].
  rewrite Hp. destruct (Rlt_dec (area p) 10) as [_ | Hge]; [reflexivity|].
  contradiction.
Qed.

Lemma small_footprint_rejected_witness :
  demo_polygon_to_mesh
    [ {| lat := 0; lon := 0 |}; {| lat := 0; lon := 1 / 1000000 |};
      {| lat := 1 / 1000000; lon := 0 |} ] 25 0 0 0 = None.
Proof.
  unfold demo_polygon_to_mesh.
  eapply small_footprint_rejected; [reflexivity|].
  unfold ring_area, shoelace, cross2, Buildings.latlon_to_local, radians; simpl.
  replace (0 * (PI / 180))%R with 0%R by ring. rewrite cos_0.
  pose proof PI_RGT_0 as Hpi. pose proof PI_4 as Hpi4.
  match goal with
  | |- (Rabs ?e / 2 < 10)%R =>
      replace e with ((1 / 1000000 * (PI / 180 * EARTH_RADIUS) * METERS_TO_FEET)
                      * (1 / 1000000 * (PI / 180 * EARTH_RADIUS) * METERS_TO_FEET))%R
        by ring
  end.
  assert (Hk : (0 < 1 / 1000000 * (PI / 180 * EARTH_RADIUS) * METERS_TO_FEET < 1)%R)
    by (unfold EARTH_RADIUS, METERS_TO_FEET; lra).
  rewrite Rabs_pos_eq by nra. nra.
Defined.

(* ===================================================================== *)
(** ** Road strips *)
(* ===================================================================== *)

Section StripFacts.
Local Open Scope R_scope.
Import Roads.

(** Indexing a list built from two elements per index. *)
Lemma pairs_lookup {A : Type} (f g : nat -> A) (n s i : nat) :
  (i < n)%nat ->
  flat_map (fun j => [f j; g j]) (seq s n) !! (2 * i)%nat = Some (f (s + i)%nat) /\
  flat_map (fun j => [f j; g j]) (seq s n) !! (2 * i + 1)%nat = Some (g (s + i)%nat).
Proof.
  revert s i. induction n as [|n IH]; intros s i Hi; [lia|].
  destruct i as [|i].
  - simpl. rewrite Nat.add_0_r. split; reflexivity.
  - replace (2 * S i)%nat with (S (S (2 * i))) by lia.
    replace (S (S (2 * i)) + 1)%nat with (S (S (2 * i + 1))) by lia.
    replace (s + S i)%nat with (S s + i)%nat by lia.
    simpl. apply IH. lia.
Qed.

Lemma pairs_length {A : Type} (f g : nat -> A) (n s : nat) :
  length (flat_map (fun j => [f j; g j]) (seq s n)) = (2 * n)%nat.
Proof.
  revert s. induction n as [|n IH]; intros s; [reflexivity|].
  simpl. rewrite IH. lia.
Qed.

Lemma strip_vertices_pairs (pts : list vec3) (hw : R) :
  strip_vertices pts hw
  = flat_map (fun i => [fst (strip_pair pts hw i); snd (strip_pair pts hw i)])
             (seq 0 (length pts)).
Proof.
  unfold strip_vertices. apply flat_map_ext. intros i.
  destruct (strip_pair pts hw i); reflexivity.
Qed.

Lemma strip_vertices_length (pts : list vec3) (hw : R) :
  length (strip_vertices pts hw) = (2 * length pts)%nat.
Proof. rewrite strip_vertices_pairs. apply pairs_length. Qed.

Lemma strip_vertices_lookup (pts : list vec3) (hw : R) (i : nat) :
  (i < length pts)%nat ->
  strip_vertices pts hw !! (2 * i)%nat = Some (fst (strip_pair pts hw i)) /\
  strip_vertices pts hw !! (2 * i + 1)%nat = Some (snd (strip_pair pts hw i)).
Proof.
  intros Hi. rewrite strip_vertices_pairs.
  apply (pairs_lookup (fun i => fst (strip_pair pts hw i))
                      (fun i => snd (strip_pair pts hw i)) (length pts) 0 i Hi).
Qed.

Lemma strip_faces_length (n : nat) : length (strip_faces n) = (2 * (n - 1))%nat.
Proof.
  unfold strip_faces.
  apply (pairs_length (fun i => (i * 2, i * 2 + 2, i * 2 + 1)%nat)
                      (fun i => (i * 2 + 1, i * 2 + 2, i * 2 + 3)%nat)).
Qed.

Lemma strip_faces_lookup (n i : nat) :
  (i < n - 1)%nat ->
  strip_faces n !! (2 * i)%nat = Some (2 * i, 2 * i + 2, 2 * i + 1)%nat /\
  strip_faces n !! (2 * i + 1)%nat = Some (2 * i + 1, 2 * i + 2, 2 * i + 3)%nat.
Proof.
  intros Hi. unfold strip_faces.
  destruct (pairs_lookup (fun i => (i * 2, i * 2 + 2, i * 2 + 1)%nat)
                         (fun i => (i * 2 + 1, i * 2 + 2, i * 2 + 3)%nat)
                         (n - 1) 0 i Hi) as [H0 H1].
  split; (etransitivity; [eassumption|]); cbv beta; f_equal;
    apply pair_equal_spec; (split; [apply pair_equal_spec; split|]); lia.
Qed.

(** A ready sampler answers every query. *)
Lemma sample_returns (s : Heightmap.HeightmapSampler) (lat lon : R) :
  sampler_ready (Some s) -> exists r, Heightmap.sample s lat lon = Returned r.
Proof.
  destruct s as [g|]; [|intros _; by exists None].
  intros [Hpx Hg].
  assert (Hpos : Heightmap.grid_position g lat lon
                 = Returned ((lon - Heightmap.origin_lon g) / Heightmap.pixel_size g,
                             (Heightmap.origin_lat g - lat) / Heightmap.pixel_size g)).
  { unfold Heightmap.grid_position.
    destruct (Req_dec_T (Heightmap.pixel_size g) 0); [contradiction | reflexivity]. }
  set (col := (lon - Heightmap.origin_lon g) / Heightmap.pixel_size g) in *.
  set (row := (Heightmap.origin_lat g - lat) / Heightmap.pixel_size g) in *.
  destruct (Heightmap.out_of_bounds g col row) eqn:Hb.
  - exists None. unfold Heightmap.sample. rewrite Hpos. simpl. by rewrite Hb.
  - apply out_of_bounds_false in Hb as [Hcol Hrow].
    destruct (sample_between_inside g lat lon col row Hg Hpos Hcol Hrow)
      as (e & He). by exists (Some e).
Qed.

Lemma node_point_returns heightmap de olat olon (node : Node) :
  sampler_ready heightmap ->
  exists y, node_point heightmap de olat olon node
            = Returned (Vec3 (fst (latlon_to_local (lat node) (lon node) olat olon)) y
                             (snd (latlon_to_local (lat node) (lon node) olat olon))).
Proof.
  intros Hready. unfold node_point.
  destruct (latlon_to_local (lat node) (lon node) olat olon) as [x z]. simpl.
  destruct heightmap as [hm|].
  - destruct (sample_returns hm (lat node) (lon node) Hready) as [r ->]. simpl.
    eexists; reflexivity.
  - simpl. eexists; reflexivity.
Qed.

Lemma road_points_returns heightmap de olat olon (nodes : list Node) :
  sampler_ready heightmap ->
  exists pts, road_points heightmap de olat olon nodes = Returned pts.
Proof.
  intros Hready. induction nodes as [|node nodes [pts IH]].
  - by exists [].
  - destruct (node_point_returns heightmap de olat olon node Hready) as [y Hy].
    simpl. rewrite Hy. simpl. rewrite IH. simpl. eexists; reflexivity.
Qed.

Lemma node_point_spec heightmap de olat olon (node : Node) (p : vec3) :
  node_point heightmap de olat olon node = Returned p ->
  exists y, p = Vec3 (fst (latlon_to_local (lat node) (lon node) olat olon)) y
                     (snd (latlon_to_local (lat node) (lon node) olat olon)).
Proof.
  unfold node_point.
  destruct (latlon_to_local (lat node) (lon node) olat olon) as [x z].
  intros Hp.
  destruct heightmap as [hm|];
    [destruct (Heightmap.sample hm (lat node) (lon node)) as [r|]|];
    simpl in Hp; try discriminate Hp; injection Hp as <-;
    eexists; reflexivity.
Qed.

(** The points are the projections of the nodes, in order. *)
Lemma road_points_spec heightmap de olat olon (nodes : list Node) (pts : list vec3) :
  road_points heightmap de olat olon nodes = Returned pts ->
  length pts = length nodes /\
  forall i node, nodes !! i = Some node ->
    exists y, pts !! i
              = Some (Vec3 (fst (latlon_to_local (lat node) (lon node) olat olon)) y
                           (snd (latlon_to_local (lat node) (lon node) olat olon))).
Proof.
  revert pts. induction nodes as [|node nodes IH]; intros pts Hpts.
  - injection Hpts as <-. split; [reflexivity|]. intros i n Hn. discriminate Hn.
  - simpl in Hpts.
    destruct (node_point heightmap de olat olon node) as [p|] eqn:Hp; [|discriminate].
    simpl in Hpts.
    destruct (road_points heightmap de olat olon nodes) as [ps|] eqn:Hps;
      [|discriminate].
    injection Hpts as <-. destruct (IH ps eq_refl) as [Hlen Hnth].
    split; [simpl; by rewrite Hlen|].
    intros [|i] n Hn; simpl in Hn.
    + injection Hn as <-.
      destruct (node_point_spec _ _ _ _ _ _ Hp) as [y ->]. by exists y.
    + by apply Hnth.
Qed.

Lemma road_to_mesh_built {trimesh : Type} (Trimesh : Mesh -> trimesh)
    nodes width heightmap de olat olon (pts : list vec3) :
  (2 <= length nodes)%nat ->
  road_points heightmap de olat olon nodes = Returned pts ->
  road_to_mesh Trimesh nodes width heightmap de olat olon
  = Returned (Some (Trimesh {| vertices := strip_vertices pts (width / 2);
                               faces := strip_faces (length pts) |})).
Proof.
  intros Hn Hpts. destruct (road_points_spec _ _ _ _ _ _ Hpts) as [Hlen _].
  unfold road_to_mesh.
  destruct (Nat.ltb_spec (length nodes) 2); [lia|].
  rewrite Hpts. simpl.
  destruct (Nat.ltb_spec (length pts) 2); [lia|].
  rewrite strip_faces_length.
  destruct (Nat.eqb_spec (2 * (length pts - 1)) 0); [lia | reflexivity].
Qed.

Lemma road_to_mesh_short {trimesh : Type} (Trimesh : Mesh -> trimesh)
    nodes width heightmap de olat olon :
  (length nodes < 2)%nat ->
  road_to_mesh Trimesh nodes width heightmap de olat olon = Returned None.
Proof.
  intros Hlt. unfold road_to_mesh.
  destruct (Nat.ltb_spec (length nodes) 2); [reflexivity | lia].
Qed.

(** The mesh returned is the constructor applied to the arrays. *)
Lemma road_to_mesh_inv {trimesh : Type} (Trimesh : Mesh -> trimesh)
    nodes width heightmap de olat olon (pts : list vec3) (m : trimesh) :
  road_points heightmap de olat olon nodes = Returned pts ->
  road_to_mesh Trimesh nodes width heightmap de olat olon = Returned (Some m) ->
  m = Trimesh {| vertices := strip_vertices pts (width / 2);
                 faces := strip_faces (length pts) |}.
Proof.
  intros Hpts Hm.
  destruct (Nat.ltb_spec (length nodes) 2) as [Hlt | Hge].
  - rewrite (road_to_mesh_short Trimesh _ _ _ _ _ _ Hlt) in Hm. discriminate Hm.
  - rewrite (road_to_mesh_built Trimesh nodes width heightmap de olat olon pts Hge Hpts)
      in Hm.
    by injection Hm as <-.
Qed.

Lemma road_strip_built nodes width heightmap de olat olon (pts : list vec3) :
  (2 <= length nodes)%nat ->
  road_points heightmap de olat olon nodes = Returned pts ->
  road_strip nodes width heightmap de olat olon
  = Returned (Some {| vertices := strip_vertices pts (width / 2);
                      faces := strip_faces (length pts) |}).
Proof. apply (road_to_mesh_built (fun arrays => arrays)). Qed.

End StripFacts.

Section VertexFacts.
Local Open Scope R_scope.
Import Roads.

Lemma road_strip_inv nodes width heightmap de olat olon (pts : list vec3) (m : Mesh) :
  road_points heightmap de olat olon nodes = Returned pts ->
  road_strip nodes width heightmap de olat olon = Returned (Some m) ->
  m = {| vertices := strip_vertices pts (width / 2);
         faces := strip_faces (length pts) |}.
Proof. apply (road_to_mesh_inv (fun arrays => arrays)). Qed.

Lemma direction_at_flat (pts : list vec3) (i : nat) (d : vec3) :
  direction_at pts i = Dir d -> vy d = 0.
Proof.
  unfold direction_at. intros H.
  destruct (if (i =? 0)%nat then _ else _) as [d'|]; [|discriminate H].
  by injection H as <-.
Qed.

Lemma strip_pair_degenerate (pts : list vec3) (hw : R) (i : nat) (d : vec3) :
  direction_at pts i = Dir d -> norm d < 1 / 1000 ->
  strip_pair pts hw i
  = (V (vadd (nth i pts vzero) (vscale (Vec3 1 0 0) hw)),
     V (vsub (nth i pts vzero) (vscale (Vec3 1 0 0) hw))).
Proof.
  intros Hd Hlen. unfold strip_pair. rewrite Hd.
  destruct (Rlt_dec (norm d) (1 / 1000)); [reflexivity | contradiction].
Qed.

Lemma strip_pair_regular (pts : list vec3) (hw : R) (i : nat) (d : vec3) :
  direction_at pts i = Dir d -> 1 / 1000 <= norm d ->
  exists l r, strip_pair pts hw i = (V l, V r) /\ norm (vsub l r) = Rabs (2 * hw).
Proof.
  intros Hd Hlen. pose proof (direction_at_flat pts i d Hd) as Hy.
  unfold strip_pair. rewrite Hd.
  destruct (Rlt_dec (norm d) (1 / 1000)) as [Hlt | _]; [lra|].
  eexists _, _. split; [reflexivity|].
  assert (Hsq : norm d * norm d = vx d * vx d + vz d * vz d).
  { unfold norm. rewrite sqrt_sqrt; [rewrite Hy; ring|]. nra. }
  assert (Hn : norm d <> 0) by lra.
  unfold norm at 1. simpl.
  match goal with
  | |- sqrt ?e = _ =>
      replace e with ((2 * hw) * (2 * hw) * ((vx d * vx d + vz d * vz d)
                                           / (norm d * norm d)))
        by (field; exact Hn)
  end.
  rewrite <- Hsq. replace (norm d * norm d / (norm d * norm d)) with 1
    by (field; exact Hn).
  rewrite Rmult_1_r. apply sqrt_Rsqr_abs.
Qed.

Lemma point_road_points :
  exists p, road_points None 0 0 0 point_road = Returned [p; p] /\
            direction_at [p; p] 0 = Dir (Vec3 (vx p - vx p) 0 (vz p - vz p)).
Proof. eexists. split; reflexivity. Qed.

Lemma zero_direction_norm (x z : R) : norm (Vec3 (x - x) 0 (z - z)) = 0.
Proof.
  unfold norm. simpl.
  replace ((x - x) * (x - x) + 0 * 0 + (z - z) * (z - z)) with 0 by ring.
  apply sqrt_0.
Qed.

Lemma east_road_points :
  exists p q, road_points None 0 0 0 east_road = Returned [p; q] /\
              direction_at [p; q] 0 = Dir (Vec3 (vx q - vx p) 0 (vz q - vz p)) /\
              1 / 1000 <= norm (Vec3 (vx q - vx p) 0 (vz q - vz p)).
Proof.
  eexists _, _. split; [reflexivity|]. split; [reflexivity|].
  unfold norm, latlon_to_local, radians. simpl.
  replace (0 * (PI / 180)) with 0 by ring. rewrite cos_0.
  pose proof PI2_1 as Hpi.
  match goal with
  | |- _ <= sqrt ?e =>
      replace e with ((1 / 1000 * (PI / 180 * EARTH_RADIUS) * METERS_TO_FEET)
                      * (1 / 1000 * (PI / 180 * EARTH_RADIUS) * METERS_TO_FEET))
        by ring
  end.
  assert (Hx : 1 / 1000 <= 1 / 1000 * (PI / 180 * EARTH_RADIUS) * METERS_TO_FEET)
    by (unfold EARTH_RADIUS, METERS_TO_FEET; lra).
  rewrite sqrt_square; lra.
Qed.

Lemma negative_width_resolved :
  num_real (Roads.get_road_width Py.float Py.int {["width" := "-5"]})
  = Some (Q2R (-1640420 # 100000)).
Proof.
  replace (Roads.get_road_width Py.float Py.int {["width" := "-5"]})
    with (Py.PyFloat (Py.FFin (-1640420 # 100000))) by (vm_compute; reflexivity).
  reflexivity.
Qed.

End VertexFacts.

(** C5 as stated fails: the mesh returned is what the constructor makes
    of the arrays, and the default processing of [trimesh.Trimesh] merges
    equal vertices.  For two coincident nodes and width 10 the arrays
    hold 4 vertices and the faces [(0, 2, 1)] and [(1, 2, 3)]; from a
    constructor that merges equal vertices the mesh has 2 vertices, not
    4, and the faces [(0, 0, 1)] and [(1, 0, 1)]. *)
Lemma merged_strip_is_smaller :
  exists arrays m,
    Binary64.Roads.road_to_mesh cos_table (fun a => a) point_road64 (B64.of_Z 10) None
      (B64.of_Z 0) (B64.of_Z 0) (B64.of_Z 0) = Returned (Some arrays) /\
    length (Binary64.Roads.vertices arrays) = 4%nat /\
    Binary64.Roads.faces arrays = [(0, 2, 1); (1, 2, 3)]%nat /\
    Binary64.Roads.road_to_mesh cos_table merge_vertices point_road64 (B64.of_Z 10) None
      (B64.of_Z 0) (B64.of_Z 0) (B64.of_Z 0) = Returned (Some m) /\
    length (Binary64.Roads.vertices m) = 2%nat /\
    Binary64.Roads.faces m = [(0, 0, 1); (1, 0, 1)]%nat.
Proof.
  eexists _, _. split; [reflexivity|]. split; [reflexivity|]. split; [reflexivity|].
  split; [reflexivity|]. split; vm_compute; reflexivity.
Qed.

(** C5, amended: a polyline of fewer than two points gives absent; for
    one of [N >= 2] points the mesh returned is the constructor applied
    to arrays with exactly [2N] vertices, the left and the right vertex
    of point [i] (the projection of node [i]) at positions [2i] and
    [2i+1], and exactly [2(N-1)] triangles, segment [i] contributing
    [(2i, 2i+2, 2i+1)] and [(2i+1, 2i+2, 2i+3)]; this for every mesh
    constructor.  The elevation look-ups are assumed not to raise. *)
Theorem road_strip_shape {trimesh : Type} (Trimesh : Roads.Mesh -> trimesh)
    (nodes : list Node) (width : R)
    (heightmap : option Heightmap.HeightmapSampler)
    (default_elevation origin_lat origin_lon : R) :
  ((length nodes < 2)%nat ->
   Roads.road_to_mesh Trimesh nodes width heightmap
     default_elevation origin_lat origin_lon
   = Returned None) /\
  (sampler_ready heightmap -> (2 <= length nodes)%nat ->
   exists pts arrays,
     Roads.road_points heightmap default_elevation origin_lat origin_lon nodes
     = Returned pts /\
     length pts = length nodes /\
     (forall i node, nodes !! i = Some node ->
        exists y, pts !! i
                  = Some (Roads.Vec3
                            (fst (Roads.latlon_to_local (lat node) (lon node)
                                    origin_lat origin_lon))
                            y
                            (snd (Roads.latlon_to_local (lat node) (lon node)
                                    origin_lat origin_lon)))) /\
     Roads.road_to_mesh Trimesh nodes width heightmap
       default_elevation origin_lat origin_lon
     = Returned (Some (Trimesh arrays)) /\
     length (Roads.vertices arrays) = (2 * length nodes)%nat /\
     length (Roads.faces arrays) = (2 * (length nodes - 1))%nat /\
     (forall i, (i < length nodes)%nat ->
        Roads.vertices arrays !! (2 * i)%nat
        = Some (fst (Roads.strip_pair pts (width / 2) i)) /\
        Roads.vertices arrays !! (2 * i + 1)%nat
        = Some (snd (Roads.strip_pair pts (width / 2) i))) /\
     (forall i, (i < length nodes - 1)%nat ->
        Roads.faces arrays !! (2 * i)%nat = Some (2 * i, 2 * i + 2, 2 * i + 1)%nat /\
        Roads.faces arrays !! (2 * i + 1)%nat
        = Some (2 * i + 1, 2 * i + 2, 2 * i + 3)%nat)).
Proof.
  split.
  - apply road_to_mesh_short.
  - intros Hready Hn.
    destruct (road_points_returns heightmap default_elevation origin_lat origin_lon
                nodes Hready) as [pts Hpts].
    destruct (road_points_spec _ _ _ _ _ _ Hpts) as [Hlen Hproj].
    exists pts. eexists.
    split; [exact Hpts|]. split; [exact Hlen|]. split; [exact Hproj|].
    split; [apply (road_to_mesh_built Trimesh _ _ _ _ _ _ pts Hn Hpts)|]. simpl.
    rewrite strip_vertices_length, strip_faces_length, Hlen.
    split; [reflexivity|]. split; [reflexivity|]. split.
    + intros i Hi. apply strip_vertices_lookup. lia.
    + intros i Hi. apply strip_faces_lookup. lia.
Qed.

Lemma road_strip_shape_witness :
  exists arrays,
    Roads.road_to_mesh (fun a => a) east_road 10 None 0 0 0 = Returned (Some arrays) /\
    length (Roads.vertices arrays) = 4%nat /\ length (Roads.faces arrays) = 2%nat /\
    Roads.faces arrays = [(0, 2, 1); (1, 2, 3)]%nat.
Proof.
  destruct (proj2 (road_strip_shape (fun a => a) east_road 10 None 0 0 0) I)
    as (pts & m & _ & _ & _ & Hm & Hv & Hf & _ & Hfaces); [simpl; lia|].
  exists m. split; [exact Hm|]. split; [exact Hv|]. split; [exact Hf|].
  destruct (Hfaces 0%nat) as [F0 F1]; [simpl; lia|].
  destruct (Roads.faces m) as [|a [|b [|c l]]]; try discriminate Hf.
  injection F0 as ->. injection F1 as ->. reflexivity.
Defined.

(** C2 as stated fails: at a degenerate vertex the code sets the
    perpendicular itself to east, so the two vertices are displaced along
    x and not along z. *)
Lemma degenerate_offset_not_north :
  ~ (forall (nodes : list Node) (width : R)
            (heightmap : option Heightmap.HeightmapSampler)
            (default_elevation origin_lat origin_lon : R)
            (pts : list Roads.vec3) (m : Roads.Mesh) (i : nat)
            (p d : Roads.vec3),
       Roads.road_points heightmap default_elevation origin_lat origin_lon nodes
       = Returned pts ->
       Roads.road_strip nodes width heightmap default_elevation
         origin_lat origin_lon = Returned (Some m) ->
       pts !! i = Some p ->
       Roads.direction_at pts i = Roads.Dir d ->
       (Roads.norm d < 1 / 1000)%R ->
       exists k : R,
         Roads.vertices m !! (2 * i)%nat
         = Some (Roads.V (Roads.Vec3 (Roads.vx p) (Roads.vy p) (Roads.vz p + k))) /\
         Roads.vertices m !! (2 * i + 1)%nat
         = Some (Roads.V (Roads.Vec3 (Roads.vx p) (Roads.vy p) (Roads.vz p - k)))).
Proof.
  intros H. destruct point_road_points as (p & Hpts & Hdir).
  assert (Hnorm : (Roads.norm (Roads.Vec3 (Roads.vx p - Roads.vx p) 0
                                          (Roads.vz p - Roads.vz p)) < 1 / 1000)%R)
    by (rewrite zero_direction_norm; lra).
  assert (Hm := road_strip_built point_road 10 None 0 0 0 [p; p]
                  ltac:(simpl; lia) Hpts).
  destruct (H point_road 10%R None 0%R 0%R 0%R [p; p] _ 0%nat p _
              Hpts Hm eq_refl Hdir Hnorm) as (k & Hleft & _).
  destruct (strip_vertices_lookup [p; p] (10 / 2) 0 ltac:(simpl; lia)) as [Hv _].
  simpl Roads.vertices in Hleft. rewrite Hv in Hleft.
  rewrite (strip_pair_degenerate [p; p] (10 / 2) 0 _ Hdir Hnorm) in Hleft.
  simpl in Hleft. injection Hleft as Hx _ _. lra.
Qed.

(** C2, amended: at every vertex whose flattened direction vector is
    shorter than the epsilon, the perpendicular used is east (the positive
    x axis): the left vertex is the point moved by [width/2] along x, the
    right vertex the point moved by [-width/2] along x. *)
Theorem degenerate_offset_east (nodes : list Node) (width : R)
    (heightmap : option Heightmap.HeightmapSampler)
    (default_elevation origin_lat origin_lon : R)
    (pts : list Roads.vec3) (m : Roads.Mesh) (i : nat) (p d : Roads.vec3) :
  Roads.road_points heightmap default_elevation origin_lat origin_lon nodes
  = Returned pts ->
  Roads.road_strip nodes width heightmap default_elevation origin_lat origin_lon
  = Returned (Some m) ->
  pts !! i = Some p ->
  Roads.direction_at pts i = Roads.Dir d ->
  (Roads.norm d < 1 / 1000)%R ->
  Roads.vertices m !! (2 * i)%nat
  = Some (Roads.V (Roads.Vec3 (Roads.vx p + width / 2) (Roads.vy p) (Roads.vz p))) /\
  Roads.vertices m !! (2 * i + 1)%nat
  = Some (Roads.V (Roads.Vec3 (Roads.vx p - width / 2) (Roads.vy p) (Roads.vz p))).
Proof.
  intros Hpts Hm Hp Hd Hlen.
  rewrite (road_strip_inv _ _ _ _ _ _ _ _ Hpts Hm). cbn [Roads.vertices].
  destruct (strip_vertices_lookup pts (width / 2) i) as [Hl Hr].
  { apply lookup_lt_Some in Hp. exact Hp. }
  rewrite Hl, Hr, (strip_pair_degenerate pts (width / 2) i d Hd Hlen).
  rewrite (nth_lookup_Some pts i Roads.vzero p Hp). cbn [fst snd].
  split; do 2 f_equal; unfold Roads.vadd, Roads.vsub; simpl; f_equal; ring.
Qed.

Lemma degenerate_offset_east_witness :
  exists p m,
    Roads.road_strip point_road 10 None 0 0 0 = Returned (Some m) /\
    Roads.vertices m !! 0%nat
    = Some (Roads.V (Roads.Vec3 (Roads.vx p + 10 / 2) (Roads.vy p) (Roads.vz p))) /\
    Roads.vertices m !! 1%nat
    = Some (Roads.V (Roads.Vec3 (Roads.vx p - 10 / 2) (Roads.vy p) (Roads.vz p))).
Proof.
  destruct point_road_points as (p & Hpts & Hdir).
  exists p. eexists. split.
  - apply (road_strip_built point_road 10 None 0 0 0 [p; p]); [simpl; lia | exact Hpts].
  - eapply (degenerate_offset_east point_road 10 None 0 0 0 [p; p] _ 0 p _ Hpts).
    + apply (road_strip_built point_road 10 None 0 0 0 [p; p]);
        [simpl; lia | exact Hpts].
    + reflexivity.
    + exact Hdir.
    + rewrite zero_direction_norm. lra.
Defined.

(** A resolved width can be negative (an explicit width of [-5]), and
    the distance between the two vertices is then its absolute value. *)
Lemma negative_width_distance :
  ~ (forall (tags : gmap string string) (width : R) (nodes : list Node)
            (heightmap : option Heightmap.HeightmapSampler)
            (default_elevation origin_lat origin_lon : R)
            (pts : list Roads.vec3) (m : Roads.Mesh) (i : nat) (d : Roads.vec3),
       num_real (Roads.get_road_width Py.float Py.int tags) = Some width ->
       Roads.road_points heightmap default_elevation origin_lat origin_lon nodes
       = Returned pts ->
       Roads.road_strip nodes width heightmap default_elevation
         origin_lat origin_lon = Returned (Some m) ->
       (i < length pts)%nat ->
       Roads.direction_at pts i = Roads.Dir d ->
       (1 / 1000 <= Roads.norm d)%R ->
       exists l r,
         Roads.vertices m !! (2 * i)%nat = Some (Roads.V l) /\
         Roads.vertices m !! (2 * i + 1)%nat = Some (Roads.V r) /\
         Roads.norm (Roads.vsub l r) = width).
Proof.
  intros H. destruct east_road_points as (p & q & Hpts & Hdir & Hnorm).
  set (w := Q2R (-1640420 # 100000)).
  assert (Hw : (w < 0)%R) by (unfold w, Q2R; simpl; lra).
  assert (Hm := road_strip_built east_road w None 0 0 0 [p; q]
                  ltac:(simpl; lia) Hpts).
  destruct (H {["width" := "-5"]} w east_road None 0%R 0%R 0%R [p; q] _ 0%nat _
              negative_width_resolved Hpts Hm ltac:(simpl; lia) Hdir Hnorm)
    as (l & r & Hl & Hr & Hdist).
  destruct (strip_vertices_lookup [p; q] (w / 2) 0 ltac:(simpl; lia)) as [Hl' Hr'].
  destruct (strip_pair_regular [p; q] (w / 2) 0 _ Hdir Hnorm)
    as (l' & r' & Hpair & Hdist').
  simpl Roads.vertices in Hl, Hr.
  rewrite Hl', Hpair in Hl. rewrite Hr', Hpair in Hr. simpl in Hl, Hr.
  injection Hl as ->. injection Hr as ->.
  rewrite Hdist' in Hdist.
  replace (2 * (w / 2))%R with w in Hdist by field.
  rewrite Rabs_left in Hdist by exact Hw. lra.
Qed.

(** In binary64 the two vertices of a point are a rounded distance
    apart.  For the road from the origin to latitude [0.0003], longitude
    [0.0007], and width 10, the first point is not degenerate, its
    vertices are
    [(-0x1.f83779cb4dcdfp+0, 0.1, 0x1.26205c6142b82p+2)] and the opposite
    one, and the square of their distance exceeds 100. *)
Lemma strip_width_rounded :
  exists pts arrays l r,
    Binary64.Roads.road_points cos_table None (B64.of_Z 0) (B64.of_Z 0) (B64.of_Z 0)
      slanted_road64 = Returned pts /\
    B64.ltb (Binary64.Roads.norm (Binary64.Roads.direction_at pts 0)) (B64.literal 1 1000)
    = false /\
    Binary64.Roads.road_to_mesh cos_table (fun a => a) slanted_road64 (B64.of_Z 10) None
      (B64.of_Z 0) (B64.of_Z 0) (B64.of_Z 0) = Returned (Some arrays) /\
    Binary64.Roads.vertices arrays !! 0%nat = Some l /\
    Binary64.Roads.vertices arrays !! 1%nat = Some r /\
    l = Binary64.Roads.Vec3 (S754_finite true 8870274031475935%positive (-52)%Z)
                            (S754_finite false 7205759403792794%positive (-56)%Z)
                            (S754_finite false 5174326518360962%positive (-50)%Z) /\
    (10 * 10 < squared_distance l r)%Q.
Proof.
  eexists _, _, _, _. split; [reflexivity|]. split; [vm_compute; reflexivity|].
  split; [reflexivity|]. split; [reflexivity|]. split; [reflexivity|].
  split; vm_compute; reflexivity.
Qed.

(** C6 as stated fails, for two reasons: the distance between the two
    vertices is the absolute value of the width, which differs from a
    negative width; and the code computes in binary64, where the distance
    is the width only up to rounding. *)
Lemma strip_width_not_exact :
  ~ (forall (tags : gmap string string) (width : R) (nodes : list Node)
            (heightmap : option Heightmap.HeightmapSampler)
            (default_elevation origin_lat origin_lon : R)
            (pts : list Roads.vec3) (m : Roads.Mesh) (i : nat) (d : Roads.vec3),
       num_real (Roads.get_road_width Py.float Py.int tags) = Some width ->
       Roads.road_points heightmap default_elevation origin_lat origin_lon nodes
       = Returned pts ->
       Roads.road_strip nodes width heightmap default_elevation
         origin_lat origin_lon = Returned (Some m) ->
       (i < length pts)%nat ->
       Roads.direction_at pts i = Roads.Dir d ->
       (1 / 1000 <= Roads.norm d)%R ->
       exists l r,
         Roads.vertices m !! (2 * i)%nat = Some (Roads.V l) /\
         Roads.vertices m !! (2 * i + 1)%nat = Some (Roads.V r) /\
         Roads.norm (Roads.vsub l r) = width) /\
  (exists pts arrays l r,
     Binary64.Roads.road_points cos_table None (B64.of_Z 0) (B64.of_Z 0) (B64.of_Z 0)
       slanted_road64 = Returned pts /\
     B64.ltb (Binary64.Roads.norm (Binary64.Roads.direction_at pts 0))
             (B64.literal 1 1000) = false /\
     Binary64.Roads.road_to_mesh cos_table (fun a => a) slanted_road64 (B64.of_Z 10)
       None (B64.of_Z 0) (B64.of_Z 0) (B64.of_Z 0) = Returned (Some arrays) /\
     Binary64.Roads.vertices arrays !! 0%nat = Some l /\
     Binary64.Roads.vertices arrays !! 1%nat = Some r /\
     (10 * 10 < squared_distance l r)%Q).
Proof.
  split; [exact negative_width_distance|].
  destruct strip_width_rounded as (pts & arrays & l & r & H1 & H2 & H3 & H4 & H5 & _ & H6).
  by exists pts, arrays, l, r.
Qed.

(** C6, amended: in exact real arithmetic, at every vertex whose
    flattened direction vector is at least as long as the epsilon, the
    distance between the left and the right vertex is the absolute value
    of the width; it is the width itself whenever the width is not
    negative. *)
Theorem strip_width_preserved (nodes : list Node) (width : R)
    (heightmap : option Heightmap.HeightmapSampler)
    (default_elevation origin_lat origin_lon : R)
    (pts : list Roads.vec3) (m : Roads.Mesh) (i : nat) (d : Roads.vec3) :
  Roads.road_points heightmap default_elevation origin_lat origin_lon nodes
  = Returned pts ->
  Roads.road_strip nodes width heightmap default_elevation origin_lat origin_lon
  = Returned (Some m) ->
  (i < length pts)%nat ->
  Roads.direction_at pts i = Roads.Dir d ->
  (1 / 1000 <= Roads.norm d)%R ->
  exists l r,
    Roads.vertices m !! (2 * i)%nat = Some (Roads.V l) /\
    Roads.vertices m !! (2 * i + 1)%nat = Some (Roads.V r) /\
    Roads.norm (Roads.vsub l r) = Rabs width /\
    ((0 <= width)%R -> Roads.norm (Roads.vsub l r) = width).
Proof.
  intros Hpts Hm Hi Hd Hlen.
  rewrite (road_strip_inv _ _ _ _ _ _ _ _ Hpts Hm). cbn [Roads.vertices].
  destruct (strip_vertices_lookup pts (width / 2) i Hi) as [Hl Hr].
  destruct (strip_pair_regular pts (width / 2) i d Hd Hlen)
    as (l & r & Hpair & Hdist).
  rewrite Hpair in Hl, Hr. cbn [fst snd] in Hl, Hr. exists l, r.
  split; [exact Hl|]. split; [exact Hr|].
  replace (2 * (width / 2))%R with width in Hdist by field.
  split; [exact Hdist|].
  intros Hw. rewrite Hdist. apply Rabs_pos_eq, Hw.
Qed.

Lemma strip_width_preserved_witness :
  exists m l r,
    Roads.road_strip east_road 10 None 0 0 0 = Returned (Some m) /\
    Roads.vertices m !! 0%nat = Some (Roads.V l) /\
    Roads.vertices m !! 1%nat = Some (Roads.V r) /\
    Roads.norm (Roads.vsub l r) = 10%R.
Proof.
  destruct east_road_points as (p & q & Hpts & Hdir & Hnorm).
  assert (Hm := road_strip_built east_road 10 None 0 0 0 [p; q]
                  ltac:(simpl; lia) Hpts).
  destruct (strip_width_preserved east_road 10 None 0 0 0 [p; q] _ 0 _
              Hpts Hm ltac:(simpl; lia) Hdir Hnorm)
    as (l & r & Hl & Hr & _ & Hdist).
  eexists _, l, r. split; [exact Hm|]. split; [exact Hl|]. split; [exact Hr|].
  apply Hdist. lra.
Defined.

(* ===================================================================== *)
(** ** fetch_osm.py: the Overpass request and the response parser *)
(* ===================================================================== *)

(** X1: [fetch_overpass] sends between one and three requests and sleeps
    five seconds after each failed one but the last; every request before
    the last one failed with a request exception; it ends with the body of
    the last request or with the exception of the last request, a request
    exception being raised only by the third attempt; the empty dictionary
    after the loop is never returned. *)
Theorem fetch_overpass_retries {A E : Type} (post : nat -> Osm.reply A E) :
  (1 <= Osm.requests (Osm.fetch_overpass post) <= 3)%nat /\
  Osm.slept (Osm.fetch_overpass post)
  = (5 * (Osm.requests (Osm.fetch_overpass post) - 1))%nat /\
  (forall j, (j < Osm.requests (Osm.fetch_overpass post) - 1)%nat ->
             exists e, post j = Osm.RequestException e) /\
  match Osm.ended (Osm.fetch_overpass post) with
  | Osm.Body a => post (Osm.requests (Osm.fetch_overpass post) - 1)%nat = Osm.Json a
  | Osm.Raise e =>
      post (Osm.requests (Osm.fetch_overpass post) - 1)%nat = Osm.OtherException e \/
      (Osm.requests (Osm.fetch_overpass post) = 3%nat /\
       post 2%nat = Osm.RequestException e)
  | Osm.EmptyDict => False
  end.
Proof.
  unfold Osm.fetch_overpass, Osm.MAX_RETRIES. simpl.
  destruct (post 0%nat) as [a0 | e0 | e0] eqn:E0; simpl;
    [ | destruct (post 1%nat) as [a1 | e1 | e1] eqn:E1; simpl;
        [ | destruct (post 2%nat) as [a2 | e2 | e2] eqn:E2; simpl | ] | ];
    repeat split;
    first [ lia | assumption | left; assumption
          | right; split; [reflexivity | assumption]
          | right; split; reflexivity
          | intros [|[|j]] Hj; first [lia | eauto] ].
Qed.

Section ParseFacts.
Variable member : Type.
Implicit Types (d : list (Z * Osm.node_entry)) (els : list (Osm.element member)).

Lemma dict_get_set {V : Type} (d : list (Z * V)) (k k' : Z) (v : V) :
  Osm.dict_get (Osm.dict_set d k v) k'
  = if (k =? k')%Z then Some v else Osm.dict_get d k'.
Proof.
  induction d as [|[k0 v0] d IH]; simpl.
  - reflexivity.
  - destruct (Z.eqb_spec k0 k) as [-> | Hne]; simpl.
    + destruct (Z.eqb_spec k k'); reflexivity.
    + rewrite IH. destruct (Z.eqb_spec k0 k') as [-> | Hne'].
      * destruct (Z.eqb_spec k k'); [congruence | reflexivity].
      * reflexivity.
Qed.

Lemma dict_set_keys {V : Type} (d : list (Z * V)) (k : Z) (v : V) :
  NoDup (map fst d) ->
  NoDup (map fst (Osm.dict_set d k v)) /\
  forall k', k' ∈ map fst (Osm.dict_set d k v) <-> k' = k \/ k' ∈ map fst d.
Proof.
  induction d as [|[k0 v0] d IH]; simpl; intros Hnd.
  - split; [apply NoDup_singleton|]. intros k'. rewrite list_elem_of_singleton.
    rewrite elem_of_nil. tauto.
  - apply NoDup_cons in Hnd as [Hk0 Hnd]. destruct (IH Hnd) as [IH1 IH2].
    destruct (Z.eqb_spec k0 k) as [-> | Hne]; simpl.
    + split; [apply NoDup_cons; split; assumption|].
      intros k'. rewrite !elem_of_cons. tauto.
    + split.
      * apply NoDup_cons. split; [|exact IH1].
        rewrite IH2. intros [Heq | Hin]; [congruence | contradiction].
      * intros k'. rewrite !elem_of_cons, IH2. tauto.
Qed.

Lemma dict_get_elem {V : Type} (d : list (Z * V)) (k : Z) (v : V) :
  NoDup (map fst d) -> ((k, v) ∈ d <-> Osm.dict_get d k = Some v).
Proof.
  induction d as [|[k0 v0] d IH]; simpl; intros Hnd.
  - rewrite elem_of_nil. split; [tauto | discriminate].
  - apply NoDup_cons in Hnd as [Hk0 Hnd]. rewrite elem_of_cons.
    destruct (Z.eqb_spec k0 k) as [-> | Hne].
    + split.
      * intros [Heq | Hin]; [by injection Heq as -> |].
        exfalso. apply Hk0. apply list_elem_of_fmap. by exists (k, v).
      * intros Heq. injection Heq as ->. by left.
    + rewrite <- (IH Hnd). split.
      * intros [Heq | Hin]; [injection Heq as <- <-; congruence | exact Hin].
      * intros Hin. by right.
Qed.

(** The dictionary after the first pass, started from [d]. *)
Lemma collect_from d els :
  NoDup (map fst d) ->
  let d' := fold_left
              (fun nodes el =>
                 match el with
                 | Osm.ElNode id lat lon tags =>
                     Osm.dict_set nodes id
                       {| Osm.n_id := id; Osm.n_lat := lat; Osm.n_lon := lon;
                          Osm.n_tags := default ∅ tags |}
                 | _ => nodes
                 end) els d in
  NoDup (map fst d') /\
  forall id, Osm.dict_get d' id
             = match last_node member els id with
               | Some n => Some n
               | None => Osm.dict_get d id
               end.
Proof.
  revert d. induction els as [|el els IH]; intros d Hnd; simpl.
  - split; [exact Hnd | reflexivity].
  - destruct el as [id lat lon tags | | | ]; simpl;
      try (destruct (IH d Hnd) as [H1 H2]; split; [exact H1|];
           intros id'; rewrite H2; destruct (last_node member els id'); reflexivity).
    destruct (dict_set_keys d id
                {| Osm.n_id := id; Osm.n_lat := lat; Osm.n_lon := lon;
                   Osm.n_tags := default ∅ tags |} Hnd) as [Hnd' _].
    destruct (IH _ Hnd') as [H1 H2]. split; [exact H1|].
    intros id'. rewrite H2, dict_get_set.
    destruct (last_node member els id'); [reflexivity|].
    destruct (id =? id')%Z; reflexivity.
Qed.

Lemma collect_nodes_get els (id : Z) :
  Osm.dict_get (Osm.collect_nodes member els) id = last_node member els id.
Proof.
  destruct (collect_from [] els (NoDup_nil_2)) as [_ H].
  unfold Osm.collect_nodes. rewrite H. by destruct (last_node member els id).
Qed.

Lemma collect_nodes_NoDup els : NoDup (map fst (Osm.collect_nodes member els)).
Proof. apply (collect_from [] els (NoDup_nil_2)). Qed.

Lemma last_node_id els (id : Z) (n : Osm.node_entry) :
  last_node member els id = Some n -> Osm.n_id n = id.
Proof.
  induction els as [|el els IH]; simpl; [discriminate|].
  destruct (last_node member els id) as [n'|].
  - intros H. injection H as <-. by apply IH.
  - destruct el as [id' lat lon tags | | | ]; try discriminate.
    destruct (Z.eqb_spec id' id) as [-> | _]; [|discriminate].
    intros H. by injection H as <-.
Qed.

Lemma way_nodes_resolved els (refs : list Z) :
  Osm.way_nodes (Osm.collect_nodes member els) refs = resolved member els refs.
Proof.
  induction refs as [|id refs IH]; [reflexivity|].
  simpl. rewrite collect_nodes_get, IH. unfold resolved. simpl.
  destruct (last_node member els id); reflexivity.
Qed.

Lemma collect_ways_from (nodes : list (Z * Osm.node_entry)) els
    (ws : list Osm.way_entry) (rs : list (Osm.relation_entry member)) :
  fst (fold_left
         (fun acc el =>
            let '(ways, relations) := acc in
            match el with
            | Osm.ElWay id tags refs =>
                (ways ++ [ {| Osm.w_id := id; Osm.w_tags := default ∅ tags;
                              Osm.w_nodes := Osm.way_nodes nodes (default [] refs) |} ],
                 relations)
            | Osm.ElRelation id tags members =>
                (ways,
                 relations ++ [ {| Osm.r_id := id; Osm.r_tags := default ∅ tags;
                                   Osm.r_members := default [] members |} ])
            | _ => acc
            end) els (ws, rs))
  = ws ++ omap (fun el =>
                  match el with
                  | Osm.ElWay id tags refs =>
                      Some {| Osm.w_id := id; Osm.w_tags := default ∅ tags;
                              Osm.w_nodes := Osm.way_nodes nodes (default [] refs) |}
                  | _ => None
                  end) els.
Proof.
  revert ws rs. induction els as [|el els IH]; intros ws rs; simpl.
  - by rewrite app_nil_r.
  - destruct el; rewrite IH; simpl; try reflexivity.
    by rewrite <- app_assoc.
Qed.

Lemma omap_pointwise {X Y : Type} (f g : X -> option Y) (l : list X) :
  (forall x, f x = g x) -> omap f l = omap g l.
Proof.
  intros Hfg. induction l as [|x l IH]; [reflexivity|].
  csimpl. by rewrite Hfg, IH.
Qed.

Lemma parse_elements_ways els :
  Osm.ways member (Osm.parse_elements member (Some els)) = ways_of member els.
Proof.
  unfold Osm.parse_elements. simpl.
  pose proof (collect_ways_from (Osm.collect_nodes member els) els [] []) as H.
  unfold Osm.collect_ways.
  destruct (fold_left _ els ([], [])) as [ws rs]. simpl in H |- *. rewrite H.
  unfold ways_of. apply omap_pointwise. intros [ | id tags refs | | ]; try reflexivity.
  by rewrite way_nodes_resolved.
Qed.

End ParseFacts.

Section ParseTheorems.
Variable member : Type.
Implicit Types (els : list (Osm.element member)).

Lemma last_node_some els (id : Z) :
  is_Some (last_node member els id)
  <-> exists lat lon tags, Osm.ElNode id lat lon tags ∈ els.
Proof.
  induction els as [|el els IH]; simpl.
  - split; [intros [n Hn]; discriminate | intros (la & lo & t & H)].
    by apply elem_of_nil in H.
  - destruct (last_node member els id) as [n|] eqn:Hl.
    + split; [|intros _; by exists n].
      intros _. destruct (proj1 IH) as (la & lo & t & H); [by exists n|].
      exists la, lo, t. by right.
    + split.
      * destruct el as [id' la lo t | | | ]; try (intros [n Hn]; discriminate).
        destruct (Z.eqb_spec id' id) as [-> | Hne]; [|intros [n Hn]; discriminate].
        intros _. exists la, lo, t. by left.
      * intros (la & lo & t & H). apply elem_of_cons in H as [<- | H].
        -- rewrite Z.eqb_refl. eexists; reflexivity.
        -- destruct (proj2 IH) as [n Hn]; [by exists la, lo, t | discriminate].
Qed.

Lemma resolved_length els (refs : list Z) :
  (length (resolved member els refs) <= length refs)%nat /\
  (length (resolved member els refs) = length refs
   <-> Forall (fun id => is_Some (last_node member els id)) refs).
Proof.
  unfold resolved. induction refs as [|id refs [IH1 IH2]]; csimpl.
  - split; [lia|]. split; [constructor | reflexivity].
  - destruct (last_node member els id) as [n|] eqn:Hl; csimpl.
    + split; [lia|]. rewrite Forall_cons. split.
      * intros H. split; [by exists n | apply IH2; lia].
      * intros [_ H]. f_equal. by apply IH2.
    + split; [lia|]. rewrite Forall_cons. split; [lia|].
      intros [[n Hn] _]. congruence.
Qed.

End ParseTheorems.

(** X2: the node list [parse_elements] returns has pairwise distinct
    identifiers; it holds exactly one entry per identifier that occurs in
    a node element, with the data of the last node element carrying it. *)
Theorem parse_elements_nodes (member : Type) (els : list (Osm.element member)) :
  NoDup (map Osm.n_id (Osm.nodes member (Osm.parse_elements member (Some els)))) /\
  forall n, n ∈ Osm.nodes member (Osm.parse_elements member (Some els))
            <-> last_node member els (Osm.n_id n) = Some n.
Proof.
  assert (Hnodes : Osm.nodes member (Osm.parse_elements member (Some els))
                   = map snd (Osm.collect_nodes member els)).
  { unfold Osm.parse_elements. simpl.
    by destruct (Osm.collect_ways member _ els). }
  rewrite Hnodes. clear Hnodes.
  pose proof (collect_nodes_NoDup member els) as Hnd.
  assert (Hkey : forall k n, (k, n) ∈ Osm.collect_nodes member els -> Osm.n_id n = k).
  { intros k n Hin. apply (dict_get_elem _ k n Hnd) in Hin.
    rewrite collect_nodes_get in Hin. by apply last_node_id in Hin. }
  split.
  - replace (map Osm.n_id (map snd (Osm.collect_nodes member els)))
      with (map fst (Osm.collect_nodes member els)); [exact Hnd|].
    rewrite map_map. apply map_ext_in. intros [k n] Hin. simpl.
    symmetry. apply Hkey. by apply list_elem_of_In.
  - intros n. rewrite <- collect_nodes_get, <- (dict_get_elem _ _ _ Hnd). split.
    + intros Hin. apply list_elem_of_fmap in Hin as ([k n'] & -> & Hin). simpl.
      by rewrite (Hkey k n' Hin).
    + intros Hin. apply list_elem_of_fmap. by exists (Osm.n_id n, n).
Qed.

(** X3: [parse_elements] returns one way per way element, in the order of
    the response, none dropped; the nodes of a way are the coordinates of
    those of its references that name a node element anywhere in the
    response (before or after the way), in reference order, taken from
    the last node element with that identifier. *)
Theorem parse_elements_ways_resolved (member : Type)
    (els : list (Osm.element member)) :
  Osm.ways member (Osm.parse_elements member (Some els)) = ways_of member els.
Proof. apply parse_elements_ways. Qed.

(** X4: a reference to a node that the response does not contain is
    dropped without error: every way element yields a way with at most as
    many nodes as references, and with as many exactly when every
    reference names a node element of the response. *)
Theorem parse_elements_drops_unknown_refs (member : Type)
    (els : list (Osm.element member)) (id : Z)
    (tags : option (gmap string string)) (refs : option (list Z)) :
  Osm.ElWay id tags refs ∈ els ->
  exists w,
    w ∈ Osm.ways member (Osm.parse_elements member (Some els)) /\
    Osm.w_id w = id /\ Osm.w_tags w = default ∅ tags /\
    (length (Osm.w_nodes w) <= length (default [] refs))%nat /\
    (length (Osm.w_nodes w) = length (default [] refs)
     <-> Forall (fun r => exists lat lon t, Osm.ElNode r lat lon t ∈ els)
                (default [] refs)).
Proof.
  intros Hin.
  exists {| Osm.w_id := id; Osm.w_tags := default ∅ tags;
            Osm.w_nodes := resolved member els (default [] refs) |}.
  split.
  - rewrite parse_elements_ways. unfold ways_of. apply list_elem_of_omap.
    by exists (Osm.ElWay id tags refs).
  - simpl. destruct (resolved_length member els (default [] refs)) as [H1 H2].
    repeat split; try assumption.
    + intros H. apply H2 in H. eapply Forall_impl; [exact H|].
      intros r. apply last_node_some.
    + intros H. apply H2. eapply Forall_impl; [exact H|].
      intros r. apply last_node_some.
Qed.

Lemma parse_elements_drops_unknown_refs_witness :
  exists w,
    w ∈ Osm.ways unit
          (Osm.parse_elements unit
             (Some [Osm.ElWay 7 None (Some [1; 2; 3]%Z); Osm.ElNode 2 0 0 None])) /\
    Osm.w_id w = 7%Z /\ (length (Osm.w_nodes w) <= 3)%nat.
Proof.
  destruct (parse_elements_drops_unknown_refs unit
              [Osm.ElWay 7 None (Some [1; 2; 3]%Z); Osm.ElNode 2 0 0 None]
              7 None (Some [1; 2; 3]%Z)) as (w & Hw & Hid & _ & Hlen & _).
  - by left.
  - exists w. split; [exact Hw|]. split; [exact Hid | exact Hlen].
Defined.

(* ===================================================================== *)
(** ** fetch_usgs_dem.py: file names, pagination and downloads *)
(* ===================================================================== *)

Example sanitize_examples :
  Usgs.sanitize_filename isalnum_ascii "USGS 1/3 arc-second n43w074"
  = "USGS_1_3_arc-second_n43w074" /\
  Usgs.sanitize_filename isalnum_ascii "../etc/passwd" = "etc_passwd" /\
  Usgs.sanitize_filename isalnum_ascii "__a.b__" = "a_b" /\
  Usgs.sanitize_filename isalnum_ascii "///" = EmptyString.
Proof. vm_compute. repeat split. Qed.

Section SanitizeFacts.
Variable isalnum : ascii -> bool.
Implicit Types (s : string) (c x : ascii).

Lemma cleaned_char_allowed c :
  allowed_char isalnum (Usgs.cleaned_char isalnum c) = true.
Proof.
  unfold Usgs.cleaned_char.
  destruct (isalnum c || Ascii.eqb c "-" || Ascii.eqb c "_") eqn:E.
  - exact E.
  - unfold allowed_char. apply orb_true_r.
Qed.

Lemma cleaned_char_fixed c :
  allowed_char isalnum c = true -> Usgs.cleaned_char isalnum c = c.
Proof. unfold allowed_char, Usgs.cleaned_char. by intros ->. Qed.

Lemma cleaned_allowed s : all_chars (allowed_char isalnum) (Usgs.cleaned isalnum s) = true.
Proof.
  induction s as [|c s IH]; [reflexivity|].
  simpl. by rewrite cleaned_char_allowed, IH.
Qed.

Lemma cleaned_fixed s :
  all_chars (allowed_char isalnum) s = true -> Usgs.cleaned isalnum s = s.
Proof.
  induction s as [|c s IH]; [reflexivity|].
  simpl. intros [Hc Hs]%andb_true_iff. by rewrite cleaned_char_fixed, IH.
Qed.

Lemma lstrip_char_all (p : ascii -> bool) x s :
  all_chars p s = true -> all_chars p (Usgs.lstrip_char x s) = true.
Proof.
  induction s as [|a s IH]; [reflexivity|].
  simpl. intros H. destruct (Ascii.eqb a x); [|exact H].
  apply andb_true_iff in H as [_ H]. by apply IH.
Qed.

Lemma lstrip_char_first x s : first_char (Usgs.lstrip_char x s) <> Some x.
Proof.
  induction s as [|a s IH]; [discriminate|].
  simpl. destruct (Ascii.eqb_spec a x) as [-> | Hne]; [exact IH|].
  simpl. congruence.
Qed.

Lemma lstrip_char_fixed x s : first_char s <> Some x -> Usgs.lstrip_char x s = s.
Proof.
  destruct s as [|a s]; [reflexivity|].
  simpl. destruct (Ascii.eqb_spec a x) as [-> | Hne]; [congruence | reflexivity].
Qed.

Lemma rstrip_char_empty x s :
  Usgs.rstrip_char x s = EmptyString <-> all_chars (fun c => Ascii.eqb c x) s = true.
Proof.
  induction s as [|a s IH]; [by split|].
  simpl. destruct (Usgs.rstrip_char x s) as [|b r] eqn:E.
  - destruct (Ascii.eqb a x); simpl.
    + split; [intros _; by apply IH | reflexivity].
    + split; discriminate.
  - split; [discriminate|].
    intros [_ H]%andb_true_iff. apply IH in H. discriminate H.
Qed.

Lemma rstrip_char_all (p : ascii -> bool) x s :
  all_chars p s = true -> all_chars p (Usgs.rstrip_char x s) = true.
Proof.
  induction s as [|a s IH]; [reflexivity|].
  simpl. intros [Ha Hs]%andb_true_iff. specialize (IH Hs).
  destruct (Usgs.rstrip_char x s) as [|b r].
  - destruct (Ascii.eqb a x); [reflexivity|]. simpl. by rewrite Ha.
  - simpl in *. by rewrite Ha, IH.
Qed.

Lemma rstrip_char_last x s : last_char (Usgs.rstrip_char x s) <> Some x.
Proof.
  induction s as [|a s IH]; [discriminate|].
  simpl. destruct (Usgs.rstrip_char x s) as [|b r].
  - destruct (Ascii.eqb_spec a x) as [-> | Hne]; [discriminate|].
    simpl. congruence.
  - exact IH.
Qed.

Lemma rstrip_char_first x s c :
  first_char (Usgs.rstrip_char x s) = Some c -> first_char s = Some c.
Proof.
  destruct s as [|a s]; [discriminate|].
  simpl. destruct (Usgs.rstrip_char x s) as [|b r].
  - destruct (Ascii.eqb a x); [discriminate | by intros].
  - by intros.
Qed.

Lemma rstrip_char_fixed x s : last_char s <> Some x -> Usgs.rstrip_char x s = s.
Proof.
  induction s as [|a s IH]; [reflexivity|].
  simpl. destruct s as [|b s'].
  - simpl. destruct (Ascii.eqb_spec a x) as [-> | Hne]; [congruence | reflexivity].
  - intros H. rewrite (IH H). reflexivity.
Qed.

Lemma cleaned_all_underscore s :
  all_chars (fun c => Ascii.eqb c "_") (Usgs.cleaned isalnum s)
  = all_chars (dropped_char isalnum) s.
Proof.
  induction s as [|c s IH]; [reflexivity|].
  simpl. rewrite IH. f_equal.
  unfold Usgs.cleaned_char, dropped_char.
  destruct (isalnum c || Ascii.eqb c "-") eqn:E; simpl.
  - by rewrite orb_false_r.
  - destruct (Ascii.eqb c "_") eqn:E'; [exact E' | reflexivity].
Qed.

Lemma lstrip_char_empty x s :
  Usgs.lstrip_char x s = EmptyString <-> all_chars (fun c => Ascii.eqb c x) s = true.
Proof.
  induction s as [|a s IH]; [by split|].
  simpl. destruct (Ascii.eqb a x); simpl; [exact IH | by split].
Qed.

End SanitizeFacts.

Lemma sanitize_filename_charset_aux (isalnum : ascii -> bool) (name : string) :
  all_chars (allowed_char isalnum) (Usgs.sanitize_filename isalnum name) = true /\
  first_char (Usgs.sanitize_filename isalnum name) <> Some "_"%char /\
  last_char (Usgs.sanitize_filename isalnum name) <> Some "_"%char.
Proof.
  unfold Usgs.sanitize_filename. split; [|split].
  - apply rstrip_char_all, lstrip_char_all, cleaned_allowed.
  - intros H. apply rstrip_char_first in H. by apply lstrip_char_first in H.
  - apply rstrip_char_last.
Qed.

(** X5: a sanitized file name consists of alphanumeric characters, dashes
    and underscores only, and neither begins nor ends with an underscore. *)
Theorem sanitize_filename_charset (isalnum : ascii -> bool) (name : string) :
  all_chars (allowed_char isalnum) (Usgs.sanitize_filename isalnum name) = true /\
  first_char (Usgs.sanitize_filename isalnum name) <> Some "_"%char /\
  last_char (Usgs.sanitize_filename isalnum name) <> Some "_"%char.
Proof. apply sanitize_filename_charset_aux. Qed.

(** X6: sanitizing is idempotent: a sanitized name is left as it is. *)
Theorem sanitize_filename_idempotent (isalnum : ascii -> bool) (name : string) :
  Usgs.sanitize_filename isalnum (Usgs.sanitize_filename isalnum name)
  = Usgs.sanitize_filename isalnum name.
Proof.
  destruct (sanitize_filename_charset_aux isalnum name) as (Hall & Hfirst & Hlast).
  set (r := Usgs.sanitize_filename isalnum name) in *.
  unfold Usgs.sanitize_filename at 1.
  rewrite (cleaned_fixed isalnum r Hall), (lstrip_char_fixed _ r Hfirst).
  apply rstrip_char_fixed, Hlast.
Qed.

(** X7: the sanitized name is empty exactly when every character of the
    name is an underscore or is neither alphanumeric nor a dash. *)
Theorem sanitize_filename_empty (isalnum : ascii -> bool) (name : string) :
  Usgs.sanitize_filename isalnum name = EmptyString
  <-> all_chars (dropped_char isalnum) name = true.
Proof.
  unfold Usgs.sanitize_filename.
  rewrite <- cleaned_all_underscore, <- lstrip_char_empty.
  split.
  - intros H. apply rstrip_char_empty in H.
    destruct (Usgs.lstrip_char "_" (Usgs.cleaned isalnum name)) as [|a s] eqn:E;
      [reflexivity|].
    exfalso. apply (lstrip_char_first "_" (Usgs.cleaned isalnum name)).
    rewrite E. simpl in H |- *. apply andb_true_iff in H as [Ha _].
    apply Ascii.eqb_eq in Ha. by rewrite Ha.
  - by intros ->.
Qed.

Section FetchItemsFacts.
Variable item : Type.
Variable get : nat -> outcome (list item).
Variable max_items : Z.

(** The loop against a server that holds [data] and answers a request
    with the page of at most [max_items] items at the offset. *)
Lemma fetch_items_loop_pages (data : list item) (fuel offset : nat) :
  (0 < max_items)%Z ->
  (forall o, get o = Returned (take (Z.to_nat max_items) (drop o data))) ->
  (length data - offset < fuel)%nat ->
  Usgs.fetch_items_loop item get max_items fuel (take offset data) offset
  = Some (Returned data).
Proof.
  intros Hmax Hget. revert offset.
  induction fuel as [|fuel IH]; intros offset Hfuel; [lia|].
  simpl. rewrite Hget.
  destruct (take (Z.to_nat max_items) (drop offset data)) as [|x batch] eqn:Eb.
  - apply take_nil_inv in Eb as [Hz | Hd]; [lia|].
    apply drop_nil_inv in Hd. by rewrite take_ge.
  - rewrite <- Eb, take_take_drop.
    assert (Hlen : length (take (Z.to_nat max_items) (drop offset data))
                   = Nat.min (Z.to_nat max_items) (length data - offset)).
    { by rewrite length_take, length_drop. }
    assert (Hpos : (0 < length (take (Z.to_nat max_items) (drop offset data)))%nat).
    { rewrite Eb. simpl. lia. }
    destruct (Z.ltb_spec (Z.of_nat (length (take (Z.to_nat max_items)
                                                 (drop offset data)))) max_items)
      as [Hlt | Hge].
    + rewrite take_ge; [reflexivity|]. lia.
    + replace (offset + length (take (Z.to_nat max_items) (drop offset data)))%nat
        with (offset + Z.to_nat max_items)%nat by lia.
      apply IH. lia.
Qed.

Lemma fetch_items_loop_hangs (fuel : nat) (items : list item) (offset : nat) :
  (forall o, exists batch, get o = Returned batch /\ batch <> [] /\
                           (max_items <= Z.of_nat (length batch))%Z) ->
  Usgs.fetch_items_loop item get max_items fuel items offset = None.
Proof.
  intros Hget. revert items offset.
  induction fuel as [|fuel IH]; intros items offset; [reflexivity|].
  simpl. destruct (Hget offset) as (batch & -> & Hne & Hlen).
  destruct batch as [|x batch]; [congruence|].
  destruct (Z.ltb_spec (Z.of_nat (length (x :: batch))) max_items); [lia|].
  apply IH.
Qed.

End FetchItemsFacts.

(** X8: against a server that holds a finite list and answers each request
    with the page of at most [max_items > 0] items at the requested
    offset, [fetch_items] ends and returns the whole list, in order. *)
Theorem fetch_items_collects_all (item : Type) (get : nat -> outcome (list item))
    (max_items : Z) (data : list item) (fuel : nat) :
  (0 < max_items)%Z ->
  (forall o, get o = Returned (take (Z.to_nat max_items) (drop o data))) ->
  (length data < fuel)%nat ->
  Usgs.fetch_items item get max_items fuel = Some (Returned data).
Proof.
  intros Hmax Hget Hfuel. unfold Usgs.fetch_items.
  apply (fetch_items_loop_pages item get max_items data fuel 0 Hmax Hget). lia.
Qed.

Lemma fetch_items_collects_all_witness :
  Usgs.fetch_items nat (fun o => Returned (take 2 (drop o [10; 20; 30; 40; 50]%nat)))
                   2 6
  = Some (Returned [10; 20; 30; 40; 50]%nat).
Proof.
  apply (fetch_items_collects_all nat _ 2 [10; 20; 30; 40; 50]%nat 6).
  - lia.
  - intros o. reflexivity.
  - simpl. lia.
Defined.

(** X9: [fetch_items] has no bound on the number of pages: against a
    server that answers every request with a non-empty page of at least
    [max_items] items, the loop never ends. *)
Theorem fetch_items_unbounded (item : Type) (get : nat -> outcome (list item))
    (max_items : Z) :
  (forall o, exists batch, get o = Returned batch /\ batch <> [] /\
                           (max_items <= Z.of_nat (length batch))%Z) ->
  forall fuel, Usgs.fetch_items item get max_items fuel = None.
Proof.
  intros Hget fuel. apply fetch_items_loop_hangs, Hget.
Qed.

Lemma fetch_items_unbounded_witness :
  Usgs.fetch_items nat (fun o => Returned [o; o]) 2 1000 = None.
Proof.
  apply (fetch_items_unbounded nat (fun o => Returned [o; o]) 2).
  intros o. exists [o; o]. split; [reflexivity|]. split; [discriminate | simpl; lia].
Defined.

Section DownloadFacts.
Variable get : nat -> Usgs.attempt_result.
Variable max_retries : Z.

(** The loop when no attempt ends with an uncaught exception. *)
Lemma download_attempts_spec (attempt remaining waited : nat) :
  (forall n partial, get n <> Usgs.OtherError partial) ->
  Z.of_nat (attempt + remaining) = max_retries ->
  waited = (5 * attempt * (attempt + 1))%nat ->
  let d := Usgs.download_attempts get max_retries attempt remaining waited in
  match Usgs.d_end d with
  | Usgs.Finished =>
      (Usgs.d_exists d = true /\ get (Usgs.d_requests d - 1)%nat = Usgs.Complete /\
       (attempt < Usgs.d_requests d)%nat)
      \/ (remaining = 0%nat /\ Usgs.d_exists d = false /\ Usgs.d_requests d = attempt)
  | Usgs.RuntimeError =>
      Usgs.d_exists d = false /\
      Z.of_nat (Usgs.d_requests d) = max_retries /\
      Z.of_nat (Usgs.d_waited d) = (5 * max_retries * (max_retries - 1))%Z
  | Usgs.Propagated => False
  end.
Proof.
  intros Hget. revert attempt waited.
  induction remaining as [|remaining IH]; intros attempt waited Hsum Hw; simpl.
  - right. repeat split.
  - destruct (get attempt) as [ | partial | partial] eqn:E.
    + simpl. left. rewrite Nat.sub_0_r. repeat split; [exact E | lia].
    + destruct (Z.ltb_spec (Z.of_nat attempt) (max_retries - 1)) as [Hlt | Hge].
      * specialize (IH (S attempt) (waited + (attempt + 1) * 10)%nat
                      ltac:(lia) ltac:(nia)).
        cbv zeta in IH.
        destruct (Usgs.d_end (Usgs.download_attempts get max_retries (S attempt)
                                remaining (waited + (attempt + 1) * 10))).
        -- destruct IH as [(H1 & H2 & H3) | (H1 & H2 & H3)]; [|lia].
           left. repeat split; [assumption | assumption | lia].
        -- exact IH.
        -- exact IH.
      * simpl. repeat split; [lia | nia].
    + exfalso. by apply (Hget attempt partial).
Qed.

End DownloadFacts.

(** X10: when the destination does not exist yet and no attempt ends with
    an uncaught exception, [download_file] never leaves a partial file:
    it either returns after a complete download, or raises the runtime
    error after exactly [max_retries] requests, with the destination
    absent and [10 + 20 + ...] seconds waited between the attempts; with
    [max_retries <= 0] it returns at once, without a request, a file or an
    error. *)
Theorem download_file_outcomes (get : nat -> Usgs.attempt_result) (max_retries : Z) :
  (forall n partial, get n <> Usgs.OtherError partial) ->
  match Usgs.d_end (Usgs.download_file false get max_retries) with
  | Usgs.Finished =>
      (Usgs.d_exists (Usgs.download_file false get max_retries) = true /\
       get (Usgs.d_requests (Usgs.download_file false get max_retries) - 1)%nat
       = Usgs.Complete /\
       (0 < max_retries)%Z)
      \/ ((max_retries <= 0)%Z /\
          Usgs.d_exists (Usgs.download_file false get max_retries) = false /\
          Usgs.d_requests (Usgs.download_file false get max_retries) = 0%nat)
  | Usgs.RuntimeError =>
      Usgs.d_exists (Usgs.download_file false get max_retries) = false /\
      Z.of_nat (Usgs.d_requests (Usgs.download_file false get max_retries))
      = max_retries /\
      Z.of_nat (Usgs.d_waited (Usgs.download_file false get max_retries))
      = (5 * max_retries * (max_retries - 1))%Z
  | Usgs.Propagated => False
  end.
Proof.
  intros Hget. unfold Usgs.download_file.
  destruct (Z.le_gt_cases max_retries 0) as [Hle | Hgt].
  - replace (Z.to_nat max_retries) with 0%nat by lia. simpl.
    right. repeat split. exact Hle.
  - pose proof (download_attempts_spec get max_retries 0 (Z.to_nat max_retries) 0
                  Hget ltac:(lia) eq_refl) as H.
    cbv zeta in H.
    destruct (Usgs.d_end (Usgs.download_attempts get max_retries 0
                            (Z.to_nat max_retries) 0)); [|exact H | exact H].
    destruct H as [(H1 & H2 & _) | (H1 & _)]; [|lia].
    left. repeat split; assumption || lia.
Qed.

Lemma download_file_outcomes_witness :
  Usgs.d_end (Usgs.download_file false (fun _ => Usgs.NetworkError true) 3)
  = Usgs.RuntimeError /\
  Usgs.d_exists (Usgs.download_file false (fun _ => Usgs.NetworkError true) 3)
  = false /\
  Usgs.d_waited (Usgs.download_file false (fun _ => Usgs.NetworkError true) 3)
  = 30%nat.
Proof.
  pose proof (download_file_outcomes (fun _ => Usgs.NetworkError true) 3) as H.
  assert (E : Usgs.d_end (Usgs.download_file false (fun _ => Usgs.NetworkError true) 3)
              = Usgs.RuntimeError) by reflexivity.
  rewrite E in H. destruct H as (H1 & _ & H3); [intros n p; discriminate|].
  split; [exact E|]. split; [exact H1|]. lia.
Defined.

(* ===================================================================== *)
(** ** The batch loops *)
(* ===================================================================== *)

Lemma count_if_cons {A : Type} (p : A -> bool) (x : A) (l : list A) :
  count_if p (x :: l) = ((if p x then 1 else 0) + count_if p l)%nat.
Proof. unfold count_if. simpl. by destruct (p x). Qed.

Lemma count_if_nil {A : Type} (p : A -> bool) : count_if p [] = 0%nat.
Proof. reflexivity. Qed.

Section RoadsBatchFacts.
Variable py_float : string -> option Py.pyfloat.
Variable py_int : string -> option Z.
Variable real_of : Py.pynum -> R.
Variable trimesh : Type.
Variable Trimesh : Roads.Mesh -> trimesh.
Variable heightmap : option Heightmap.HeightmapSampler.
Variables default_elevation origin_lat origin_lon : R.
Hypothesis Hready : sampler_ready heightmap.

Local Abbreviation step := (RoadsMain.step py_float py_int real_of trimesh Trimesh heightmap
                    default_elevation origin_lat origin_lon).
Local Abbreviation process := (RoadsMain.process py_float py_int real_of trimesh Trimesh heightmap
                       default_elevation origin_lat origin_lon).

Lemma roads_step_short (t : RoadsMain.tally trimesh) (road : feature) :
  (node_count road < 2)%nat ->
  step t road
  = Returned {| RoadsMain.meshes := RoadsMain.meshes t;
                RoadsMain.skipped := RoadsMain.skipped t + 1;
                RoadsMain.type_counts := RoadsMain.type_counts t |}.
Proof.
  unfold node_count, RoadsMain.step. intros H.
  destruct (Nat.ltb_spec (length (default [] (f_nodes road))) 2); [reflexivity | lia].
Qed.

Lemma roads_step_long (t : RoadsMain.tally trimesh) (road : feature) :
  (2 <= node_count road)%nat ->
  exists m,
    step t road
    = Returned {| RoadsMain.meshes := RoadsMain.meshes t ++ [m];
                  RoadsMain.skipped := RoadsMain.skipped t;
                  RoadsMain.type_counts :=
                    <[highway_type road :=
                        (default 0 (RoadsMain.type_counts t !! highway_type road) + 1)%nat]>
                      (RoadsMain.type_counts t) |}.
Proof using Hready.
  unfold node_count, RoadsMain.step, highway_type. intros H.
  destruct (Nat.ltb_spec (length (default [] (f_nodes road))) 2); [lia|].
  destruct (road_points_returns heightmap default_elevation origin_lat origin_lon
              (default [] (f_nodes road)) Hready) as [pts Hpts].
  rewrite (road_to_mesh_built Trimesh _ _ _ _ _ _ pts H Hpts). simpl.
  eexists; reflexivity.
Qed.

Lemma roads_process_spec (roads : list feature) (t : RoadsMain.tally trimesh) :
  exists t',
    process t roads = Returned t' /\
    length (RoadsMain.meshes t')
    = (length (RoadsMain.meshes t)
       + count_if (fun f => 2 <=? node_count f)%nat roads)%nat /\
    RoadsMain.skipped t'
    = (RoadsMain.skipped t + count_if (fun f => node_count f <? 2)%nat roads)%nat /\
    forall ty,
      default 0%nat (RoadsMain.type_counts t' !! ty)
      = (default 0%nat (RoadsMain.type_counts t !! ty)
         + count_if (fun f => (2 <=? node_count f)%nat
                              && String.eqb (highway_type f) ty) roads)%nat.
Proof using Hready.
  revert t. induction roads as [|road roads IH]; intros t.
  - exists t. rewrite !count_if_nil.
    repeat split; first [lia | intros ty; rewrite count_if_nil; lia].
  - cbn [RoadsMain.process]. destruct (Nat.ltb_spec (node_count road) 2) as [Hshort | Hlong].
    + rewrite (roads_step_short t road Hshort). cbn [obind].
      destruct (IH {| RoadsMain.meshes := RoadsMain.meshes t;
                      RoadsMain.skipped := RoadsMain.skipped t + 1;
                      RoadsMain.type_counts := RoadsMain.type_counts t |})
        as (t' & Ht' & Hm & Hs & Hc).
      cbn [RoadsMain.meshes RoadsMain.skipped RoadsMain.type_counts] in Hm, Hs, Hc.
      exists t'. split; [exact Ht'|]. rewrite !count_if_cons.
      destruct (Nat.leb_spec 2 (node_count road)); [lia|].
      destruct (Nat.ltb_spec (node_count road) 2); [|lia].
      repeat split; [lia | lia |].
      intros ty. rewrite Hc, count_if_cons.
      destruct (Nat.leb_spec 2 (node_count road)); [lia | reflexivity].
    + destruct (roads_step_long t road Hlong) as [m Hstep]. rewrite Hstep. cbn [obind].
      match goal with
      | |- context [process ?t0 roads] => destruct (IH t0) as (t' & Ht' & Hm & Hs & Hc)
      end.
      cbn [RoadsMain.meshes RoadsMain.skipped RoadsMain.type_counts] in Hm, Hs, Hc.
      exists t'. split; [exact Ht'|]. rewrite !count_if_cons.
      destruct (Nat.leb_spec 2 (node_count road)); [|lia].
      destruct (Nat.ltb_spec (node_count road) 2); [lia|].
      rewrite length_app in Hm. cbn [length] in Hm.
      repeat split; [lia | lia |].
      intros ty. rewrite Hc, count_if_cons.
      destruct (Nat.leb_spec 2 (node_count road)); [|lia].
      destruct (String.eqb_spec (highway_type road) ty) as [<- | Hne]; simpl.
      * rewrite lookup_insert_eq. simpl. lia.
      * rewrite lookup_insert_ne by exact Hne. reflexivity.
Qed.

End RoadsBatchFacts.

(** X11: when the elevation look-ups cannot raise, the road loop ends with
    one mesh for every road of at least two nodes and one skip for every
    road of fewer (meshes and skips add up to the number of roads), and
    with [type_counts] holding, for every highway type, the number of
    roads of at least two nodes of that type, a missing [highway] tag
    counting as [road]. *)
Theorem process_roads_accounts
    (py_float : string -> option Py.pyfloat) (py_int : string -> option Z)
    (real_of : Py.pynum -> R)
    (trimesh : Type) (Trimesh : Roads.Mesh -> trimesh)
    (heightmap : option Heightmap.HeightmapSampler)
    (default_elevation origin_lat origin_lon : R) (roads : list feature) :
  sampler_ready heightmap ->
  exists t,
    RoadsMain.process_roads py_float py_int real_of trimesh Trimesh heightmap
      default_elevation origin_lat origin_lon roads = Returned t /\
    length (RoadsMain.meshes t) = count_if (fun f => 2 <=? node_count f)%nat roads /\
    RoadsMain.skipped t = count_if (fun f => node_count f <? 2)%nat roads /\
    (length (RoadsMain.meshes t) + RoadsMain.skipped t = length roads)%nat /\
    forall ty,
      default 0%nat (RoadsMain.type_counts t !! ty)
      = count_if (fun f => (2 <=? node_count f)%nat
                           && String.eqb (highway_type f) ty) roads.
Proof.
  intros Hready.
  destruct (roads_process_spec py_float py_int real_of trimesh Trimesh heightmap
              default_elevation origin_lat origin_lon Hready roads
              {| RoadsMain.meshes := []; RoadsMain.skipped := 0;
                 RoadsMain.type_counts := ∅ |}) as (t & Ht & Hm & Hs & Hc).
  exists t. split; [exact Ht|].
  cbn [RoadsMain.meshes RoadsMain.skipped RoadsMain.type_counts length] in Hm, Hs, Hc.
  rewrite Nat.add_0_l in Hm, Hs.
  split; [exact Hm|]. split; [exact Hs|]. split.
  - rewrite Hm, Hs. clear.
    induction roads as [|f roads IH]; [reflexivity|].
    rewrite !count_if_cons. cbn [length].
    destruct (Nat.leb_spec 2 (node_count f)), (Nat.ltb_spec (node_count f) 2); lia.
  - intros ty. rewrite Hc, lookup_empty. reflexivity.
Qed.

Lemma process_roads_accounts_witness :
  exists t,
    RoadsMain.process_roads Py.float Py.int finite_real Roads.Mesh (fun arrays => arrays)
      None 0 0 0 demo_roads
    = Returned t /\
    length (RoadsMain.meshes t) = 1%nat /\ RoadsMain.skipped t = 1%nat /\
    default 0%nat (RoadsMain.type_counts t !! "residential") = 1%nat.
Proof.
  destruct (process_roads_accounts Py.float Py.int finite_real
              Roads.Mesh (fun arrays => arrays) None 0 0 0
              demo_roads I) as (t & Ht & Hm & Hs & _ & Hc).
  exists t. split; [exact Ht|]. split; [exact Hm|]. split; [exact Hs|].
  rewrite Hc. reflexivity.
Defined.

Section BuildingsBatchFacts.
Variable py_float : string -> option Py.pyfloat.
Variable py_int : string -> option Z.
Variable real_of : Py.pynum -> R.
Variable polygon : Type.
Variable trimesh : Type.
Variable ShapelyPolygon : list (R * R) -> option polygon.
Variable is_valid : polygon -> bool.
Variable make_valid : polygon -> option (Buildings.geometry polygon).
Variable area : polygon -> R.
Variable extrude_polygon : polygon -> R -> option trimesh.
Variable rotate_z_to_y : trimesh -> trimesh.
Variable apply_translation : R * R * R -> trimesh -> trimesh.
Variable heightmap : option Heightmap.HeightmapSampler.
Variables default_elevation origin_lat origin_lon : R.
Hypothesis Hready : sampler_ready heightmap.

Local Abbreviation step :=
  (BuildingsMain.step py_float py_int real_of polygon trimesh ShapelyPolygon
     is_valid make_valid area extrude_polygon rotate_z_to_y apply_translation
     heightmap default_elevation origin_lat origin_lon).
Local Abbreviation process :=
  (BuildingsMain.process py_float py_int real_of polygon trimesh ShapelyPolygon
     is_valid make_valid area extrude_polygon rotate_z_to_y apply_translation
     heightmap default_elevation origin_lat origin_lon).

Lemma buildings_step_spec (t : BuildingsMain.tally trimesh) (b : feature) :
  exists t',
    step t b = Returned t' /\
    (length (BuildingsMain.meshes trimesh t') + BuildingsMain.skipped trimesh t'
     = length (BuildingsMain.meshes trimesh t) + BuildingsMain.skipped trimesh t + 1)%nat /\
    (BuildingsMain.skipped trimesh t <= BuildingsMain.skipped trimesh t')%nat /\
    ((node_count b < 3)%nat ->
     BuildingsMain.skipped trimesh t' = (BuildingsMain.skipped trimesh t + 1)%nat).
Proof using Hready.
  unfold BuildingsMain.step, node_count.
  destruct (Nat.ltb_spec (length (default [] (f_nodes b))) 3) as [Hshort | Hlong].
  - eexists. split; [reflexivity|]. cbn [BuildingsMain.meshes BuildingsMain.skipped].
    repeat split; lia.
  - set (clat := BuildingsMain.mean (map lat (default [] (f_nodes b)))).
    set (clon := BuildingsMain.mean (map lon (default [] (f_nodes b)))).
    assert (Hbase : exists e,
               match heightmap with
               | Some hm =>
                   do sampled <- Heightmap.sample hm clat clon;
                   Returned (match sampled with
                             | Some s => s
                             | None => default_elevation
                             end)
               | None => Returned default_elevation
               end = Returned e).
    { destruct heightmap as [hm|]; [|eexists; reflexivity].
      destruct (sample_returns hm clat clon Hready) as [r ->].
      eexists; reflexivity. }
    destruct Hbase as [e ->]. cbn [obind].
    destruct (Buildings.polygon_to_mesh _ _ _ _ _ _ _ _ _ _ _ _ _ _) as [m|];
      (eexists; split; [reflexivity|]);
      cbn [BuildingsMain.meshes BuildingsMain.skipped];
      rewrite ?length_app; cbn [length]; repeat split; lia.
Qed.

Lemma buildings_process_spec (bs : list feature) (t : BuildingsMain.tally trimesh) :
  exists t',
    process t bs = Returned t' /\
    (length (BuildingsMain.meshes trimesh t') + BuildingsMain.skipped trimesh t'
     = length (BuildingsMain.meshes trimesh t) + BuildingsMain.skipped trimesh t
       + length bs)%nat /\
    (BuildingsMain.skipped trimesh t
     + count_if (fun f => node_count f <? 3)%nat bs
     <= BuildingsMain.skipped trimesh t')%nat.
Proof using Hready.
  revert t. induction bs as [|b bs IH]; intros t.
  - exists t. rewrite count_if_nil. cbn [BuildingsMain.process length].
    repeat split; lia.
  - cbn [BuildingsMain.process].
    destruct (buildings_step_spec t b) as (t1 & -> & H1 & H2 & H3). cbn [obind].
    destruct (IH t1) as (t' & Ht' & H4 & H5).
    exists t'. split; [exact Ht'|]. rewrite count_if_cons. cbn [length].
    split; [lia|].
    destruct (Nat.ltb_spec (node_count b) 3) as [Hs | Hl]; [|lia].
    specialize (H3 Hs). lia.
Qed.

End BuildingsBatchFacts.

(** X12: when the elevation look-up cannot raise, the building loop ends
    with every building either meshed or counted as skipped (the two
    numbers add up to the number of buildings), and every building of
    fewer than three nodes is among the skipped. *)
Theorem process_buildings_accounts
    (py_float : string -> option Py.pyfloat) (py_int : string -> option Z)
    (real_of : Py.pynum -> R) (polygon trimesh : Type)
    (ShapelyPolygon : list (R * R) -> option polygon)
    (is_valid : polygon -> bool)
    (make_valid : polygon -> option (Buildings.geometry polygon))
    (area : polygon -> R)
    (extrude_polygon : polygon -> R -> option trimesh)
    (rotate_z_to_y : trimesh -> trimesh)
    (apply_translation : R * R * R -> trimesh -> trimesh)
    (heightmap : option Heightmap.HeightmapSampler)
    (default_elevation origin_lat origin_lon : R) (buildings : list feature) :
  sampler_ready heightmap ->
  exists t,
    BuildingsMain.process_buildings py_float py_int real_of polygon trimesh
      ShapelyPolygon is_valid make_valid area extrude_polygon rotate_z_to_y
      apply_translation heightmap default_elevation origin_lat origin_lon buildings
    = Returned t /\
    (length (BuildingsMain.meshes trimesh t) + BuildingsMain.skipped trimesh t
     = length buildings)%nat /\
    (count_if (fun f => node_count f <? 3)%nat buildings
     <= BuildingsMain.skipped trimesh t)%nat.
Proof.
  intros Hready.
  destruct (buildings_process_spec py_float py_int real_of polygon trimesh
              ShapelyPolygon is_valid make_valid area extrude_polygon rotate_z_to_y
              apply_translation heightmap default_elevation origin_lat origin_lon
              Hready buildings
              {| BuildingsMain.meshes := []; BuildingsMain.skipped := 0 |})
    as (t & Ht & H1 & H2).
  exists t. split; [exact Ht|].
  cbn [BuildingsMain.meshes BuildingsMain.skipped length] in H1, H2.
  split; lia.
Qed.

(* ===================================================================== *)
(** ** Further properties of the projection, the repair policy and the
       road strip *)
(* ===================================================================== *)

(** X13: with the origin strictly between the poles the projection keeps
    the orientation its documentation states (X = East, Z = North): of two
    points the one further east has the larger x, the one further north
    the larger z. *)
Theorem projection_orientation (lat1 lon1 lat2 lon2 origin_lat origin_lon : R) :
  (-90 < origin_lat < 90)%R ->
  ((fst (Buildings.latlon_to_local lat1 lon1 origin_lat origin_lon)
    < fst (Buildings.latlon_to_local lat2 lon2 origin_lat origin_lon))%R
   <-> (lon1 < lon2)%R) /\
  ((snd (Buildings.latlon_to_local lat1 lon1 origin_lat origin_lon)
    < snd (Buildings.latlon_to_local lat2 lon2 origin_lat origin_lon))%R
   <-> (lat1 < lat2)%R).
Proof.
  intros Hlat. pose proof (cos_radians_pos origin_lat Hlat) as Hcos.
  pose proof PI_RGT_0 as Hpi. pose proof METERS_TO_FEET_pos as Hk.
  unfold Buildings.latlon_to_local. simpl.
  assert (Hz : (0 < PI / 180 * EARTH_RADIUS * METERS_TO_FEET)%R)
    by apply projection_scale_pos.
  assert (Hx : (0 < PI / 180 * EARTH_RADIUS * cos (radians origin_lat)
                    * METERS_TO_FEET)%R).
  { assert (0 < PI / 180 * EARTH_RADIUS)%R by (unfold EARTH_RADIUS; nra).
    apply Rmult_lt_0_compat; [apply Rmult_lt_0_compat|]; assumption. }
  set (kx := (PI / 180 * EARTH_RADIUS * cos (radians origin_lat))%R) in *.
  set (kz := (PI / 180 * EARTH_RADIUS)%R) in *.
  split; split; intros H; nra.
Qed.

Lemma projection_orientation_witness :
  (fst (Buildings.latlon_to_local 0 0 0 0)
   < fst (Buildings.latlon_to_local 0 1 0 0))%R.
Proof.
  apply (projection_orientation 0 0 0 1 0 0); lra.
Defined.

Lemma polygons_of_elem (polygon : Type) (geoms : list (Buildings.geometry polygon)) (q : polygon) :
  q ∈ Buildings.polygons_of polygon geoms <-> Buildings.GeomPolygon q ∈ geoms.
Proof.
  induction geoms as [|g geoms IH]; simpl.
  - rewrite !elem_of_nil. tauto.
  - destruct g as [p | gs | ].
    + rewrite !elem_of_cons, IH. split; intros [H | H];
        [left; by rewrite H | by right | left; by injection H | by right].
    + rewrite elem_of_cons, IH. split; [by right|].
      intros [H | H]; [discriminate H | exact H].
    + rewrite elem_of_cons, IH. split; [by right|].
      intros [H | H]; [discriminate H | exact H].
Qed.

Lemma max_by_area_spec (polygon : Type) (area : polygon -> R)
    (best : polygon) (ps : list polygon) :
  Buildings.max_by_area polygon area best ps ∈ best :: ps /\
  forall q, q ∈ best :: ps ->
            (area q <= area (Buildings.max_by_area polygon area best ps))%R.
Proof.
  revert best. induction ps as [|p ps IH]; intros best; simpl.
  - split; [by left|]. intros q Hq. apply list_elem_of_singleton in Hq as ->. lra.
  - destruct (Rlt_dec (area best) (area p)) as [Hlt | Hge].
    + destruct (IH p) as [Hin Hmax]. split; [by right|].
      intros q Hq. apply elem_of_cons in Hq as [-> | Hq]; [|by apply Hmax].
      specialize (Hmax p ltac:(by left)). lra.
    + destruct (IH best) as [Hin Hmax]. split.
      * apply elem_of_cons in Hin as [-> | Hin]; [by left | by do 2 right].
      * intros q Hq. apply elem_of_cons in Hq as [-> | Hq];
          [apply Hmax; by left|].
        apply elem_of_cons in Hq as [-> | Hq]; [|apply Hmax; by right].
        specialize (Hmax best ltac:(by left)). lra.
Qed.

(** X14: when [make_valid] turns an invalid polygon into a collection, the
    repair policy keeps a polygon that is a direct member of the
    collection and has the largest area among the direct member polygons;
    it rejects the footprint exactly when the collection has no member
    polygon. *)
Theorem repair_keeps_largest_member (polygon : Type) (is_valid : polygon -> bool)
    (make_valid : polygon -> option (Buildings.geometry polygon))
    (area : polygon -> R) (p : polygon)
    (geoms : list (Buildings.geometry polygon)) :
  is_valid p = false ->
  make_valid p = Some (Buildings.GeometryCollection geoms) ->
  match Buildings.repair polygon is_valid make_valid area p with
  | Some q =>
      Buildings.GeomPolygon q ∈ geoms /\
      forall q', Buildings.GeomPolygon q' ∈ geoms -> (area q' <= area q)%R
  | None => forall q', Buildings.GeomPolygon q' ∉ geoms
  end.
Proof.
  intros Hinv Hmv. unfold Buildings.repair. rewrite Hinv, Hmv.
  destruct (Buildings.polygons_of polygon geoms) as [|q qs] eqn:E.
  - intros q' Hq'. apply polygons_of_elem in Hq'. rewrite E in Hq'.
    by apply elem_of_nil in Hq'.
  - destruct (max_by_area_spec polygon area q qs) as [Hin Hmax]. split.
    + apply polygons_of_elem. by rewrite E.
    + intros q' Hq'. apply Hmax. rewrite <- E. by apply polygons_of_elem.
Qed.

Lemma repair_keeps_largest_member_witness :
  Buildings.GeomPolygon [(0, 0); (1, 0); (0, 1)]%R
  ∈ [Buildings.GeomOther; Buildings.GeomPolygon [(0, 0); (1, 0); (0, 1)]%R] /\
  (ring_area [(0, 0); (1, 0); (0, 1)]%R <= ring_area [(0, 0); (1, 0); (0, 1)]%R)%R.
Proof.
  pose proof (repair_keeps_largest_member (list (R * R)) (fun _ => false)
                (fun p => Some (Buildings.GeometryCollection
                                  [Buildings.GeomOther; Buildings.GeomPolygon p]))
                ring_area [(0, 0); (1, 0); (0, 1)]%R _ eq_refl eq_refl) as [H1 H2].
  split; [exact H1 | exact (H2 _ H1)].
Defined.

Section StripMoreFacts.
Local Open Scope R_scope.
Import Roads.

Lemma strip_faces_elem (n : nat) (f : nat * nat * nat) :
  f ∈ strip_faces n ->
  exists i, (i < n - 1)%nat /\
            (f = (2 * i, 2 * i + 2, 2 * i + 1)%nat
             \/ f = (2 * i + 1, 2 * i + 2, 2 * i + 3)%nat).
Proof.
  unfold strip_faces. intros Hf. apply list_elem_of_In, in_flat_map in Hf.
  destruct Hf as (i & Hi & Hf). apply in_seq in Hi. exists i. split; [lia|].
  cbv zeta in Hf. destruct Hf as [<- | [<- | []]]; [left | right];
    (apply pair_equal_spec; split; [apply pair_equal_spec; split|]); lia.
Qed.

(** The two vertices at index [i] mirror each other in the point, at its
    height; or both are NaN. *)
Lemma strip_pair_mirror (pts : list vec3) (hw : R) (i : nat) :
  (exists l r,
     strip_pair pts hw i = (V l, V r) /\
     vy l = vy (nth i pts vzero) /\ vy r = vy (nth i pts vzero) /\
     vx l + vx r = 2 * vx (nth i pts vzero) /\
     vz l + vz r = 2 * vz (nth i pts vzero))
  \/ (direction_at pts i = DirNaN /\
      strip_pair pts hw i = (VNaN (vy (nth i pts vzero)), VNaN (vy (nth i pts vzero)))).
Proof.
  unfold strip_pair. destruct (direction_at pts i) as [d|]; [left | right; by split].
  eexists _, _. split; [reflexivity|].
  destruct (Rlt_dec (norm d) (1 / 1000)); simpl; repeat split; ring.
Qed.

Lemma normalized_zero (v : vec3) : v = vzero -> normalized v = DirNaN.
Proof.
  intros ->. unfold normalized, norm. simpl.
  replace (0 * 0 + 0 * 0 + 0 * 0) with 0 by ring. rewrite sqrt_0.
  destruct (Req_dec_T 0 0); [reflexivity | contradiction].
Qed.

Lemma vsub_self (p : vec3) : vsub p p = vzero.
Proof. unfold vsub, vzero. f_equal; ring. Qed.

(** An interior point that coincides with a neighbour has no direction. *)
Lemma direction_at_duplicate (pts : list vec3) (i : nat) :
  (0 < i)%nat -> (i < length pts - 1)%nat ->
  (nth i pts vzero = nth (i - 1) pts vzero \/
   nth i pts vzero = nth (i + 1) pts vzero) ->
  direction_at pts i = DirNaN.
Proof.
  intros H0 Hn Hdup. unfold direction_at.
  destruct (Nat.eqb_spec i 0); [lia|].
  destruct (Nat.eqb_spec i (length pts - 1)); [lia|].
  destruct Hdup as [<- | <-]; rewrite vsub_self, (normalized_zero vzero eq_refl).
  - reflexivity.
  - by destruct (normalized _).
Qed.

End StripMoreFacts.

(** X15: the mesh [road_to_mesh] returns is the constructor applied to
    arrays in which every triangle names three different rows of the
    vertex array: its indices are pairwise distinct and below the number
    of vertices handed over.  This for every mesh constructor. *)
Theorem road_faces_well_formed {trimesh : Type} (Trimesh : Roads.Mesh -> trimesh)
    (nodes : list Node) (width : R)
    (heightmap : option Heightmap.HeightmapSampler)
    (default_elevation origin_lat origin_lon : R) (m : trimesh) :
  Roads.road_to_mesh Trimesh nodes width heightmap
    default_elevation origin_lat origin_lon
  = Returned (Some m) ->
  exists arrays,
    m = Trimesh arrays /\
    forall a b c : nat,
      (a, b, c) ∈ Roads.faces arrays ->
      (a < length (Roads.vertices arrays) /\ b < length (Roads.vertices arrays) /\
       c < length (Roads.vertices arrays))%nat /\
      a <> b /\ b <> c /\ a <> c.
Proof.
  intros Hm.
  destruct (Roads.road_points heightmap default_elevation origin_lat origin_lon nodes)
    as [pts|] eqn:Hpts.
  - eexists. split; [exact (road_to_mesh_inv Trimesh _ _ _ _ _ _ _ _ Hpts Hm)|].
    intros a b c Hf. cbn [Roads.vertices Roads.faces] in Hf |- *.
    rewrite strip_vertices_length.
    apply strip_faces_elem in Hf as (i & Hi & [Hf | Hf]);
      injection Hf as -> -> ->; lia.
  - unfold Roads.road_to_mesh in Hm. rewrite Hpts in Hm.
    destruct (length nodes <? 2)%nat; discriminate Hm.
Qed.

Lemma road_faces_well_formed_witness :
  exists arrays,
    Roads.road_to_mesh (fun a => a) east_road 10 None 0 0 0 = Returned (Some arrays) /\
    (0 < length (Roads.vertices arrays) /\ 2 < length (Roads.vertices arrays) /\
     1 < length (Roads.vertices arrays))%nat /\
    0%nat <> 2%nat /\ 2%nat <> 1%nat /\ 0%nat <> 1%nat.
Proof.
  destruct east_road_points as (p & q & Hpts & _).
  assert (Hm := road_to_mesh_built (fun a : Roads.Mesh => a) east_road 10 None 0 0 0
                  [p; q] ltac:(simpl; lia) Hpts).
  destruct (road_faces_well_formed (fun a => a) east_road 10 None 0 0 0 _ Hm)
    as (arrays & Heq & Hfaces).
  exists arrays. split; [by rewrite Hm, Heq|].
  apply (Hfaces 0 2 1)%nat. rewrite <- Heq. by left.
Defined.

(** X16: in exact real arithmetic the width offset of a road is
    horizontal and symmetric: at every point of the polyline the left and
    the right vertex are either both NaN, or both at the height of the
    point with the point as their midpoint in x and in z. *)
Theorem strip_offset_horizontal_symmetric (nodes : list Node) (width : R)
    (heightmap : option Heightmap.HeightmapSampler)
    (default_elevation origin_lat origin_lon : R)
    (pts : list Roads.vec3) (m : Roads.Mesh) (i : nat) (p : Roads.vec3) :
  Roads.road_points heightmap default_elevation origin_lat origin_lon nodes
  = Returned pts ->
  Roads.road_strip nodes width heightmap default_elevation origin_lat origin_lon
  = Returned (Some m) ->
  pts !! i = Some p ->
  (exists l r,
     Roads.vertices m !! (2 * i)%nat = Some (Roads.V l) /\
     Roads.vertices m !! (2 * i + 1)%nat = Some (Roads.V r) /\
     Roads.vy l = Roads.vy p /\ Roads.vy r = Roads.vy p /\
     (Roads.vx l + Roads.vx r = 2 * Roads.vx p)%R /\
     (Roads.vz l + Roads.vz r = 2 * Roads.vz p)%R)
  \/ (Roads.vertices m !! (2 * i)%nat = Some (Roads.VNaN (Roads.vy p)) /\
      Roads.vertices m !! (2 * i + 1)%nat = Some (Roads.VNaN (Roads.vy p))).
Proof.
  intros Hpts Hm Hp.
  rewrite (road_strip_inv _ _ _ _ _ _ _ _ Hpts Hm). cbn [Roads.vertices].
  destruct (strip_vertices_lookup pts (width / 2) i) as [Hl Hr].
  { by apply lookup_lt_Some in Hp. }
  rewrite Hl, Hr.
  destruct (strip_pair_mirror pts (width / 2) i)
    as [(l & r & -> & H1 & H2 & H3 & H4) | [_ ->]];
    rewrite (nth_lookup_Some pts i Roads.vzero p Hp) in *; cbn [fst snd].
  - left. exists l, r. repeat split; assumption.
  - right. split; reflexivity.
Qed.

Lemma strip_offset_horizontal_symmetric_witness :
  exists p q m,
    Roads.road_points None 0 0 0 east_road = Returned [p; q] /\
    Roads.road_strip east_road 10 None 0 0 0 = Returned (Some m) /\
    ((exists l r,
        Roads.vertices m !! 2%nat = Some (Roads.V l) /\
        Roads.vertices m !! 3%nat = Some (Roads.V r) /\
        Roads.vy l = Roads.vy q /\ Roads.vy r = Roads.vy q /\
        (Roads.vx l + Roads.vx r = 2 * Roads.vx q)%R /\
        (Roads.vz l + Roads.vz r = 2 * Roads.vz q)%R)
     \/ (Roads.vertices m !! 2%nat = Some (Roads.VNaN (Roads.vy q)) /\
         Roads.vertices m !! 3%nat = Some (Roads.VNaN (Roads.vy q)))).
Proof.
  destruct east_road_points as (p & q & Hpts & _).
  assert (Hm := road_strip_built east_road 10 None 0 0 0 [p; q]
                  ltac:(simpl; lia) Hpts).
  exists p, q. eexists. split; [exact Hpts|]. split; [exact Hm|].
  exact (strip_offset_horizontal_symmetric east_road 10 None 0 0 0 [p; q] _ 1 q
           Hpts Hm eq_refl).
Defined.

(** X17: a point of the polyline that is neither the first nor the last
    and coincides with the point before or after it gets NaN vertices: the
    zero segment is divided by its zero length. *)
Theorem duplicate_interior_point_gives_nan (nodes : list Node) (width : R)
    (heightmap : option Heightmap.HeightmapSampler)
    (default_elevation origin_lat origin_lon : R)
    (pts : list Roads.vec3) (m : Roads.Mesh) (i : nat) (p : Roads.vec3) :
  Roads.road_points heightmap default_elevation origin_lat origin_lon nodes
  = Returned pts ->
  Roads.road_strip nodes width heightmap default_elevation origin_lat origin_lon
  = Returned (Some m) ->
  (0 < i)%nat -> (i < length pts - 1)%nat ->
  pts !! i = Some p ->
  (pts !! (i - 1)%nat = Some p \/ pts !! (i + 1)%nat = Some p) ->
  Roads.vertices m !! (2 * i)%nat = Some (Roads.VNaN (Roads.vy p)) /\
  Roads.vertices m !! (2 * i + 1)%nat = Some (Roads.VNaN (Roads.vy p)).
Proof.
  intros Hpts Hm H0 Hn Hp Hdup.
  rewrite (road_strip_inv _ _ _ _ _ _ _ _ Hpts Hm). cbn [Roads.vertices].
  destruct (strip_vertices_lookup pts (width / 2) i) as [Hl Hr]; [lia|].
  rewrite Hl, Hr. unfold Roads.strip_pair.
  rewrite (direction_at_duplicate pts i H0 Hn).
  - rewrite (nth_lookup_Some pts i Roads.vzero p Hp). split; reflexivity.
  - rewrite (nth_lookup_Some pts i Roads.vzero p Hp).
    destruct Hdup as [H | H]; [left | right];
      by rewrite (nth_lookup_Some pts _ Roads.vzero p H).
Qed.

Lemma duplicate_interior_point_gives_nan_witness :
  exists m y,
    Roads.road_strip stutter_road 10 None 0 0 0 = Returned (Some m) /\
    Roads.vertices m !! 2%nat = Some (Roads.VNaN y) /\
    Roads.vertices m !! 3%nat = Some (Roads.VNaN y).
Proof.
  assert (Hpts : exists p q r,
             Roads.road_points None 0 0 0 stutter_road = Returned [p; q; q; r])
    by (eexists _, _, _; reflexivity).
  destruct Hpts as (p & q & r & Hpts).
  assert (Hm := road_strip_built stutter_road 10 None 0 0 0 [p; q; q; r]
                  ltac:(simpl; lia) Hpts).
  eexists _, (Roads.vy q). split; [exact Hm|].
  apply (duplicate_interior_point_gives_nan stutter_road 10 None 0 0 0
           [p; q; q; r] _ 1 q Hpts Hm).
  - lia.
  - simpl; lia.
  - reflexivity.
  - right. reflexivity.
Defined.

Lemma process_buildings_accounts_witness :
  exists t,
    demo_process_buildings demo_buildings = Returned t /\
    (length (BuildingsMain.meshes _ t) + BuildingsMain.skipped _ t = 2)%nat /\
    (1 <= BuildingsMain.skipped _ t)%nat.
Proof.
  unfold demo_process_buildings.
  destruct (process_buildings_accounts Py.float Py.int finite_real
              (list (R * R)) (list (R * R) * R * R)
              Some (fun _ => true) (fun p => Some (Buildings.GeomPolygon p)) ring_area
              (fun p h => Some (p, h, 0%R)) (fun m => m)
              (fun t m => (fst (fst m), snd (fst m), snd (fst t)))
              None 0 0 0 demo_buildings I) as (t & Ht & H1 & H2).
  exists t. split; [exact Ht|]. split; [exact H1 | exact H2].
Defined.

Lemma count_if_map {A B : Type} (f : A -> B) (p : B -> bool) (l : list A) :
  count_if p (map f l) = count_if (fun x => p (f x)) l.
Proof.
  induction l as [|x l IH]; [reflexivity|].
  change (map f (x :: l)) with (f x :: map f l).
  by rewrite !count_if_cons, IH.
Qed.

Lemma count_if_filter {A : Type} (q p : A -> bool) (l : list A) :
  count_if p (filter (fun x => q x = true) l) = count_if (fun x => q x && p x) l.
Proof.
  induction l as [|x l IH]; [reflexivity|].
  rewrite filter_cons, count_if_cons.
  destruct (decide (q x = true)) as [Hq | Hq].
  - rewrite count_if_cons, IH, Hq. reflexivity.
  - rewrite IH. destruct (q x); [congruence | reflexivity].
Qed.

(** X18: from the response to the meshes: when the elevation look-ups
    cannot raise, the road loop run over the roads that [parse_elements]
    extracts builds exactly one mesh for every way element that has a
    [highway] tag and at least two references naming a node element, and
    skips every other way with a [highway] tag. *)
Theorem roads_from_response (member : Type) (els : list (Osm.element member))
    (py_float : string -> option Py.pyfloat) (py_int : string -> option Z)
    (real_of : Py.pynum -> R)
    (trimesh : Type) (Trimesh : Roads.Mesh -> trimesh)
    (heightmap : option Heightmap.HeightmapSampler)
    (default_elevation origin_lat origin_lon : R) :
  sampler_ready heightmap ->
  exists t,
    RoadsMain.process_roads py_float py_int real_of trimesh Trimesh heightmap
      default_elevation origin_lat origin_lon
      (map feature_of_way (Osm.roads member (Osm.parse_elements member (Some els))))
    = Returned t /\
    length (RoadsMain.meshes t)
    = count_if (fun w => Osm.has_key "highway" (Osm.w_tags w)
                         && (2 <=? length (Osm.w_nodes w))%nat)
               (ways_of member els) /\
    RoadsMain.skipped t
    = count_if (fun w => Osm.has_key "highway" (Osm.w_tags w)
                         && (length (Osm.w_nodes w) <? 2)%nat)
               (ways_of member els).
Proof.
  intros Hready.
  destruct (roads_process_spec py_float py_int real_of trimesh Trimesh heightmap
              default_elevation origin_lat origin_lon Hready
              (map feature_of_way
                   (Osm.roads member (Osm.parse_elements member (Some els))))
              {| RoadsMain.meshes := []; RoadsMain.skipped := 0;
                 RoadsMain.type_counts := ∅ |}) as (t & Ht & Hm & Hs & _).
  exists t. split; [exact Ht|].
  cbn [RoadsMain.meshes RoadsMain.skipped length] in Hm, Hs.
  rewrite Nat.add_0_l in Hm, Hs. rewrite Hm, Hs.
  assert (Hroads : Osm.roads member (Osm.parse_elements member (Some els))
                   = filter (fun w => Osm.has_key "highway" (Osm.w_tags w) = true)
                            (ways_of member els)).
  { rewrite <- parse_elements_ways. unfold Osm.parse_elements.
    simpl.
    by destruct (Osm.collect_ways member (Osm.collect_nodes member els) els). }
  rewrite Hroads, !count_if_map, !count_if_filter. split; reflexivity.
Qed.

Lemma roads_from_response_witness :
  exists t,
    RoadsMain.process_roads Py.float Py.int finite_real Roads.Mesh (fun arrays => arrays)
      None 0 0 0
      (map feature_of_way
           (Osm.roads unit
              (Osm.parse_elements unit
                 (Some [Osm.ElWay 7 (Some {["highway" := "path"]}) (Some [1; 2; 3]%Z);
                        Osm.ElNode 2 0 0 None]))))
    = Returned t /\
    RoadsMain.skipped t = 1%nat.
Proof.
  destruct (roads_from_response unit
              [Osm.ElWay 7 (Some {["highway" := "path"]}) (Some [1; 2; 3]%Z);
               Osm.ElNode 2 0 0 None]
              Py.float Py.int finite_real Roads.Mesh (fun arrays => arrays)
              None 0 0 0 I) as (t & Ht & _ & Hs).
  exists t. split; [exact Ht|]. rewrite Hs. reflexivity.
Defined.

(* ===================================================================== *)
(** ** fetch_usgs_dem.py: the download loop *)
(* ===================================================================== *)

Example endswith_examples :
  UsgsMain.endswith "a/b/tile.tif" ".tif" = true /\
  UsgsMain.endswith "tile.tiff" ".tif" = false /\
  UsgsMain.endswith "tile.zip" ".tif" = false /\
  UsgsMain.endswith "abc" EmptyString = true.
Proof. vm_compute. repeat split. Qed.

(** With three tries a call that ends normally leaves the file in place;
    it sends no request when the file was there, at least one when it was
    not. *)
Lemma download_file_finished (dest_exists : bool) (g : nat -> Usgs.attempt_result) :
  Usgs.d_end (Usgs.download_file dest_exists g 3) = Usgs.Finished ->
  Usgs.d_exists (Usgs.download_file dest_exists g 3) = true /\
  (Usgs.d_requests (Usgs.download_file dest_exists g 3) = 0%nat
   <-> dest_exists = true).
Proof.
  unfold Usgs.download_file. destruct dest_exists; [by split|].
  change (Z.to_nat 3) with 3%nat. simpl.
  destruct (g 0%nat); simpl; try discriminate; [by split|].
  destruct (g 1%nat); simpl; try discriminate; [by split|].
  destruct (g 2%nat); simpl; try discriminate; by split.
Qed.

Section UsgsMainFacts.
Variable isalnum : ascii -> bool.
Variable get : string -> nat -> Usgs.attempt_result.

Lemma usgs_step_invariant (fs0 : gset string) (st st' : UsgsMain.state)
    (it : UsgsMain.item) :
  UsgsMain.step isalnum get st it = Returned st' ->
  usgs_invariant fs0 st -> usgs_invariant fs0 st'.
Proof.
  unfold UsgsMain.step. intros Hstep Hinv.
  destruct (UsgsMain.downloadURL it) as [url|]; [|by injection Hstep as <-].
  destruct (String.eqb url EmptyString || _); [by injection Hstep as <-|].
  set (filename := (Usgs.sanitize_filename isalnum
                      (default "usgs_dem" (UsgsMain.title it)) ++ ".tif")%string) in *.
  set (d := Usgs.download_file (bool_decide (filename ∈ UsgsMain.files st))
                               (get url) 3) in *.
  destruct (Usgs.d_end d) eqn:Hend; try discriminate Hstep.
  injection Hstep as <-.
  destruct (download_file_finished _ _ Hend) as [Hex Hreq]. fold d in Hex, Hreq.
  rewrite Hex. destruct Hinv as (I1 & I2 & I3 & I4 & I5).
  unfold usgs_invariant, fetched_names in *.
  cbn [UsgsMain.files UsgsMain.downloads UsgsMain.calls].
  rewrite List.filter_app, !map_app, I4. cbn [List.filter map fst snd UsgsMain.e_path].
  destruct (Nat.ltb_spec 0 (Usgs.d_requests d)) as [Hpos | Hzero].
  - assert (Hnew : filename ∉ UsgsMain.files st).
    { intros Hin. assert (Usgs.d_requests d = 0%nat); [|lia].
      apply Hreq. by apply bool_decide_eq_true. }
    cbn [map fst]. split; [|split; [|split; [|split]]].
    + apply NoDup_app. split; [exact I1|]. split; [|apply NoDup_singleton].
      intros name Hname Hin. apply list_elem_of_singleton in Hin as ->.
      by apply I2 in Hname as [_ Hname].
    + intros name H. apply elem_of_app in H as [H | H].
      * apply I2 in H as [H1 H2]. split; [exact H1|].
        apply elem_of_union. by right.
      * apply list_elem_of_singleton in H as ->. split.
        -- intros Hin. apply Hnew. by apply I3.
        -- apply elem_of_union. left. by apply elem_of_singleton.
    + etrans; [exact I3 | apply union_subseteq_r].
    + reflexivity.
    + intros c Hc. apply elem_of_union. apply elem_of_app in Hc as [Hc | Hc].
      * right. by apply I5.
      * apply list_elem_of_singleton in Hc as ->. left. by apply elem_of_singleton.
  - cbn [map]. rewrite app_nil_r. split; [|split; [|split; [|split]]].
    + exact I1.
    + intros name H. apply I2 in H as [H1 H2]. split; [exact H1|].
      apply elem_of_union. by right.
    + etrans; [exact I3 | apply union_subseteq_r].
    + reflexivity.
    + intros c Hc. apply elem_of_union. apply elem_of_app in Hc as [Hc | Hc].
      * right. by apply I5.
      * apply list_elem_of_singleton in Hc as ->. left. by apply elem_of_singleton.
Qed.

Lemma usgs_process_invariant (fs0 : gset string) (items : list UsgsMain.item)
    (st st' : UsgsMain.state) :
  UsgsMain.process isalnum get st items = Returned st' ->
  usgs_invariant fs0 st -> usgs_invariant fs0 st'.
Proof.
  revert st. induction items as [|it items IH]; intros st Hrun Hinv.
  - by injection Hrun as <-.
  - cbn [UsgsMain.process] in Hrun.
    destruct (UsgsMain.step isalnum get st it) as [st1|] eqn:Hstep;
      [|discriminate Hrun].
    cbn [obind] in Hrun. apply (IH st1 Hrun).
    by apply (usgs_step_invariant fs0 st st1 it).
Qed.

End UsgsMainFacts.

(** X19: in a run of the download loop that ends normally, the file names
    for which requests were sent are pairwise distinct and were absent
    from the output directory at the start: of several items whose titles
    sanitize to the same file name only the first can be fetched.  Every
    file named in [downloads] exists at the end, fetched or not. *)
Theorem usgs_fetches_each_name_once (isalnum : ascii -> bool)
    (get : string -> nat -> Usgs.attempt_result) (fs0 : gset string)
    (items : list UsgsMain.item) (st : UsgsMain.state) :
  UsgsMain.process isalnum get
    {| UsgsMain.files := fs0; UsgsMain.downloads := []; UsgsMain.calls := [] |}
    items = Returned st ->
  NoDup (fetched_names st) /\
  (forall name, name ∈ fetched_names st -> name ∉ fs0) /\
  map UsgsMain.e_path (UsgsMain.downloads st) = map fst (UsgsMain.calls st) /\
  (forall e, e ∈ UsgsMain.downloads st -> UsgsMain.e_path e ∈ UsgsMain.files st).
Proof.
  intros Hrun.
  destruct (usgs_process_invariant isalnum get fs0 items _ st Hrun)
    as (I1 & I2 & _ & I4 & I5).
  { unfold usgs_invariant, fetched_names. cbn.
    split; [apply NoDup_nil_2|]. split; [intros name H; by apply elem_of_nil in H|].
    split; [done|]. split; [done|]. intros c H. by apply elem_of_nil in H. }
  split; [exact I1|]. split; [intros name H; exact (proj1 (I2 name H))|].
  split; [exact I4|].
  intros e He.
  assert (Hp : UsgsMain.e_path e ∈ map UsgsMain.e_path (UsgsMain.downloads st)).
  { apply list_elem_of_fmap. by exists e. }
  rewrite I4 in Hp. apply list_elem_of_fmap in Hp as (c & -> & Hc). by apply I5.
Qed.

Lemma usgs_fetches_each_name_once_witness :
  exists st,
    UsgsMain.process isalnum_ascii (fun _ _ => Usgs.Complete)
      {| UsgsMain.files := ∅; UsgsMain.downloads := []; UsgsMain.calls := [] |}
      demo_items = Returned st /\
    NoDup (fetched_names st) /\
    map UsgsMain.e_path (UsgsMain.downloads st) = ["a_b.tif"; "a_b.tif"].
Proof.
  eexists. split; [vm_compute; reflexivity|].
  split.
  - apply (usgs_fetches_each_name_once isalnum_ascii (fun _ _ => Usgs.Complete) ∅
             demo_items). vm_compute. reflexivity.
  - vm_compute. reflexivity.
Defined.

(* ===================================================================== *)
(** ** HeightmapSampler on a grid line *)
(* ===================================================================== *)

(** X20: on a grid line the sample is the linear interpolation of the two
    nodes of that line: for a loaded grid, a row [r] with
    [0 <= r < height - 1] and an in-bounds column, the point that maps to
    row [r] exactly is sampled from [grid[r][c0]] and [grid[r][c0 + 1]]
    alone, whatever the next row holds. *)
Theorem sample_on_grid_row (g : Heightmap.Grid) (r : Z) (lat lon col : R) :
  Heightmap.grid_loaded g ->
  (0 <= r < Heightmap.height g - 1)%Z ->
  (0 <= col < IZR (Heightmap.width g) - 1)%R ->
  Heightmap.grid_position g lat lon = Returned (col, IZR r) ->
  exists v00 v01,
    Heightmap.grid_at g r (trunc col) = Returned v00 /\
    Heightmap.grid_at g r (trunc col + 1) = Returned v01 /\
    Heightmap.sample (Some g) lat lon
    = Returned (Some ((v00 * (1 - (col - IZR (trunc col)))
                       + v01 * (col - IZR (trunc col))) * METERS_TO_FEET)%R).
Proof.
  intros Hg Hr Hcol Hpos.
  destruct (trunc_index col (Heightmap.width g)) as [Hc0 Hc1]; [lra | lra |].
  destruct (grid_at_loaded g r (trunc col) Hg) as [v00 H00]; [lia | lia |].
  destruct (grid_at_loaded g r (trunc col + 1) Hg) as [v01 H01]; [lia | lia |].
  destruct (grid_at_loaded g (r + 1) (trunc col) Hg) as [v10 H10]; [lia | lia |].
  destruct (grid_at_loaded g (r + 1) (trunc col + 1) Hg) as [v11 H11]; [lia | lia |].
  exists v00, v01. split; [exact H00|]. split; [exact H01|].
  assert (Hin : Heightmap.out_of_bounds g col (IZR r) = false).
  { apply out_of_bounds_false. split; [lra|]. rewrite <- minus_IZR.
    split; [apply IZR_le; lia | apply IZR_lt; lia]. }
  rewrite (sample_inside g lat lon col (IZR r) v00 v01 v10 v11 Hpos Hin);
    rewrite ?trunc_IZR by lia; try assumption.
  do 2 f_equal. ring.
Qed.

Lemma sample_on_grid_row_witness :
  exists v00 v01,
    Heightmap.grid_at demo_grid 1 (trunc (1 / 2)) = Returned v00 /\
    Heightmap.grid_at demo_grid 1 (trunc (1 / 2) + 1) = Returned v01 /\
    Heightmap.sample (Some demo_grid) (- 1) (1 / 2)
    = Returned (Some ((v00 * (1 - (1 / 2 - IZR (trunc (1 / 2))))
                       + v01 * (1 / 2 - IZR (trunc (1 / 2)))) * METERS_TO_FEET)%R).
Proof.
  apply (sample_on_grid_row demo_grid 1 (- 1) (1 / 2) (1 / 2) demo_grid_loaded).
  - simpl; lia.
  - simpl; lra.
  - unfold Heightmap.grid_position. simpl.
    destruct (Req_dec_T 1 0) as [H|_]; [lra|]. do 2 f_equal; field.
Defined.
